(** * InGAN networks: a shallow embedding of [networks.py]

    The development models the tensor-shape discipline, the Python slicing
    semantics and the module state of the components of [networks.py], and
    states the properties of the design document against that model.

    Conventions.
    - A tensor is a 4-dimensional array (batch, channels, height, width); it
      is modelled as a shape together with an indexing function.  Only the
      values at indices inside the shape are meaningful.
    - Integers (sizes, indices, numpy [uint32]/[int64] scalars whose range is
      not exceeded) are [Z].
    - Floating-point scalars are modelled by exact numbers: [Q] where the
      code only multiplies and rounds, [R] where it takes logarithms or
      hyperbolic tangents.
    - A Python exception is a value of [PyError]; fallible code lives in the
      [result] monad.
    - Random draws are explicit arguments; the range the generator guarantees
      is a hypothesis of the theorems. *)

From Stdlib Require Import ZArith QArith Qround Qabs Reals Lra Lia.
From stdpp Require Import gmap strings list pretty.

Local Open Scope Z_scope.

(** ** Python exceptions and the result monad *)

Inductive PyError : Type :=
  | AttributeError
  | IndexError
  | TypeError
  | ValueError
  | OverflowError
  | RuntimeError.

Inductive result (A : Type) : Type :=
  | Ok (a : A)
  | Raise (e : PyError).
Arguments Ok {A} a.
Arguments Raise {A} e.

Global Instance result_ret : MRet result := fun _ a => Ok a.
Global Instance result_bind : MBind result := fun _ _ f m =>
  match m with
  | Ok a => f a
  | Raise e => Raise e
  end.

Global Instance result_fmap : FMap result := fun _ _ f m =>
  match m with
  | Ok a => Ok (f a)
  | Raise e => Raise e
  end.

(** ** Tensors *)

Record Shape : Type := mkShape {
  batch : Z;
  channels : Z;
  height : Z;
  width : Z
}.

Record Tensor (A : Type) : Type := mkTensor {
  shape : Shape;
  data : Z -> Z -> Z -> Z -> A
}.
Arguments mkTensor {A} shape data.
Arguments shape {A} t.
Arguments data {A} t n c v h.

Definition in_shape (s : Shape) (n c v h : Z) : Prop :=
  0 <= n < batch s /\ 0 <= c < channels s /\ 0 <= v < height s /\ 0 <= h < width s.

(** [torch.ones_like], [torch.zeros_like] and friends: a constant tensor of
    the shape of [t]. *)
Definition full_like {A B} (t : Tensor A) (x : B) : Tensor B :=
  mkTensor (shape t) (fun _ _ _ _ => x).

(** ** Python slices

    [adjust len i] is what CPython's [PySlice_AdjustIndices] does to one
    bound of a step-1 slice over a dimension of size [len]: a negative bound
    counts from the end, and the result is clamped to [0, len]. *)

Definition adjust (len i : Z) : Z :=
  if i <? 0 then Z.max 0 (i + len) else Z.min i len.

(** Membership of index [i] in the slice [start:stop] of a dimension of size
    [len]. *)
Definition in_slice (len start stop i : Z) : bool :=
  (adjust len start <=? i) && (i <? adjust len stop).

Definition slice_len (len start stop : Z) : Z :=
  Z.max 0 (adjust len stop - adjust len start).

Section Indexing.
Context {A : Type}.

(** [t[:, :, a:b, c:d]] read as a value. *)
Definition getitem_hw (t : Tensor A) (a b c d : Z) : Tensor A :=
  let s := shape t in
  mkTensor
    (mkShape (batch s) (channels s)
             (slice_len (height s) a b) (slice_len (width s) c d))
    (fun n ch i j =>
       data t n ch (adjust (height s) a + i) (adjust (width s) c + j)).

(** A source dimension can be copied into a destination dimension when
    they agree or the source has size 1 (broadcasting). *)
Definition expandable (src dst : Z) : bool := (src =? dst) || (src =? 1).

Definition bidx (dim i : Z) : Z := if dim =? 1 then 0 else i.

Definition expandable_shape (src dst : Shape) : bool :=
  expandable (batch src) (batch dst) && expandable (channels src) (channels dst)
  && expandable (height src) (height dst) && expandable (width src) (width dst).

(** [t[:, :, a:b, c:d] = src] for a tensor [src]: the result is the updated
    tensor. *)
Definition setitem_hw (t : Tensor A) (a b c d : Z) (src : Tensor A)
  : result (Tensor A) :=
  let s := shape t in
  let dst := mkShape (batch s) (channels s)
                     (slice_len (height s) a b) (slice_len (width s) c d) in
  if expandable_shape (shape src) dst then
    Ok (mkTensor s
          (fun n ch v h =>
             if in_slice (height s) a b v && in_slice (width s) c d h
             then data src (bidx (batch (shape src)) n)
                           (bidx (channels (shape src)) ch)
                           (bidx (height (shape src)) (v - adjust (height s) a))
                           (bidx (width (shape src)) (h - adjust (width s) c))
             else data t n ch v h))
  else Raise RuntimeError.

(** [t[:, :, a:b, c:d] = x] for a scalar [x]. *)
Definition fill_hw (t : Tensor A) (a b c d : Z) (x : A) : Tensor A :=
  let s := shape t in
  mkTensor s
    (fun n ch v h =>
       if in_slice (height s) a b v && in_slice (width s) c d h
       then x else data t n ch v h).
End Indexing.

(** ** Random draws *)

(** [np.random.randint(low, high)]: fails when the range is empty; otherwise
    returns the draw, which lies in [low, high). *)
Definition randint (low high draw : Z) : result Z :=
  if low <? high then Ok draw else Raise ValueError.

Definition randint_draw (low high draw : Z) : Prop := low <= draw < high.

(** ** RandomCrop *)

Record RandomCrop : Type := mkRandomCrop {
  rc_crop_size : option (Z * Z);
  rc_return_pos : bool;
  rc_must_divide : Z
}.

(** [RandomCrop.__init__(crop_size, return_pos=False, must_divide=4.0)] *)
Definition RandomCrop_init (crop_size : option (Z * Z)) (return_pos : bool)
    (must_divide : Z) : RandomCrop :=
  mkRandomCrop crop_size return_pos must_divide.

(** [np.clip(x, lo, hi)] is [minimum(maximum(x, lo), hi)]. *)
Definition np_clip (x lo hi : Z) : Z := Z.min (Z.max x lo) hi.

(** [np.uint32] of an integral value. *)
Definition np_uint32 (x : Z) : Z := x mod 2 ^ 32.

(** [floor(x * 1.0 / d) * d], cast to [uint32]. *)
Definition floor_to_multiple (x d : Z) : Z := np_uint32 (x / d * d).

Section RandomCropForward.
Context {A : Type}.

(** The crop size [RandomCrop.forward] uses on a source of size
    [im_v] x [im_h]. *)
Definition RandomCrop_size (self : RandomCrop) (im_v im_h : Z)
    (crop_size : option (Z * Z)) : result (Z * Z) :=
  match crop_size with
  | None =>
      match rc_crop_size self with
      | None => Raise TypeError
      | Some (cs_v, cs_h) =>
          let cr_v := np_clip cs_v 0 (im_v - 1) in
          let cr_h := np_clip cs_h 0 (im_h - 1) in
          Ok (floor_to_multiple cr_v (rc_must_divide self),
              floor_to_multiple cr_h (rc_must_divide self))
      end
  | Some cr => Ok cr
  end.

(** [RandomCrop.forward(input_tensors, crop_size)].  [draw] holds the two
    values returned by [np.random.randint].  The position is returned only
    when [return_pos] is set. *)
Definition RandomCrop_forward (self : RandomCrop)
    (input_tensors : list (option (Tensor A))) (crop_size : option (Z * Z))
    (draw : Z * Z) : result (list (option (Tensor A)) * option (Z * Z)) :=
  match input_tensors with
  | [] => Raise IndexError
  | None :: _ => Raise AttributeError
  | Some t0 :: _ =>
      let im_v := height (shape t0) in
      let im_h := width (shape t0) in
      '(cr_v, cr_h) ← RandomCrop_size self im_v im_h crop_size;
      top_left_v ← randint 0 (im_v - cr_v) (fst draw);
      top_left_h ← randint 0 (im_h - cr_h) (snd draw);
      let out_tensors :=
        (fun o : option (Tensor A) =>
           (fun t => getitem_hw t top_left_v (top_left_v + cr_v)
                                top_left_h (top_left_h + cr_h)) <$> o)
          <$> input_tensors in
      Ok (out_tensors,
          if rc_return_pos self then Some (top_left_v, top_left_h) else None)
  end.
End RandomCropForward.

(** ** SwapCrops *)

Record SwapCrops : Type := mkSwapCrops {
  sc_rand_crop_1 : RandomCrop;
  sc_rand_crop_2 : RandomCrop;
  sc_min_crop_size : Z;
  sc_max_crop_size : Z;
  sc_mask_width : Z
}.

(** [SwapCrops.__init__(min_crop_size, max_crop_size, mask_width=5)] *)
Definition SwapCrops_init (min_crop_size max_crop_size mask_width : Z) : SwapCrops :=
  mkSwapCrops (RandomCrop_init None true 4) (RandomCrop_init None true 4)
              min_crop_size max_crop_size mask_width.

(** Conversion of a float to an unsigned integer truncates toward zero. *)
Definition Qtruncate (q : Q) : Z :=
  if Qle_bool 0 q then Qfloor q else Qceiling q.

(** [np.uint32(u * (max_crop_size - min_crop_size) + min_crop_size)] for one
    draw [u] of [np.random.rand]. *)
Definition sampled_crop_size (self : SwapCrops) (u : Q) : Z :=
  np_uint32
    (Qtruncate (u * inject_Z (sc_max_crop_size self - sc_min_crop_size self)
                + inject_Z (sc_min_crop_size self))%Q).

(** The random draws of one call of [SwapCrops.forward]: the two values of
    [np.random.rand(2)] and the positions drawn by the two crops. *)
Record SwapDraws : Type := mkSwapDraws {
  d_rand : Q * Q;
  d_pos_1 : Z * Z;
  d_pos_2 : Z * Z
}.

Section SwapCropsForward.
Context {A : Type} (zero one : A).

(** The eight assignments that draw the mask, for one region with top left
    corner [(v, h)]. *)
Definition mask_region (mw cr_v cr_h v h : Z) (m : Tensor A) : Tensor A :=
  let m := fill_hw m v (v + cr_v) (h - mw) (h + mw) zero in
  let m := fill_hw m (v - mw) (v + mw) h (h + cr_h) zero in
  let m := fill_hw m v (v + cr_v) (h + cr_h - mw) (h + cr_h + mw) zero in
  let m := fill_hw m (v + cr_v - mw) (v + cr_v + mw) h (h + cr_h) zero in
  m.

(** [SwapCrops.forward(input_tensor)]: the swapped image and the loss
    mask.  Both crops are taken by [rand_crop_1], as in the code.  The crops
    are views of the input, which is never written to; the output and the
    mask are fresh tensors.  The slice bounds mix Python integers with the
    [uint32] crop size and are signed 64-bit integers, so [top_left - mw] can
    be negative. *)
Definition SwapCrops_forward (self : SwapCrops) (input_tensor : Tensor A)
    (d : SwapDraws) : result (Tensor A * Tensor A) :=
  let cr_v := sampled_crop_size self (fst (d_rand d)) in
  let cr_h := sampled_crop_size self (snd (d_rand d)) in
  r1 ← RandomCrop_forward (sc_rand_crop_1 self) [Some input_tensor]
                          (Some (cr_v, cr_h)) (d_pos_1 d);
  r2 ← RandomCrop_forward (sc_rand_crop_1 self) [Some input_tensor]
                          (Some (cr_v, cr_h)) (d_pos_2 d);
  match r1, r2 with
  | ([Some crop_1], Some (v1, h1)), ([Some crop_2], Some (v2, h2)) =>
      let s := shape input_tensor in
      output ← setitem_hw (full_like input_tensor zero)
                          0 (height s) 0 (width s) input_tensor;
      output ← setitem_hw output v1 (v1 + cr_v) h1 (h1 + cr_h) crop_2;
      output ← setitem_hw output v2 (v2 + cr_v) h2 (h2 + cr_h) crop_1;
      let mw := sc_mask_width self in
      let loss_mask := full_like input_tensor one in
      let loss_mask := mask_region mw cr_v cr_h v1 h1 loss_mask in
      let loss_mask := mask_region mw cr_v cr_h v2 h2 loss_mask in
      Ok (output, loss_mask)
  | _, _ => Raise ValueError
  end.

(** What the generator guarantees about the draws of one call on an image
    of size [im_v] x [im_h]. *)
Definition swap_draws_ok (self : SwapCrops) (im_v im_h : Z) (d : SwapDraws) : Prop :=
  let cr_v := sampled_crop_size self (fst (d_rand d)) in
  let cr_h := sampled_crop_size self (snd (d_rand d)) in
  (0 <= fst (d_rand d) < 1)%Q /\ (0 <= snd (d_rand d) < 1)%Q /\
  randint_draw 0 (im_v - cr_v) (fst (d_pos_1 d)) /\
  randint_draw 0 (im_h - cr_h) (snd (d_pos_1 d)) /\
  randint_draw 0 (im_v - cr_v) (fst (d_pos_2 d)) /\
  randint_draw 0 (im_h - cr_h) (snd (d_pos_2 d)).
End SwapCropsForward.

(** Rectangles of pixel positions. *)
Definition in_rect (v0 v1 h0 h1 v h : Z) : bool :=
  (v0 <=? v) && (v <? v1) && (h0 <=? h) && (h <? h1).

(** The four bands of width [2 * mw] centred on the edges of the region with
    top left corner [(v0, h0)] and size [cr_v] x [cr_h]. *)
Definition in_bands (mw cr_v cr_h v0 h0 v h : Z) : bool :=
  in_rect v0 (v0 + cr_v) (h0 - mw) (h0 + mw) v h
  || in_rect (v0 - mw) (v0 + mw) h0 (h0 + cr_h) v h
  || in_rect v0 (v0 + cr_v) (h0 + cr_h - mw) (h0 + cr_h + mw) v h
  || in_rect (v0 + cr_v - mw) (v0 + cr_v + mw) h0 (h0 + cr_h) v h.

(** ** Real-valued tensors: sums, element-wise operations, criteria *)

Definition sum_range (n : Z) (f : Z -> R) : R :=
  foldr (fun i acc => (f (Z.of_nat i) + acc)%R) 0%R (seq 0 (Z.to_nat n)).

(** [torch.sum(t)] *)
Definition tsum (t : Tensor R) : R :=
  let s := shape t in
  sum_range (batch s) (fun n =>
  sum_range (channels s) (fun c =>
  sum_range (height s) (fun v =>
  sum_range (width s) (fun h => data t n c v h)))).

Definition numel (s : Shape) : Z := batch s * channels s * height s * width s.

(** [torch.mean(t)] *)
Definition tmean (t : Tensor R) : R := (tsum t / IZR (numel (shape t)))%R.

Definition tmap {A B} (f : A -> B) (t : Tensor A) : Tensor B :=
  mkTensor (shape t) (fun n c v h => f (data t n c v h)).

(** Broadcasting of one dimension of a binary operation. *)
Definition broadcast_dim (a b : Z) : option Z :=
  if a =? b then Some a
  else if a =? 1 then Some b
  else if b =? 1 then Some a
  else None.

Definition broadcast_shape (s1 s2 : Shape) : option Shape :=
  n ← broadcast_dim (batch s1) (batch s2);
  c ← broadcast_dim (channels s1) (channels s2);
  v ← broadcast_dim (height s1) (height s2);
  h ← broadcast_dim (width s1) (width s2);
  Some (mkShape n c v h).

Definition bdata {A} (t : Tensor A) (n c v h : Z) : A :=
  let s := shape t in
  data t (bidx (batch s) n) (bidx (channels s) c) (bidx (height s) v) (bidx (width s) h).

(** An element-wise binary operation [f(x, y)] on tensors. *)
Definition tmap2 {A B C} (f : A -> B -> C) (x : Tensor A) (y : Tensor B)
  : result (Tensor C) :=
  match broadcast_shape (shape x) (shape y) with
  | Some s => Ok (mkTensor s (fun n c v h => f (bdata x n c v h) (bdata y n c v h)))
  | None => Raise RuntimeError
  end.

(** An in-place binary operation [x op= y]: [y] must expand to the shape of
    [x]. *)
Definition tmap2_inplace {A B} (f : A -> B -> A) (x : Tensor A) (y : Tensor B)
  : result (Tensor A) :=
  if expandable_shape (shape y) (shape x)
  then Ok (mkTensor (shape x) (fun n c v h => f (data x n c v h) (bdata y n c v h)))
  else Raise RuntimeError.

Definition tadd (x y : Tensor R) : result (Tensor R) := tmap2 Rplus x y.

Definition sqr (x : R) : R := (x ^ 2)%R.

(** The criteria used by the loss modules, both with the default reduction
    (the mean over all elements). *)
Inductive Criterion : Type := MSELoss | L1Loss.

Definition Criterion_forward (c : Criterion) (input target : Tensor R) : result R :=
  match c with
  | MSELoss => e ← tmap2 (fun a b => sqr (a - b)) input target; Ok (tmean e)
  | L1Loss => e ← tmap2 (fun a b => Rabs (a - b)) input target; Ok (tmean e)
  end.

(** ** Module objects

    A module instance is its attribute dictionary.  Reading an attribute that
    was never set raises [AttributeError]. *)

Inductive PyVal : Type :=
  | VNone
  | VNum (x : Q)
  | VTensor (t : Tensor R)
  | VCriterion (c : Criterion).

Abbreviation Module := (gmap string PyVal).

Definition getattr (self : Module) (name : string) : result PyVal :=
  match self !! name with
  | Some v => Ok v
  | None => Raise AttributeError
  end.

Definition setattr (self : Module) (name : string) (v : PyVal) : Module :=
  <[name := v]> self.

Definition as_criterion (v : PyVal) : result Criterion :=
  match v with VCriterion c => Ok c | _ => Raise TypeError end.

(** A method call returns its outcome together with the state of the module
    when the call ends (normally or by an exception). *)
Definition Call (X : Type) : Type := result X * Module.

(** *** GANLoss *)

(** [GANLoss.__init__()] *)
Definition GANLoss_init : Module :=
  setattr (setattr ∅ "label_tensor" VNone) "loss" (VCriterion MSELoss).

(** A Python [bool] used as a factor. *)
Definition bool_to_R (b : bool) : R := if b then 1%R else 0%R.

(** [GANLoss.forward(d_last_layer, is_d_input_real)].  The label map is
    moved to the CUDA device, which is taken to be present; the assignment
    to [self.label_tensor] is an update of the attribute dictionary. *)
Definition GANLoss_forward (self : Module) (d_last_layer : Tensor R)
    (is_d_input_real : bool) : Call R :=
  let label := tmap (fun x => (x * bool_to_R is_d_input_real)%R)
                    (full_like d_last_layer 1%R) in
  let self := setattr self "label_tensor" (VTensor label) in
  (loss ← getattr self "loss" ≫= as_criterion;
   label_tensor ← getattr self "label_tensor";
   match label_tensor with
   | VTensor l => Criterion_forward loss d_last_layer l
   | _ => Raise TypeError
   end,
   self).

(** *** WeightedMSELoss *)

(** [WeightedMSELoss.__init__(use_L1=False)] *)
Definition WeightedMSELoss_init (use_L1 : bool) : Module :=
  setattr ∅ "unweighted_loss" (VCriterion (if use_L1 then L1Loss else MSELoss)).

(** [WeightedMSELoss.forward(input_tensor, target_tensor, loss_mask)] *)
Definition WeightedMSELoss_forward (self : Module) (input_tensor target_tensor : Tensor R)
    (loss_mask : option (Tensor R)) : Call R :=
  (match loss_mask with
   | Some mask =>
       e ← tmap2 (fun t i => sqr (t - i)) target_tensor input_tensor;
       e ← tmap2_inplace Rmult e mask;
       Ok (tsum e / tsum mask)%R
   | None =>
       c ← getattr self "unweighted_loss" ≫= as_criterion;
       Criterion_forward c input_tensor target_tensor
   end,
   self).

(** ** Layers

    The numerical kernels whose values no property below depends on
    (convolution with learned weights, normalisation statistics, bilinear
    resampling, the homography warp) are parameters of the model; the shapes
    they produce and the conditions under which they raise are written out.
    Learned parameters are looked up in a state dictionary by module path. *)

Definition Data : Type := Z -> Z -> Z -> Z -> R.

Inductive InterpMode : Type := nearest | bilinear.

Inductive PadMode : Type := reflect.

Inductive Layer (Params : Type) : Type :=
  | ReflectionPad2d (p : Z)
  | Conv2d (θ : Params) (in_channels out_channels kernel_size stride : Z) (bias : bool)
  | BatchNorm2d (θ : Params) (num_features : Z)
  | LeakyReLU (negative_slope : Q)
  | MaxPool2d (kernel_size stride : Z)
  | Tanh
  | Sigmoid.
Arguments ReflectionPad2d {Params} p.
Arguments Conv2d {Params} θ in_channels out_channels kernel_size stride bias.
Arguments BatchNorm2d {Params} θ num_features.
Arguments LeakyReLU {Params} negative_slope.
Arguments MaxPool2d {Params} kernel_size stride.
Arguments Tanh {Params}.
Arguments Sigmoid {Params}.

(** Index of the source element of a reflection padding. *)
Definition reflect_index (len i : Z) : Z :=
  if i <? 0 then - i else if len <=? i then 2 * (len - 1) - i else i.

(** [f.pad(t, (left, right, 0, 0), 'reflect')]: each padding must be smaller
    than the padded dimension. *)
Definition pad_reflect {A} (t : Tensor A) (left right top bottom : Z)
  : result (Tensor A) :=
  let s := shape t in
  if (left <? width s) && (right <? width s)
     && (top <? height s) && (bottom <? height s)
  then Ok (mkTensor
             (mkShape (batch s) (channels s)
                      (height s + top + bottom) (width s + left + right))
             (fun n c v h =>
                data t n c (reflect_index (height s) (v - top))
                           (reflect_index (width s) (h - left))))
  else Raise RuntimeError.

(** Output size of a convolution or pooling window along one dimension. *)
Definition window_out (len kernel_size stride : Z) : Z :=
  (len - kernel_size) / stride + 1.

Section Layers.
Context {Params : Type}.
Variable conv2d_values : Params -> Z -> Z -> bool -> Tensor R -> Data.
Variable batch_norm_values : Params -> Tensor R -> Data.
Variable bilinear_values : Tensor R -> Z -> Z -> Data.
Variable grid_sample_values : Tensor R -> Q * Q -> Z -> Z -> Data.

Definition leaky_relu (slope : Q) (x : R) : R :=
  if Rle_dec 0 x then x else (Q2R slope * x)%R.

Definition sigmoid (x : R) : R := (1 / (1 + exp (- x)))%R.

Definition max_pool_values (t : Tensor R) (k stride : Z) : Data :=
  fun n c v h =>
    let at_ i j := data t n c (v * stride + Z.of_nat i) (h * stride + Z.of_nat j) in
    foldr (fun i acc => foldr (fun j acc => Rmax (at_ i j) acc) acc
                              (seq 0 (Z.to_nat k)))
          (at_ 0%nat 0%nat) (seq 0 (Z.to_nat k)).

(** The forward pass of one layer.  Modules are in training mode as
    constructed, where batch normalisation needs more than one value per
    channel. *)
Definition Layer_forward (l : Layer Params) (t : Tensor R) : result (Tensor R) :=
  let s := shape t in
  match l with
  | ReflectionPad2d p => pad_reflect t p p p p
  | Conv2d θ cin cout k stride bias =>
      if (channels s =? cin) && (k <=? height s) && (k <=? width s)
      then Ok (mkTensor
                 (mkShape (batch s) cout
                          (window_out (height s) k stride)
                          (window_out (width s) k stride))
                 (conv2d_values θ k stride bias t))
      else Raise RuntimeError
  | BatchNorm2d θ c =>
      if negb (channels s =? c) then Raise RuntimeError
      else if batch s * height s * width s <=? 1 then Raise ValueError
      else Ok (mkTensor s (batch_norm_values θ t))
  | LeakyReLU slope => Ok (tmap (leaky_relu slope) t)
  | MaxPool2d k stride =>
      if (0 <? window_out (height s) k stride) && (0 <? window_out (width s) k stride)
      then Ok (mkTensor
                 (mkShape (batch s) (channels s)
                          (window_out (height s) k stride)
                          (window_out (width s) k stride))
                 (max_pool_values t k stride))
      else Raise RuntimeError
  | Tanh => Ok (tmap tanh t)
  | Sigmoid => Ok (tmap sigmoid t)
  end.

(** [nn.Sequential]: the layers applied in order. *)
Fixpoint Sequential_forward (ls : list (Layer Params)) (t : Tensor R)
  : result (Tensor R) :=
  match ls with
  | [] => Ok t
  | l :: ls => t ← Layer_forward l t; Sequential_forward ls t
  end.

(** *** Interpolation *)

Definition nearest_index (len : Z) (scale : Q) (i : Z) : Z :=
  Z.min (Qfloor (inject_Z i * / scale)) (len - 1).

(** [f.interpolate(t, size=(oh, ow), mode='bilinear')] *)
Definition interpolate_size (t : Tensor R) (size : Z * Z) : result (Tensor R) :=
  let s := shape t in
  let '(oh, ow) := size in
  if (0 <? height s) && (0 <? width s) && (0 <? oh) && (0 <? ow)
  then Ok (mkTensor (mkShape (batch s) (channels s) oh ow)
                    (bilinear_values t oh ow))
  else Raise RuntimeError.

(** [f.interpolate(t, scale_factor=scale, mode=mode)]: each output
    dimension is the floor of the scaled input dimension. *)
Definition interpolate_scale (t : Tensor R) (scale : Q) (mode : InterpMode)
  : result (Tensor R) :=
  let s := shape t in
  let oh := Qfloor (inject_Z (height s) * scale) in
  let ow := Qfloor (inject_Z (width s) * scale) in
  if (0 <? height s) && (0 <? width s) && (0 <? oh) && (0 <? ow)
  then Ok (mkTensor (mkShape (batch s) (channels s) oh ow)
             match mode with
             | bilinear => bilinear_values t oh ow
             | nearest => fun n c v h =>
                 data t n c (nearest_index (height s) scale v)
                            (nearest_index (width s) scale h)
             end)
  else Raise RuntimeError.

(** *** MultiScaleLoss *)

(** [MultiScaleLoss.__init__()] *)
Definition MultiScaleLoss_init : Module :=
  setattr ∅ "mse" (VCriterion MSELoss).

Definition as_rational (v : PyVal) : result Q :=
  match v with VNum x => Ok x | _ => Raise TypeError end.

(** The body of the loop of [MultiScaleLoss.forward], from iteration [i]
    on. *)
Fixpoint MultiScaleLoss_loop (self : Module) (i : Z) (scale_weights : list R)
    (input_tensor target_tensor : Tensor R) (loss : R) : result R :=
  match scale_weights with
  | [] => Ok loss
  | scale_weight :: rest =>
      scale_factor ← getattr self "scale_factor" ≫= as_rational;
      input_tensor ← interpolate_scale input_tensor (scale_factor ^ (- i))%Q bilinear;
      mse ← getattr self "mse" ≫= as_criterion;
      e ← Criterion_forward mse input_tensor target_tensor;
      MultiScaleLoss_loop self (i + 1) rest input_tensor target_tensor
                          (loss + scale_weight * e)%R
  end.

(** [MultiScaleLoss.forward(input_tensor, target_tensor, scale_weights)] *)
Definition MultiScaleLoss_forward (self : Module) (input_tensor target_tensor : Tensor R)
    (scale_weights : list R) : Call R :=
  (MultiScaleLoss_loop self 0 scale_weights input_tensor target_tensor 0%R, self).

(** *** Python lists *)

(** [l[i]] for a possibly negative index [i]. *)
Definition py_getitem {X} (l : list X) (i : Z) : result X :=
  let len := Z.of_nat (length l) in
  let j := if i <? 0 then i + len else i in
  if (0 <=? j) && (j <? len)
  then match l !! Z.to_nat j with
       | Some x => Ok x
       | None => Raise IndexError
       end
  else Raise IndexError.

(** [range(n)] *)
Definition py_range (n : Z) : list Z := Z.of_nat <$> seq 0 (Z.to_nat n).

(** A Python [bool] used as an exponent offset. *)
Definition bool_to_Z (b : bool) : Z := if b then 1 else 0.

Definition Qgt_bool (x y : Q) : bool := negb (Qle_bool x y).
Definition Qlt_bool (x y : Q) : bool := negb (Qle_bool y x).

(** The state dictionary: learned parameters by module path. *)
Variable state_dict : string -> Params.

(** *** RescaleBlock *)

Record RescaleBlock : Type := mkRescaleBlock {
  rb_scale : Q;
  rb_conv_layers : list (list (Layer Params));
  rb_max_pool : Layer Params
}.

(** The stage built for index [i] by the loop of [RescaleBlock.__init__]. *)
Definition RescaleBlock_stage (path : string) (scale : Q) (base_channels : Z)
    (use_bias : bool) (i : Z) : list (Layer Params) :=
  let in_channel_power := bool_to_Z (Qgt_bool scale 1) in
  let out_channel_power := bool_to_Z (Qlt_bool scale 1) in
  let name := path +:+ "conv_" +:+ pretty i in
  [ ReflectionPad2d 1;
    Conv2d (state_dict (name +:+ ".1"))
           (base_channels * 2 ^ (i + in_channel_power))
           (base_channels * 2 ^ (i + out_channel_power)) 3 1 use_bias;
    BatchNorm2d (state_dict (name +:+ ".2"))
                (base_channels * 2 ^ (i + out_channel_power));
    LeakyReLU 0.2 ].

(** [RescaleBlock.__init__(n_layers, scale=0.5, base_channels=64,
    use_bias=True)]: stage [i] is stored at index [i], and the list is
    reversed for an upscale block. *)
Definition RescaleBlock_init (path : string) (n_layers : Z) (scale : Q)
    (base_channels : Z) (use_bias : bool) : RescaleBlock :=
  let conv_layers :=
    RescaleBlock_stage path scale base_channels use_bias <$> py_range n_layers in
  mkRescaleBlock scale
    (if Qgt_bool scale 1 then reverse conv_layers else conv_layers)
    (MaxPool2d 2 2).

(** The loop of [RescaleBlock.forward], from stage [i] on. *)
Fixpoint RescaleBlock_loop (self : RescaleBlock) (pyramid : option (list (Tensor R)))
    (return_all_scales skip : bool) (i : Z) (conv_layers : list (list (Layer Params)))
    (feature_map : Tensor R) (all_scales : list (Tensor R))
  : result (Tensor R * list (Tensor R)) :=
  match conv_layers with
  | [] => Ok (feature_map, all_scales)
  | conv_layer :: rest =>
      feature_map ←
        (if Qgt_bool (rb_scale self) 1
         then interpolate_scale feature_map (rb_scale self) nearest
         else Ok feature_map);
      feature_map ← Sequential_forward conv_layer feature_map;
      feature_map ←
        (if skip
         then match pyramid with
              | None => Raise TypeError
              | Some pyramid =>
                  p ← py_getitem pyramid (- i - 2); tadd feature_map p
              end
         else Ok feature_map);
      feature_map ←
        (if Qlt_bool (rb_scale self) 1
         then Layer_forward (rb_max_pool self) feature_map
         else Ok feature_map);
      let all_scales :=
        if return_all_scales then all_scales ++ [feature_map] else all_scales in
      RescaleBlock_loop self pyramid return_all_scales skip (i + 1) rest
                        feature_map all_scales
  end.

(** [RescaleBlock.forward(input_tensor, pyramid=None,
    return_all_scales=False, skip=False)] *)
Definition RescaleBlock_forward (self : RescaleBlock) (input_tensor : Tensor R)
    (pyramid : option (list (Tensor R))) (return_all_scales skip : bool)
  : result (Tensor R * option (list (Tensor R))) :=
  let all_scales := if return_all_scales then [input_tensor] else [] in
  '(feature_map, all_scales) ←
    RescaleBlock_loop self pyramid return_all_scales skip 0
                      (rb_conv_layers self) input_tensor all_scales;
  Ok (feature_map, if return_all_scales then Some all_scales else None).

(** *** ResnetBlock *)

Record ResnetBlock : Type := mkResnetBlock {
  rn_conv_block : list (Layer Params)
}.

(** [ResnetBlock.__init__(dim, use_bias)] *)
Definition ResnetBlock_init (path : string) (dim : Z) (use_bias : bool) : ResnetBlock :=
  let name i := path +:+ "conv_block." +:+ pretty (i : Z) in
  mkResnetBlock
    [ Conv2d (state_dict (name 0)) dim (dim / 4) 1 1 use_bias;
      BatchNorm2d (state_dict (name 1)) (dim / 4);
      LeakyReLU 0.2;
      ReflectionPad2d 1;
      Conv2d (state_dict (name 4)) (dim / 4) (dim / 4) 3 1 use_bias;
      BatchNorm2d (state_dict (name 5)) (dim / 4);
      LeakyReLU 0.2;
      Conv2d (state_dict (name 7)) (dim / 4) dim 1 1 use_bias;
      BatchNorm2d (state_dict (name 8)) dim ].

(** [ResnetBlock.forward(input_tensor)] *)
Definition ResnetBlock_forward (self : ResnetBlock) (input_tensor : Tensor R)
  : result (Tensor R) :=
  r ← Sequential_forward (rn_conv_block self) input_tensor;
  tadd input_tensor r.

Fixpoint Bottleneck_forward (blocks : list ResnetBlock) (t : Tensor R)
  : result (Tensor R) :=
  match blocks with
  | [] => Ok t
  | b :: blocks => t ← ResnetBlock_forward b t; Bottleneck_forward blocks t
  end.

(** *** GeoTransform *)

(** The two horizontal paddings computed by [GeoTransform.forward] for an
    input of width [w]:
    [np.abs(np.int(np.ceil(w * shifts[0])))] and
    [np.abs(np.int(np.ceil(-w * shifts[1])))]. *)
Definition GeoTransform_pads (w : Z) (shifts : Q * Q) : Z * Z :=
  (Z.abs (Qceiling (inject_Z w * fst shifts)),
   Z.abs (Qceiling (- inject_Z w * snd shifts))).

(** The local [pad] of [GeoTransform.forward]. *)
Definition GeoTransform_pad (input_tensor : Tensor R) (shifts : Q * Q)
  : result (Tensor R) :=
  let sz := shape input_tensor in
  let '(pad_l, pad_r) := GeoTransform_pads (width sz) shifts in
  pad_reflect input_tensor pad_l pad_r 0 0.

(** Modelled from the spec: [homography_based_on_top_corners_x_shift] and
    [homography_grid] of [util] are not part of the sources; the spec says
    the first maps the shift descriptor to a projective transform and the
    second builds a resampling grid of the target size, so that
    [grid_sample] returns a tensor of the target size with the batch and
    channel counts of the padded input.  Its values are a kernel. *)
Definition grid_sample_homography (pad : Tensor R) (shifts : Q * Q)
    (target_size : Z * Z) : result (Tensor R) :=
  Ok (mkTensor
        (mkShape (batch (shape pad)) (channels (shape pad))
                 (fst target_size) (snd target_size))
        (grid_sample_values pad shifts (fst target_size) (snd target_size))).

(** [GeoTransform.forward(input_tensor, target_size, shifts)] *)
Definition GeoTransform_forward (input_tensor : Tensor R) (target_size : Z * Z)
    (shifts : Q * Q) : result (Tensor R) :=
  pad ← GeoTransform_pad input_tensor shifts;
  grid_sample_homography pad shifts target_size.

(** *** Generator *)

Record Generator : Type := mkGenerator {
  g_skip : bool;
  g_entry_block : list (Layer Params);
  g_downscale_block : RescaleBlock;
  g_bottleneck_block : list ResnetBlock;
  g_upscale_block : RescaleBlock;
  g_final_block : list (Layer Params)
}.

(** [Generator.__init__(base_channels=64, n_blocks=6, n_downsampling=3,
    use_bias=True, skip_flag=True)] *)
Definition Generator_init (base_channels n_blocks n_downsampling : Z)
    (use_bias skip_flag : bool) : Generator :=
  mkGenerator skip_flag
    [ ReflectionPad2d 3;
      Conv2d (state_dict "entry_block.1") 3 base_channels 7 1 use_bias;
      BatchNorm2d (state_dict "entry_block.2") base_channels;
      LeakyReLU 0.2 ]
    (RescaleBlock_init "downscale_block." n_downsampling 0.5 base_channels true)
    ((fun j => ResnetBlock_init ("bottleneck_block." +:+ pretty j +:+ ".")
                                (base_channels * 2 ^ n_downsampling) use_bias)
       <$> py_range n_blocks)
    (RescaleBlock_init "upscale_block." n_downsampling 2.0 base_channels true)
    [ ReflectionPad2d 3;
      Conv2d (state_dict "final_block.1") base_channels 3 7 1 true;
      Tanh ].

(** [Generator.forward(input_tensor, output_size, random_affine)] *)
Definition Generator_forward (self : Generator) (input_tensor : Tensor R)
    (output_size : Z * Z) (random_affine : option (Q * Q)) : result (Tensor R) :=
  feature_map ← Sequential_forward (g_entry_block self) input_tensor;
  feature_map ←
    match random_affine with
    | None => interpolate_size feature_map output_size
    | Some shifts => GeoTransform_forward feature_map output_size shifts
    end;
  '(feature_map, downscales) ←
    RescaleBlock_forward (g_downscale_block self) feature_map None (g_skip self) false;
  feature_map ← Bottleneck_forward (g_bottleneck_block self) feature_map;
  '(feature_map, _) ←
    RescaleBlock_forward (g_upscale_block self) feature_map downscales false (g_skip self);
  Sequential_forward (g_final_block self) feature_map.

(** A downscale block followed by an upscale block that fuses the pyramid
    produced by the downscale pass, as [Generator.forward] composes them
    when skip connections are enabled. *)
Definition Rescale_down_up (down up : RescaleBlock) (input_tensor : Tensor R)
  : result (Tensor R) :=
  '(feature_map, downscales) ← RescaleBlock_forward down input_tensor None true false;
  '(feature_map, _) ← RescaleBlock_forward up feature_map downscales false true;
  Ok feature_map.
End Layers.

(** ** MultiScaleDiscriminator: construction *)

(** [np.ceil] of a real number, as an integer. *)
Definition np_ceil (x : R) : Z := - Int_part (- x).

(** [np.int(np.ceil(np.log(m * 1.0 / min_size) / np.log(scale_factor)))].
    The logarithm of a negative number is a NaN and that of zero is minus
    infinity; the conversion to an integer raises [ValueError] on a NaN and
    [OverflowError] on an infinity. *)
Definition log_scale_count (m min_size : Z) (scale_factor : R) : result Z :=
  let x := (IZR m * 1 / IZR min_size)%R in
  if Rlt_dec x 0 then Raise ValueError
  else if Rlt_dec scale_factor 0 then Raise ValueError
  else if Req_dec_T x 0 then
    (if Req_dec_T scale_factor 0 then Raise ValueError else Raise OverflowError)
  else if Req_dec_T scale_factor 0 then Ok 0
  else if Req_dec_T scale_factor 1 then
    (if Req_dec_T x 1 then Raise ValueError else Raise OverflowError)
  else Ok (np_ceil (ln x / ln scale_factor)).

Section Discriminator.
Context {Params : Type}.
Variable state_dict : string -> Params.

Record MultiScaleDiscriminator : Type := mkMultiScaleDiscriminator {
  msd_base_channels : Z;
  msd_scale_factor : R;
  msd_min_size : Z;
  msd_extra_conv_layers : Z;
  msd_max_n_scales : Z;
  msd_nets : list (list (Layer Params))
}.

(** [MultiScaleDiscriminator.make_net()], for the net stored at index [k]. *)
Definition make_net (base_channels extra_conv_layers : Z) (k : Z)
  : list (Layer Params) :=
  let θ (i : Z) := state_dict ("nets." +:+ pretty k +:+ "." +:+ pretty i) in
  [ Conv2d (θ 0) 3 base_channels 3 1 true;
    BatchNorm2d (θ 1) base_channels;
    LeakyReLU 0.2 ]
  ++ [ Conv2d (θ 3) base_channels (base_channels * 2) 3 2 true;
       BatchNorm2d (θ 4) (base_channels * 2);
       LeakyReLU 0.2 ]
  ++ [ Conv2d (θ 6) (base_channels * 2) (base_channels * 2) 3 1 true;
       BatchNorm2d (θ 7) (base_channels * 2);
       LeakyReLU 0.2 ]
  ++ mjoin ((fun j =>
               [ Conv2d (θ (9 + 3 * j)) (base_channels * 2) (base_channels * 2) 3 1 true;
                 BatchNorm2d (θ (10 + 3 * j)) (base_channels * 2);
                 LeakyReLU 0.2 ])
            <$> py_range extra_conv_layers)
  ++ [ Conv2d (θ (9 + 3 * Z.max 0 extra_conv_layers)) (base_channels * 2) 1 1 1 true;
       Sigmoid ].

(** [MultiScaleDiscriminator.__init__(real_crop_size, max_n_scales=9,
    scale_factor=2, base_channels=128, extra_conv_layers=0)] *)
Definition MultiScaleDiscriminator_init (real_crop_size : Z * Z) (max_n_scales : Z)
    (scale_factor : R) (base_channels extra_conv_layers : Z)
  : result MultiScaleDiscriminator :=
  let min_size := 16 in
  count ← log_scale_count (Z.min (fst real_crop_size) (snd real_crop_size))
                          min_size scale_factor;
  let n := Z.min count max_n_scales in
  Ok (mkMultiScaleDiscriminator base_channels scale_factor min_size
        extra_conv_layers n
        (make_net base_channels extra_conv_layers <$> py_range n)).
End Discriminator.


(** ** Vocabulary of the properties *)

(** A one-channel image whose pixel values are their row-major positions. *)
Definition example_image (h w : Z) : Tensor Z :=
  mkTensor (mkShape 1 1 h w) (fun _ _ v h' => v * w + h').

(** The mask bands as the slices of the code select them on an image of size
    [im_v] x [im_h]. *)
Definition in_bands_sliced (im_v im_h mw cr_v cr_h v0 h0 v h : Z) : bool :=
  in_slice im_v (v0 + cr_v - mw) (v0 + cr_v + mw) v && in_slice im_h h0 (h0 + cr_h) h
  || in_slice im_v v0 (v0 + cr_v) v && in_slice im_h (h0 + cr_h - mw) (h0 + cr_h + mw) h
  || in_slice im_v (v0 - mw) (v0 + mw) v && in_slice im_h h0 (h0 + cr_h) h
  || in_slice im_v v0 (v0 + cr_v) v && in_slice im_h (h0 - mw) (h0 + mw) h.

(** The image after the two region assignments of [SwapCrops.forward]: the
    second assignment (into region 2) wins where the regions overlap. *)
Definition swapped {A} (input : Tensor A) (cr_v cr_h v1 h1 v2 h2 : Z)
  : Z -> Z -> Z -> Z -> A :=
  fun n c v h =>
    if in_rect v2 (v2 + cr_v) h2 (h2 + cr_h) v h
    then data input n c (v1 + (v - v2)) (h1 + (h - h2))
    else if in_rect v1 (v1 + cr_v) h1 (h1 + cr_h) v h
    then data input n c (v2 + (v - v1)) (h2 + (h - h1))
    else data input n c v h.

(** Two regions of the same size that share no pixel. *)
Definition regions_disjoint (cr_v cr_h v1 h1 v2 h2 : Z) : Prop :=
  v1 + cr_v <= v2 \/ v2 + cr_v <= v1 \/ h1 + cr_h <= h2 \/ h2 + cr_h <= h1.

(** The offsets inside a region of size [cr_v] x [cr_h], row by row, and the
    positions of the region with top left corner [(v0, h0)]. *)
Definition offsets (cr_v cr_h : Z) : list (Z * Z) :=
  i ← py_range cr_v; (fun j => (i, j)) <$> py_range cr_h.

Definition rect_positions (cr_v cr_h v0 h0 : Z) : list (Z * Z) :=
  (fun o => (v0 + o.1, h0 + o.2)) <$> offsets cr_v cr_h.

(** The positions of the union of two regions, each listed once. *)
Definition union_positions (cr_v cr_h v1 h1 v2 h2 : Z) : list (Z * Z) :=
  rect_positions cr_v cr_h v1 h1
  ++ filter (fun p => in_rect v1 (v1 + cr_v) h1 (h1 + cr_h) p.1 p.2 = false)
            (rect_positions cr_v cr_h v2 h2).

(** The pixel values of a tensor at a list of positions, over all batch
    entries and channels. *)
Definition pixels {A} (t : Tensor A) (ps : list (Z * Z)) : list A :=
  n ← py_range (batch (shape t));
  c ← py_range (channels (shape t));
  (fun p => data t n c p.1 p.2) <$> ps.

(** The dimensions of a tensor are never negative. *)
Definition wf_shape (s : Shape) : Prop :=
  0 <= batch s /\ 0 <= channels s /\ 0 <= height s /\ 0 <= width s.


(** The label map of [GANLoss]: all ones for a real input, all zeros for a
    fake one. *)
Definition label_map (d_last_layer : Tensor R) (is_d_input_real : bool) : Tensor R :=
  tmap (fun x => (x * bool_to_R is_d_input_real)%R) (full_like d_last_layer 1%R).

Definition zero_image (h w : Z) : Tensor R :=
  mkTensor (mkShape 1 1 h w) (fun _ _ _ _ => 0%R).

(** The shape of level [j] of the feature pyramid of a generator with [n]
    stages and base channel count [base], whose coarsest level has size
    [h] x [w]. *)
Definition pyramid_shape (N base h w n j : Z) : Shape :=
  mkShape N (base * 2 ^ j) (h * 2 ^ (n - j)) (w * 2 ^ (n - j)).

(** A pyramid whose level [j] has the shape of level [j], for [j = 0..n]. *)
Definition pyramid_ok (N base h w : Z) (n : nat) (pyramid : list (Tensor R)) : Prop :=
  shape <$> pyramid
  = pyramid_shape N base h w (Z.of_nat n) <$> (Z.of_nat <$> seq 0 (S n)).

(** Kernels that return 0 everywhere, to run the model on concrete shapes. *)
Definition zero_conv2d : unit -> Z -> Z -> bool -> Tensor R -> Data :=
  fun _ _ _ _ _ _ _ _ _ => 0%R.
Definition zero_batch_norm : unit -> Tensor R -> Data := fun _ _ _ _ _ _ => 0%R.
Definition zero_bilinear : Tensor R -> Z -> Z -> Data := fun _ _ _ _ _ _ _ => 0%R.
Definition zero_grid_sample : Tensor R -> Q * Q -> Z -> Z -> Data :=
  fun _ _ _ _ _ _ _ _ => 0%R.
Definition no_state : string -> unit := fun _ => tt.

(** The shape of level [j] of the pyramid a downscale block builds from an
    input of shape [s] with [base] channels: the channels double and the
    spatial size is halved, rounding down, [j] times. *)
Definition floor_level (s : Shape) (base : Z) (j : Z) : Shape :=
  mkShape (batch s) (base * 2 ^ j) (height s / 2 ^ j) (width s / 2 ^ j).

(** The input and output channel counts of the convolution of a stage. *)
Definition stage_channels {Params} (stage : list (Layer Params)) : option (Z * Z) :=
  match stage with
  | [_; Conv2d _ in_channels out_channels _ _ _; _; _] => Some (in_channels, out_channels)
  | _ => None
  end.

(** ** MultiScaleDiscriminator: the forward pass *)

Section DiscriminatorForward.
Context {Params : Type}.
Variable conv2d_values : Params -> Z -> Z -> bool -> Tensor R -> Data.
Variable batch_norm_values : Params -> Tensor R -> Data.
Variable bilinear_values : Tensor R -> Z -> Z -> Data.

(** [f.interpolate(t, scale_factor=scale, mode='bilinear')] for a real
    scale. *)
Definition interpolate_scale_real (t : Tensor R) (scale : R) : result (Tensor R) :=
  let s := shape t in
  let oh := Int_part (IZR (height s) * scale) in
  let ow := Int_part (IZR (width s) * scale) in
  if (0 <? height s) && (0 <? width s) && (0 <? oh) && (0 <? ow)
  then Ok (mkTensor (mkShape (batch s) (channels s) oh ow) (bilinear_values t oh ow))
  else Raise RuntimeError.

(** The loop of [MultiScaleDiscriminator.forward] over the zipped nets,
    weights and scale indices, from index [i] on.  The zip stops at the
    shorter of the two lists.  The scale factor is taken to be non-zero:
    [0 ** (-i)] is a [ZeroDivisionError] in Python and has no counterpart
    here. *)
Fixpoint MultiScaleDiscriminator_loop (scale_factor : R) (input_tensor : Tensor R)
    (map_size : Z * Z) (nets : list (list (Layer Params))) (scale_weights : list R)
    (i : Z) (aggregated : Tensor R) : result (Tensor R) :=
  match nets, scale_weights with
  | net :: nets, scale_weight :: scale_weights =>
      downscaled_image ←
        interpolate_scale_real input_tensor (powerRZ scale_factor (- i));
      result_map ← Sequential_forward conv2d_values batch_norm_values net downscaled_image;
      upscaled ← interpolate_size bilinear_values result_map map_size;
      aggregated ←
        tmap2_inplace Rplus aggregated (tmap (fun x => (x * scale_weight)%R) upscaled);
      MultiScaleDiscriminator_loop scale_factor input_tensor map_size nets scale_weights
                                   (i + 1) aggregated
  | _, _ => Ok aggregated
  end.

(** [MultiScaleDiscriminator.forward(input_tensor, scale_weights)] *)
Definition MultiScaleDiscriminator_forward (self : MultiScaleDiscriminator)
    (input_tensor : Tensor R) (scale_weights : list R) : result (Tensor R) :=
  net_0 ← py_getitem (msd_nets self) 0;
  result_0 ← Sequential_forward conv2d_values batch_norm_values net_0 input_tensor;
  weight_0 ← py_getitem scale_weights 0;
  let aggregated := tmap (fun x => (x * weight_0)%R) result_0 in
  let map_size := (height (shape aggregated), width (shape aggregated)) in
  MultiScaleDiscriminator_loop (msd_scale_factor self) input_tensor map_size
    (drop 1 (msd_nets self)) (drop 1 scale_weights) 1 aggregated.
End DiscriminatorForward.


(** ** weights_init *)

(** A module as [weights_init] sees it: the name of its class and its
    attributes. *)
Record TorchModule : Type := mkTorchModule {
  tm_class_name : string;
  tm_attrs : gmap string PyVal
}.

(** [s.find(sub)]: the position of the first occurrence, or -1. *)
Definition py_find (s sub : string) : Z :=
  match String.index 0 sub s with
  | Some n => Z.of_nat n
  | None => -1
  end.

(** [nn.init.xavier_normal_(w, gain)] on a weight of shape
    (out, in, kh, kw) with at least one element: the standard normal draws
    [z] scaled by [gain * sqrt(2 / (fan_in + fan_out))]. *)
Definition xavier_normal_ (w : Tensor R) (gain : R) (z : Data) : Tensor R :=
  let s := shape w in
  let fan_in := channels s * height s * width s in
  let fan_out := batch s * height s * width s in
  let std := (gain * sqrt (2 / IZR (fan_in + fan_out)))%R in
  mkTensor s (fun n c v h => (std * z n c v h)%R).

(** [w.normal_(mean, std)] *)
Definition normal_ (w : Tensor R) (mean std : R) (z : Data) : Tensor R :=
  mkTensor (shape w) (fun n c v h => (mean + std * z n c v h)%R).

Definition as_tensor (v : PyVal) : result (Tensor R) :=
  match v with VTensor t => Ok t | _ => Raise AttributeError end.

(** The two assignments of the normalisation branches:
    [m.weight.data.normal_(1.0, 0.02); m.bias.data.fill_(0)]. *)
Definition init_norm (attrs : gmap string PyVal) (z : Data) : Call unit :=
  match getattr attrs "weight" ≫= as_tensor with
  | Raise e => (Raise e, attrs)
  | Ok w =>
      let attrs := setattr attrs "weight" (VTensor (normal_ w 1 (2 / 100) z)) in
      match getattr attrs "bias" ≫= as_tensor with
      | Raise e => (Raise e, attrs)
      | Ok b => (Ok tt, setattr attrs "bias" (VTensor (full_like b 0%R)))
      end
  end.

(** [weights_init(m)]; [z] holds the standard normal draws.  The outcome is
    paired with the attributes of the module when the call ends. *)
Definition weights_init (m : TorchModule) (z : Data) : Call unit :=
  let class_name := tm_class_name m in
  let attrs := tm_attrs m in
  if negb (py_find class_name "Conv" =? -1) then
    match getattr attrs "weight" ≫= as_tensor with
    | Raise e => (Raise e, attrs)
    | Ok w =>
        let attrs := setattr attrs "weight" (VTensor (xavier_normal_ w (1 / 100) z)) in
        match getattr attrs "bias" with
        | Raise e => (Raise e, attrs)
        | Ok (VTensor b) => (Ok tt, setattr attrs "bias" (VTensor (full_like b 0%R)))
        | Ok _ => (Ok tt, attrs)
        end
    end
  else if negb (py_find class_name "nn.BatchNorm2d" =? -1) then init_norm attrs z
  else if negb (py_find class_name "LocalNorm" =? -1) then init_norm attrs z
  else (Ok tt, attrs).

(** Occurrence of a character in a string. *)
Fixpoint string_mem (c : Ascii.ascii) (s : string) : bool :=
  match s with
  | EmptyString => false
  | String a s => Ascii.eqb a c || string_mem c s
  end.



(** [self] with only its first [k] nets. *)
Definition with_nets {Params} (self : @MultiScaleDiscriminator Params)
    (nets : list (list (Layer Params))) : MultiScaleDiscriminator :=
  mkMultiScaleDiscriminator (msd_base_channels self) (msd_scale_factor self)
    (msd_min_size self) (msd_extra_conv_layers self) (msd_max_n_scales self) nets.

(** [attrs'] holds the attributes of [attrs] and no others; the tensors
    named "weight" and "bias" may hold new values of the same shape, every
    other value is the same. *)
Definition reinitialised (attrs attrs' : gmap string PyVal) : Prop :=
  forall name,
    match attrs !! name, attrs' !! name with
    | Some (VTensor t), Some (VTensor t') =>
        shape t' = shape t /\ (t' = t \/ name = "weight" \/ name = "bias")
    | Some v, Some v' => v' = v
    | None, None => True
    | _, _ => False
    end.

(** The character '.' (code 46). *)
Definition dot : Ascii.ascii := Ascii.ascii_of_nat 46.

(** ** LocalNorm *)

(** The rows (or columns) of the image under the pooling window of output
    index [i]: from the first one, included, to the last one, excluded. *)
Definition avg_pool_window (kernel_size padding len i : Z) : Z * Z :=
  (Z.max (i - padding) 0, Z.min (i - padding + kernel_size) len).

Definition window_sum (d : Z -> Z -> R) (rows cols : Z * Z) : R :=
  sum_range (rows.2 - rows.1) (fun i =>
  sum_range (cols.2 - cols.1) (fun j => d (rows.1 + i) (cols.1 + j))).

(** One value of an average pooling that does not count the padding: the
    mean over the part of the window that lies in the image. *)
Definition avg_pool_value (kernel_size padding : Z) (d : Z -> Z -> R) (H W v h : Z) : R :=
  let rows := avg_pool_window kernel_size padding H v in
  let cols := avg_pool_window kernel_size padding W h in
  (window_sum d rows cols / IZR ((rows.2 - rows.1) * (cols.2 - cols.1)))%R.

(** [nn.AvgPool2d(kernel_size, 1, padding, count_include_pad=False)(t)];
    an input or an output without elements is refused. *)
Definition AvgPool2d_forward (kernel_size padding : Z) (t : Tensor R)
  : result (Tensor R) :=
  let s := shape t in
  let oh := height s + 2 * padding - kernel_size + 1 in
  let ow := width s + 2 * padding - kernel_size + 1 in
  if (0 <? batch s) && (0 <? channels s) && (0 <? height s) && (0 <? width s)
     && (0 <? oh) && (0 <? ow)
  then Ok (mkTensor (mkShape (batch s) (channels s) oh ow)
             (fun n c v h =>
                avg_pool_value kernel_size padding (data t n c) (height s) (width s) v h))
  else Raise RuntimeError.

(** [LocalNorm.forward(input_tensor)].  It reads no attribute of the module
    ([weight] and [bias] are left out of the result); the four tensors it
    prints are returned in the order of the calls, before the result.  The
    pooled squares are never negative, so [** 0.5] is the square root. *)
Definition LocalNorm_forward (input_tensor : Tensor R)
  : result (list (Tensor R) * Tensor R) :=
  local_mean ← AvgPool2d_forward 33 16 input_tensor;
  centered_input_tensor ← tmap2 Rminus input_tensor local_mean;
  let squared_diff := tmap sqr centered_input_tensor in
  pooled ← AvgPool2d_forward 33 16 squared_diff;
  let local_std := tmap sqrt pooled in
  normalized_tensor ←
    tmap2 Rdiv centered_input_tensor (tmap (fun x => (x + 1 / 10 ^ 8)%R) local_std);
  Ok ([local_mean; centered_input_tensor; squared_diff; local_std], normalized_tensor).

(** The values of [LocalNorm.forward] at one position of the image: the
    input less its local mean, and that difference over its local standard
    deviation. *)
Definition LocalNorm_centered (t : Tensor R) (n c v h : Z) : R :=
  (data t n c v h
   - avg_pool_value 33 16 (data t n c) (height (shape t)) (width (shape t)) v h)%R.

Definition LocalNorm_value (t : Tensor R) (n c v h : Z) : R :=
  (LocalNorm_centered t n c v h
   / (sqrt (avg_pool_value 33 16 (fun v' h' => sqr (LocalNorm_centered t n c v' h'))
              (height (shape t)) (width (shape t)) v h)
      + 1 / 10 ^ 8))%R.

(** Every dimension of the shape holds at least one element. *)
Definition nonempty_shape (s : Shape) : Prop :=
  0 < batch s /\ 0 < channels s /\ 0 < height s /\ 0 < width s.

(** * Properties *)

(** ** Slices *)

Lemma adjust_in_range (len i : Z) : 0 <= i <= len -> adjust len i = i.
Proof. unfold adjust. intros H. destruct (Z.ltb_spec i 0); lia. Qed.

Lemma adjust_above (len i : Z) : 0 <= len <= i -> adjust len i = len.
Proof. unfold adjust. intros H. destruct (Z.ltb_spec i 0); lia. Qed.

Lemma adjust_wraps (len i : Z) : - len <= i < 0 -> adjust len i = i + len.
Proof. unfold adjust. intros H. destruct (Z.ltb_spec i 0); lia. Qed.

Lemma adjust_bounds (len i : Z) : 0 <= len -> 0 <= adjust len i <= len.
Proof. unfold adjust. intros H. destruct (Z.ltb_spec i 0); lia. Qed.

Lemma slice_len_in_range (len a b : Z) :
  0 <= a -> a <= b -> b <= len -> slice_len len a b = b - a.
Proof.
  intros Ha Hab Hb. unfold slice_len.
  rewrite !adjust_in_range by lia. lia.
Qed.

Lemma in_slice_in_range (len a b i : Z) :
  0 <= a <= len -> 0 <= b <= len ->
  in_slice len a b i = (a <=? i) && (i <? b).
Proof. intros Ha Hb. unfold in_slice. by rewrite !adjust_in_range. Qed.

(** ** RandomCrop *)

Lemma np_clip_range (x hi : Z) : 0 <= hi -> 0 <= np_clip x 0 hi <= hi.
Proof. unfold np_clip. lia. Qed.

Lemma floor_to_multiple_spec (x d : Z) :
  0 < d -> 0 <= x < 2 ^ 32 ->
  Z.divide d (floor_to_multiple x d) /\ 0 <= floor_to_multiple x d <= x.
Proof.
  intros Hd Hx. unfold floor_to_multiple, np_uint32.
  assert (Hq : 0 <= x / d * d <= x).
  { split; [apply Z.mul_nonneg_nonneg; [apply Z.div_pos|]; lia|].
    rewrite Z.mul_comm. apply Z.mul_div_le. lia. }
  rewrite Z.mod_small by lia.
  split; [apply Z.divide_factor_r | lia].
Qed.

Section RandomCropProperties.
Context {A : Type}.
Implicit Types (t : Tensor A) (self : RandomCrop).

Lemma crop_shape t (v h cr_v cr_h : Z) :
  0 <= cr_v -> 0 <= cr_h ->
  randint_draw 0 (height (shape t) - cr_v) v ->
  randint_draw 0 (width (shape t) - cr_h) h ->
  shape (getitem_hw t v (v + cr_v) h (h + cr_h))
  = mkShape (batch (shape t)) (channels (shape t)) cr_v cr_h.
Proof.
  unfold randint_draw. intros Hv Hh Hdv Hdh. cbn.
  rewrite !slice_len_in_range by lia. f_equal; lia.
Qed.

Lemma crop_data t (v h cr_v cr_h : Z) n c i j :
  0 <= v <= height (shape t) -> 0 <= h <= width (shape t) ->
  data (getitem_hw t v (v + cr_v) h (h + cr_h)) n c i j = data t n c (v + i) (h + j).
Proof. intros Hv Hh. cbn. by rewrite !adjust_in_range. Qed.

Lemma RandomCrop_forward_unfold self t0 rest crop_size draw cr_v cr_h :
  RandomCrop_size self (height (shape t0)) (width (shape t0)) crop_size = Ok (cr_v, cr_h) ->
  randint_draw 0 (height (shape t0) - cr_v) (fst draw) ->
  randint_draw 0 (width (shape t0) - cr_h) (snd draw) ->
  RandomCrop_forward self (Some t0 :: rest) crop_size draw
  = Ok ((fun o : option (Tensor A) =>
           (fun t => getitem_hw t (fst draw) (fst draw + cr_v)
                                (snd draw) (snd draw + cr_h)) <$> o)
          <$> (Some t0 :: rest),
        if rc_return_pos self then Some draw else None).
Proof.
  unfold randint_draw. intros Hsz Hv Hh. unfold RandomCrop_forward.
  rewrite Hsz. cbn. unfold randint.
  destruct (Z.ltb_spec 0 (height (shape t0) - cr_v)); [|lia].
  destruct (Z.ltb_spec 0 (width (shape t0) - cr_h)); [|lia].
  cbn. by destruct draw.
Qed.

(** The configured crop size is clamped below the source size and floored
    to a multiple of [must_divide]. *)
Lemma RandomCrop_size_configured self (im_v im_h cs_v cs_h : Z) :
  rc_crop_size self = Some (cs_v, cs_h) ->
  0 < rc_must_divide self ->
  0 < im_v <= 2 ^ 32 -> 0 < im_h <= 2 ^ 32 ->
  exists cr_v cr_h,
    RandomCrop_size self im_v im_h None = Ok (cr_v, cr_h)
    /\ Z.divide (rc_must_divide self) cr_v /\ Z.divide (rc_must_divide self) cr_h
    /\ 0 <= cr_v < im_v /\ 0 <= cr_h < im_h.
Proof.
  intros Hcs Hd Hv Hh. unfold RandomCrop_size. rewrite Hcs.
  eexists _, _. split; [reflexivity|].
  pose proof (np_clip_range cs_v (im_v - 1) ltac:(lia)) as Hcv.
  pose proof (np_clip_range cs_h (im_h - 1) ltac:(lia)) as Hch.
  destruct (floor_to_multiple_spec (np_clip cs_v 0 (im_v - 1)) (rc_must_divide self))
    as [? ?]; [lia..|].
  destruct (floor_to_multiple_spec (np_clip cs_h 0 (im_h - 1)) (rc_must_divide self))
    as [? ?]; [lia..|].
  repeat split; (assumption || lia).
Qed.
End RandomCropProperties.

(** C6, as amended.  On a non-empty list whose first tensor has positive
    spatial dimensions (below the range of [uint32]) and with a positive
    [must_divide], a call of [RandomCrop.forward] whose draws are in the
    range of [np.random.randint] returns, and every returned crop of a tensor
    co-registered with the first has exactly the crop size used, which is
    strictly less than the source size.  With the configured crop size (no
    size supplied at call time) that size is a multiple of [must_divide];
    with a non-negative size supplied at call time it is the supplied size,
    unrounded.  Absent tensors stay absent. *)
Theorem RandomCrop_forward_dims {A} (self : RandomCrop) (t0 : Tensor A)
    (rest : list (option (Tensor A))) (crop_size : option (Z * Z)) (draw : Z * Z)
    (cr_v cr_h : Z) :
  0 < rc_must_divide self ->
  0 < height (shape t0) <= 2 ^ 32 -> 0 < width (shape t0) <= 2 ^ 32 ->
  RandomCrop_size self (height (shape t0)) (width (shape t0)) crop_size = Ok (cr_v, cr_h) ->
  0 <= cr_v -> 0 <= cr_h ->
  randint_draw 0 (height (shape t0) - cr_v) (fst draw) ->
  randint_draw 0 (width (shape t0) - cr_h) (snd draw) ->
  exists outs pos,
    RandomCrop_forward self (Some t0 :: rest) crop_size draw = Ok (outs, pos)
    /\ length outs = length (Some t0 :: rest)
    /\ (forall i, (Some t0 :: rest) !! i = Some None -> outs !! i = Some None)
    /\ (forall i t,
          (Some t0 :: rest) !! i = Some (Some t) ->
          height (shape t) = height (shape t0) -> width (shape t) = width (shape t0) ->
          exists crop,
            outs !! i = Some (Some crop)
            /\ height (shape crop) = cr_v /\ width (shape crop) = cr_h
            /\ cr_v < height (shape t) /\ cr_h < width (shape t))
    /\ (crop_size = None ->
        Z.divide (rc_must_divide self) cr_v /\ Z.divide (rc_must_divide self) cr_h)
    /\ (forall supplied, crop_size = Some supplied -> supplied = (cr_v, cr_h)).
Proof.
  intros Hd Hv Hh Hsz Hcv Hch Hdv Hdh.
  rewrite (RandomCrop_forward_unfold self t0 rest crop_size draw cr_v cr_h) by done.
  eexists _, _. split; [reflexivity|].
  split; [by rewrite length_fmap|].
  split.
  { intros i Hi. by rewrite list_lookup_fmap, Hi. }
  split.
  { intros i t Hi Ht_v Ht_h. rewrite list_lookup_fmap, Hi. cbn.
    eexists. split; [reflexivity|].
    rewrite crop_shape by (rewrite ?Ht_v, ?Ht_h; done). cbn.
    unfold randint_draw in *. lia. }
  split.
  - intros ->. unfold RandomCrop_size in Hsz.
    destruct (rc_crop_size self) as [[cs_v cs_h]|] eqn:Hcs; [|done].
    destruct (RandomCrop_size_configured self (height (shape t0)) (width (shape t0))
                cs_v cs_h Hcs Hd Hv Hh) as (cv & ch & Hsz' & Hdiv_v & Hdiv_h & _).
    unfold RandomCrop_size in Hsz'. rewrite Hcs in Hsz'.
    rewrite Hsz in Hsz'. by simplify_eq.
  - intros supplied ->. cbn in Hsz. by simplify_eq.
Qed.

Lemma RandomCrop_forward_dims_witness :
  exists outs pos,
    RandomCrop_forward (RandomCrop_init (Some (9, 9)) false 4)
                       [Some (example_image 10 10); None] None (1, 0) = Ok (outs, pos)
    /\ length outs = 2%nat.
Proof.
  destruct (RandomCrop_forward_dims (RandomCrop_init (Some (9, 9)) false 4)
              (example_image 10 10) [None] None (1, 0) 8 8)
    as (outs & pos & Hrun & Hlen & _);
    [cbn; unfold randint_draw; cbn; lia || reflexivity..|].
  exists outs, pos. split; [exact Hrun | exact Hlen].
Defined.

(** C6 as stated fails: with a crop size supplied at call time the crop is
    not rounded to a multiple of [must_divide]. *)
Lemma RandomCrop_supplied_size_not_multiple :
  exists crop,
    RandomCrop_forward (RandomCrop_init (Some (9, 9)) false 4)
                       [Some (example_image 10 10)] (Some (5, 5)) (0, 0)
    = Ok ([Some crop], None)
    /\ height (shape crop) = 5 /\ width (shape crop) = 5
    /\ ~ Z.divide 4 (height (shape crop)).
Proof.
  eexists. split; [reflexivity|]. cbn.
  split; [reflexivity|]. split; [reflexivity|].
  intros [k Hk]. change (slice_len 10 0 (0 + 5)) with 5 in Hk. lia.
Qed.

(** ** SwapCrops *)

Lemma bidx_in_range (dim i : Z) : 0 <= i < dim -> bidx dim i = i.
Proof. unfold bidx. intros H. destruct (Z.eqb_spec dim 1); lia. Qed.

Lemma expandable_shape_refl (s : Shape) : expandable_shape s s = true.
Proof. unfold expandable_shape, expandable. by rewrite !Z.eqb_refl. Qed.

Lemma in_slice_nonneg (len a b i : Z) :
  0 <= a -> 0 <= b -> 0 <= i < len ->
  in_slice len a b i = (a <=? i) && (i <? b).
Proof.
  intros Ha Hb Hi. unfold in_slice, adjust.
  destruct (Z.ltb_spec a 0), (Z.ltb_spec b 0); lia.
Qed.

Lemma sampled_crop_size_nonneg (self : SwapCrops) (u : Q) :
  0 <= sampled_crop_size self u.
Proof. unfold sampled_crop_size, np_uint32. apply Z.mod_pos_bound. lia. Qed.

Section SwapCropsProperties.
Context {A : Type} (zero one : A).
Implicit Types (input : Tensor A).

Lemma mask_region_data (mw cr_v cr_h v0 h0 : Z) (m : Tensor A) n c v h :
  data (mask_region zero mw cr_v cr_h v0 h0 m) n c v h
  = if in_bands_sliced (height (shape m)) (width (shape m)) mw cr_v cr_h v0 h0 v h
    then zero else data m n c v h.
Proof.
  unfold mask_region, in_bands_sliced. cbn.
  repeat match goal with
         | |- context [in_slice ?l ?a ?b ?i] => destruct (in_slice l a b i); cbn
         end; reflexivity.
Qed.

Lemma mask_region_shape (mw cr_v cr_h v0 h0 : Z) (m : Tensor A) :
  shape (mask_region zero mw cr_v cr_h v0 h0 m) = shape m.
Proof. reflexivity. Qed.

Lemma setitem_hw_ok (t src : Tensor A) (a b c d : Z) :
  shape src = mkShape (batch (shape t)) (channels (shape t))
                      (slice_len (height (shape t)) a b)
                      (slice_len (width (shape t)) c d) ->
  setitem_hw t a b c d src
  = Ok (mkTensor (shape t)
          (fun n ch v h =>
             if in_slice (height (shape t)) a b v && in_slice (width (shape t)) c d h
             then data src (bidx (batch (shape src)) n)
                           (bidx (channels (shape src)) ch)
                           (bidx (height (shape src)) (v - adjust (height (shape t)) a))
                           (bidx (width (shape src)) (h - adjust (width (shape t)) c))
             else data t n ch v h)).
Proof.
  intros Hs. unfold setitem_hw.
  replace (expandable_shape _ _) with true; [done|].
  rewrite <- Hs. by rewrite expandable_shape_refl.
Qed.

(** What one call computes, for draws in the range of the generator. *)
Lemma SwapCrops_forward_run (min_crop_size max_crop_size mw : Z) input (d : SwapDraws) :
  let self := SwapCrops_init min_crop_size max_crop_size mw in
  let s := shape input in
  let cr_v := sampled_crop_size self (d_rand d).1 in
  let cr_h := sampled_crop_size self (d_rand d).2 in
  swap_draws_ok self (height s) (width s) d ->
  exists output loss_mask,
    SwapCrops_forward zero one self input d = Ok (output, loss_mask)
    /\ shape output = s /\ shape loss_mask = s
    /\ (forall n c v h, in_shape s n c v h ->
          data output n c v h
          = swapped input cr_v cr_h (d_pos_1 d).1 (d_pos_1 d).2
                    (d_pos_2 d).1 (d_pos_2 d).2 n c v h)
    /\ (forall n c v h,
          data loss_mask n c v h
          = if in_bands_sliced (height s) (width s) mw cr_v cr_h
                               (d_pos_2 d).1 (d_pos_2 d).2 v h
               || in_bands_sliced (height s) (width s) mw cr_v cr_h
                                  (d_pos_1 d).1 (d_pos_1 d).2 v h
            then zero else one).
Proof.
  intros self s cr_v cr_h.
  destruct (d_pos_1 d) as [v1 h1] eqn:Hp1, (d_pos_2 d) as [v2 h2] eqn:Hp2.
  intros (_ & _ & Hv1 & Hh1 & Hv2 & Hh2). rewrite ?Hp1, ?Hp2 in *.
  cbn [fst snd] in *.
  pose proof (sampled_crop_size_nonneg self (d_rand d).1) as Hcv.
  pose proof (sampled_crop_size_nonneg self (d_rand d).2) as Hch.
  fold cr_v in Hcv, Hv1, Hv2. fold cr_h in Hch, Hh1, Hh2.
  unfold SwapCrops_forward. fold self cr_v cr_h. rewrite Hp1, Hp2.
  rewrite !(RandomCrop_forward_unfold _ input [] (Some (cr_v, cr_h)) _ cr_v cr_h)
    by done.
  unfold randint_draw in *.
  cbn -[setitem_hw getitem_hw mask_region swapped in_bands_sliced].
  fold s.
  rewrite setitem_hw_ok; cycle 1.
  { cbn. fold s. rewrite !slice_len_in_range by lia. rewrite !Z.sub_0_r. by destruct s. }
  cbn -[setitem_hw getitem_hw mask_region swapped in_bands_sliced]. fold s.
  rewrite setitem_hw_ok; cycle 1.
  { cbn -[slice_len]. fold s. rewrite !slice_len_in_range by lia. f_equal; lia. }
  cbn -[setitem_hw getitem_hw mask_region swapped in_bands_sliced]. fold s.
  rewrite setitem_hw_ok; cycle 1.
  { cbn -[slice_len]. fold s. rewrite !slice_len_in_range by lia. f_equal; lia. }
  cbn -[setitem_hw getitem_hw mask_region swapped in_bands_sliced]. fold s.
  eexists _, _. split; [reflexivity|].
  split; [reflexivity|]. split; [reflexivity|]. split.
  - intros n c v h (Hn & Hc & Hv & Hh).
    cbn -[in_slice adjust]. fold s.
    rewrite !slice_len_in_range by lia.
    rewrite !in_slice_nonneg by lia.
    rewrite !adjust_in_range by lia.
    rewrite ?(Z.min_l 0), ?Z.sub_0_r by lia.
    replace ((0 <=? v) && (v <? height s) && ((0 <=? h) && (h <? width s)))
      with true by lia.
    unfold swapped, in_rect.
    replace (v2 + cr_v - v2) with cr_v by lia.
    replace (h2 + cr_h - h2) with cr_h by lia.
    replace (v1 + cr_v - v1) with cr_v by lia.
    replace (h1 + cr_h - h1) with cr_h by lia.
    destruct (Z.leb_spec v2 v), (Z.ltb_spec v (v2 + cr_v)),
      (Z.leb_spec h2 h), (Z.ltb_spec h (h2 + cr_h)); cbn [andb];
      try (rewrite !bidx_in_range by lia; f_equal; lia);
      destruct (Z.leb_spec v1 v), (Z.ltb_spec v (v1 + cr_v)),
        (Z.leb_spec h1 h), (Z.ltb_spec h (h1 + cr_h)); cbn [andb];
        try (rewrite !bidx_in_range by lia; f_equal; lia);
        rewrite ?Z.sub_0_r, ?bidx_in_range by lia; reflexivity.
  - intros n c v h. rewrite !mask_region_data. cbn [shape data full_like]. fold s.
    by destruct (in_bands_sliced _ _ _ _ _ v2 h2 v h),
                (in_bands_sliced _ _ _ _ _ v1 h1 v h).
Qed.
End SwapCropsProperties.

Lemma elem_of_py_range (n x : Z) : x ∈ py_range n <-> 0 <= x < n.
Proof.
  unfold py_range. rewrite list_elem_of_fmap. split.
  - intros (k & -> & Hk). apply elem_of_seq in Hk. lia.
  - intros Hx. exists (Z.to_nat x). split; [lia|]. apply elem_of_seq. lia.
Qed.

Lemma elem_of_offsets (cr_v cr_h : Z) (o : Z * Z) :
  o ∈ offsets cr_v cr_h <-> 0 <= o.1 < cr_v /\ 0 <= o.2 < cr_h.
Proof.
  unfold offsets. rewrite list_elem_of_bind. split.
  - intros (i & Ho & Hi). apply list_elem_of_fmap in Ho as (j & -> & Hj).
    apply elem_of_py_range in Hi, Hj. done.
  - intros [Hi Hj]. exists o.1. split; [|by apply elem_of_py_range].
    apply list_elem_of_fmap. exists o.2. split; [by destruct o|by apply elem_of_py_range].
Qed.

Lemma bind_Permutation_ext {X Y} (f g : X -> list Y) (l : list X) :
  (forall x, x ∈ l -> f x ≡ₚ g x) -> l ≫= f ≡ₚ l ≫= g.
Proof.
  induction l as [|x l IH]; intros Hfg; [done|]. cbn.
  apply Permutation_app; [apply Hfg; left | apply IH; intros; apply Hfg; by right].
Qed.

(** A fold with a left-commutative operation does not depend on the order of
    the list. *)
Lemma foldr_left_commutative {X} (add : X -> X -> X) (z : X) (l1 l2 : list X) :
  (forall x y acc, add x (add y acc) = add y (add x acc)) ->
  l1 ≡ₚ l2 -> foldr add z l1 = foldr add z l2.
Proof.
  intros Hadd Hperm. induction Hperm; cbn; [done|by f_equal|by apply Hadd|congruence].
Qed.

Section SwapProperties.
Context {A : Type}.

Lemma pixels_Permutation (t t' : Tensor A) (ps ps' : list (Z * Z)) :
  shape t = shape t' ->
  (forall n c, 0 <= n < batch (shape t) -> 0 <= c < channels (shape t) ->
     (fun p => data t n c p.1 p.2) <$> ps ≡ₚ (fun p => data t' n c p.1 p.2) <$> ps') ->
  pixels t ps ≡ₚ pixels t' ps'.
Proof.
  intros Hs Hp. unfold pixels. rewrite <- Hs.
  apply bind_Permutation_ext. intros n Hn. apply elem_of_py_range in Hn.
  apply bind_Permutation_ext. intros c Hc. apply elem_of_py_range in Hc.
  by apply Hp.
Qed.

Lemma elem_of_rect_positions (cr_v cr_h v0 h0 : Z) (p : Z * Z) :
  p ∈ rect_positions cr_v cr_h v0 h0
  <-> v0 <= p.1 < v0 + cr_v /\ h0 <= p.2 < h0 + cr_h.
Proof.
  unfold rect_positions. rewrite list_elem_of_fmap. split.
  - intros (o & -> & Ho). apply elem_of_offsets in Ho. cbn. lia.
  - intros Hp. exists (p.1 - v0, p.2 - h0). split.
    + destruct p; cbn. f_equal; lia.
    + apply elem_of_offsets. cbn. lia.
Qed.

Lemma filter_all {X} (P : X -> Prop) `{!forall x, Decision (P x)} (l : list X) :
  (forall x, x ∈ l -> P x) -> filter P l = l.
Proof.
  induction l as [|x l IH]; intros HP; [done|].
  rewrite filter_cons_True by (apply HP; left).
  f_equal. apply IH. intros y Hy. apply HP. by right.
Qed.

Lemma union_positions_disjoint (cr_v cr_h v1 h1 v2 h2 : Z) :
  regions_disjoint cr_v cr_h v1 h1 v2 h2 ->
  union_positions cr_v cr_h v1 h1 v2 h2
  = rect_positions cr_v cr_h v1 h1 ++ rect_positions cr_v cr_h v2 h2.
Proof.
  intros Hd. unfold union_positions. f_equal.
  apply filter_all. intros p Hp. apply elem_of_rect_positions in Hp.
  unfold regions_disjoint in Hd. unfold in_rect. lia.
Qed.

(** Over disjoint regions the swapped image holds, on each region, the
    content the input has on the other one. *)
Lemma swapped_region_pixels (input : Tensor A) (cr_v cr_h v1 h1 v2 h2 n c : Z) :
  regions_disjoint cr_v cr_h v1 h1 v2 h2 ->
  (fun p => swapped input cr_v cr_h v1 h1 v2 h2 n c p.1 p.2)
    <$> rect_positions cr_v cr_h v1 h1
  = (fun p => data input n c p.1 p.2) <$> rect_positions cr_v cr_h v2 h2
  /\ (fun p => swapped input cr_v cr_h v1 h1 v2 h2 n c p.1 p.2)
       <$> rect_positions cr_v cr_h v2 h2
     = (fun p => data input n c p.1 p.2) <$> rect_positions cr_v cr_h v1 h1.
Proof.
  intros Hd. unfold rect_positions. rewrite <- !list_fmap_compose.
  unfold regions_disjoint in Hd.
  split; apply list_fmap_ext; intros k o Ho%list_elem_of_lookup_2%elem_of_offsets;
    cbn; unfold swapped, in_rect.
  - replace ((v2 <=? v1 + o.1) && (v1 + o.1 <? v2 + cr_v)
             && (h2 <=? h1 + o.2) && (h1 + o.2 <? h2 + cr_h)) with false by lia.
    replace ((v1 <=? v1 + o.1) && (v1 + o.1 <? v1 + cr_v)
             && (h1 <=? h1 + o.2) && (h1 + o.2 <? h1 + cr_h)) with true by lia.
    f_equal; lia.
  - replace ((v2 <=? v2 + o.1) && (v2 + o.1 <? v2 + cr_v)
             && (h2 <=? h2 + o.2) && (h2 + o.2 <? h2 + cr_h)) with true by lia.
    f_equal; lia.
Qed.
End SwapProperties.

Section SwapCropsTheorems.
Context {A : Type} (zero one : A).
Variables (min_crop_size max_crop_size mw : Z) (input : Tensor A) (d : SwapDraws).

Local Abbreviation self := (SwapCrops_init min_crop_size max_crop_size mw).
Local Abbreviation cr_v := (sampled_crop_size self (d_rand d).1).
Local Abbreviation cr_h := (sampled_crop_size self (d_rand d).2).
Local Abbreviation v1 := (d_pos_1 d).1.
Local Abbreviation h1 := (d_pos_1 d).2.
Local Abbreviation v2 := (d_pos_2 d).1.
Local Abbreviation h2 := (d_pos_2 d).2.
Local Abbreviation im_v := (height (shape input)).
Local Abbreviation im_h := (width (shape input)).

(** Where no band bound is negative, the slices of the code select exactly
    the four bands around a region. *)
Lemma in_bands_sliced_no_wrap (v0 h0 v h : Z) :
  0 <= mw <= v0 -> mw <= h0 -> 0 <= cr_v -> 0 <= cr_h ->
  0 <= v < im_v -> 0 <= h < im_h ->
  in_bands_sliced im_v im_h mw cr_v cr_h v0 h0 v h = in_bands mw cr_v cr_h v0 h0 v h.
Proof.
  intros Hv0 Hh0 Hcv Hch Hv Hh. unfold in_bands_sliced, in_bands, in_rect.
  rewrite !in_slice_nonneg by lia. lia.
Qed.

(** X27.  The loss mask when both regions lie at least [mask_width] away from the
    top and left borders of the image: it is 0 exactly on the bands around
    the two regions. *)
Lemma SwapCrops_mask_no_wrap :
  swap_draws_ok self im_v im_h d ->
  0 <= mw -> mw <= v1 -> mw <= h1 -> mw <= v2 -> mw <= h2 ->
  exists output loss_mask,
    SwapCrops_forward zero one self input d = Ok (output, loss_mask)
    /\ shape loss_mask = shape input
    /\ forall n c v h, in_shape (shape input) n c v h ->
         data loss_mask n c v h
         = if in_bands mw cr_v cr_h v1 h1 v h || in_bands mw cr_v cr_h v2 h2 v h
           then zero else one.
Proof.
  intros Hd Hmw Hv1 Hh1 Hv2 Hh2.
  destruct (SwapCrops_forward_run zero one min_crop_size max_crop_size mw input d Hd)
    as (output & loss_mask & Hrun & _ & Hshape & _ & Hmask).
  exists output, loss_mask. split; [done|]. split; [done|].
  intros n c v h (_ & _ & Hv & Hh). rewrite Hmask.
  pose proof (sampled_crop_size_nonneg self (d_rand d).1).
  pose proof (sampled_crop_size_nonneg self (d_rand d).2).
  rewrite !in_bands_sliced_no_wrap by lia.
  by rewrite orb_comm.
Qed.

(** C9, as amended.  For draws in the range of the generator the call
    returns an image of the shape of the input in which every pixel outside
    both regions is unchanged; when the two regions do not overlap, the
    pixel values over the union of the two regions are a permutation of
    those of the input, so that any order-independent sum over the union is
    preserved. *)
Theorem SwapCrops_forward_swap :
  swap_draws_ok self im_v im_h d ->
  exists output loss_mask,
    SwapCrops_forward zero one self input d = Ok (output, loss_mask)
    /\ shape output = shape input
    /\ (forall n c v h, in_shape (shape input) n c v h ->
          in_rect v1 (v1 + cr_v) h1 (h1 + cr_h) v h = false ->
          in_rect v2 (v2 + cr_v) h2 (h2 + cr_h) v h = false ->
          data output n c v h = data input n c v h)
    /\ (regions_disjoint cr_v cr_h v1 h1 v2 h2 ->
        pixels output (union_positions cr_v cr_h v1 h1 v2 h2)
          ≡ₚ pixels input (union_positions cr_v cr_h v1 h1 v2 h2)
        /\ forall (add : A -> A -> A) (z : A),
             (forall x y acc, add x (add y acc) = add y (add x acc)) ->
             foldr add z (pixels output (union_positions cr_v cr_h v1 h1 v2 h2))
             = foldr add z (pixels input (union_positions cr_v cr_h v1 h1 v2 h2))).
Proof.
  intros Hd.
  destruct (SwapCrops_forward_run zero one min_crop_size max_crop_size mw input d Hd)
    as (output & loss_mask & Hrun & Hshape & _ & Hout & _).
  exists output, loss_mask. split; [done|]. split; [done|]. split.
  - intros n c v h Hin Hr1 Hr2. rewrite Hout by done. unfold swapped.
    by rewrite Hr1, Hr2.
  - intros Hdisj.
    assert (Hperm : pixels output (union_positions cr_v cr_h v1 h1 v2 h2)
                    ≡ₚ pixels input (union_positions cr_v cr_h v1 h1 v2 h2)).
    { destruct Hd as (_ & _ & Hv1 & Hh1 & Hv2 & Hh2). unfold randint_draw in *.
      apply pixels_Permutation; [done|]. rewrite Hshape. intros n c Hn Hc.
      rewrite union_positions_disjoint by done.
      rewrite (list_fmap_ext (fun p => data output n c p.1 p.2)
                 (fun p => swapped input cr_v cr_h v1 h1 v2 h2 n c p.1 p.2)); cycle 1.
      { intros k p Hp%list_elem_of_lookup_2. apply Hout.
        apply elem_of_app in Hp as [Hp|Hp]; apply elem_of_rect_positions in Hp;
          unfold in_shape; lia. }
      rewrite !fmap_app.
      destruct (swapped_region_pixels input cr_v cr_h v1 h1 v2 h2 n c Hdisj) as [-> ->].
      apply Permutation_app_comm. }
    split; [done|]. intros add z Hadd. by apply foldr_left_commutative.
Qed.
End SwapCropsTheorems.

Lemma SwapCrops_forward_swap_witness :
  exists output loss_mask,
    SwapCrops_forward 0 1 (SwapCrops_init 1 1 5) (example_image 4 4)
                      (mkSwapDraws (0%Q, 0%Q) (0, 0) (2, 2)) = Ok (output, loss_mask)
    /\ shape output = shape (example_image 4 4).
Proof.
  destruct (SwapCrops_forward_swap 0 1 1 1 5 (example_image 4 4)
              (mkSwapDraws (0%Q, 0%Q) (0, 0) (2, 2)))
    as (output & loss_mask & Hrun & Hshape & _).
  - unfold swap_draws_ok, randint_draw. vm_compute. intuition discriminate.
  - exists output, loss_mask. split; [exact Hrun | exact Hshape].
Defined.

(** C9 as stated fails: when the two regions overlap, the second assignment
    overwrites part of the first, and the pixel values over the union are no
    longer those of the input.  Here the regions are the 2x2 squares at
    (0,0) and (0,1) of a 4x4 image. *)
Lemma SwapCrops_overlap_not_permutation :
  exists output loss_mask,
    SwapCrops_forward 0 1 (SwapCrops_init 2 2 5) (example_image 4 4)
                      (mkSwapDraws (0%Q, 0%Q) (0, 0) (0, 1)) = Ok (output, loss_mask)
    /\ swap_draws_ok (SwapCrops_init 2 2 5) 4 4 (mkSwapDraws (0%Q, 0%Q) (0, 0) (0, 1))
    /\ pixels (example_image 4 4) (union_positions 2 2 0 0 0 1) = [0; 1; 4; 5; 2; 6]
    /\ pixels output (union_positions 2 2 0 0 0 1) = [1; 0; 5; 4; 1; 5]
    /\ ~ pixels output (union_positions 2 2 0 0 0 1)
         ≡ₚ pixels (example_image 4 4) (union_positions 2 2 0 0 0 1)
    /\ foldr Z.add 0 (pixels output (union_positions 2 2 0 0 0 1))
       <> foldr Z.add 0 (pixels (example_image 4 4) (union_positions 2 2 0 0 0 1)).
Proof.
  eexists _, _. split; [reflexivity|].
  split; [unfold swap_draws_ok, randint_draw; vm_compute; intuition discriminate|].
  split; [reflexivity|]. split; [reflexivity|]. split.
  - intros Hperm.
    assert (H2 : 2 ∈ pixels (example_image 4 4) (union_positions 2 2 0 0 0 1)).
    { vm_compute. repeat constructor. }
    rewrite <- Hperm in H2. vm_compute in H2.
    repeat (apply elem_of_cons in H2 as [H2|H2]; [discriminate|]).
    by apply elem_of_nil in H2.
  - vm_compute. discriminate.
Qed.

(** C5 at a region that touches the border.  On a 64x64 image with two 16x16
    regions at (0,0) and (30,30) and [mask_width] 5, pixel (0,0) lies on the
    top and left bands of the first region, yet the mask is 1 there: the
    bounds [0 - 5] of the slices count from the end of the dimension and the
    slices [-5:5] are empty. *)
Theorem SwapCrops_mask_border_region_unmasked :
  exists output loss_mask,
    SwapCrops_forward 0 1 (SwapCrops_init 16 16 5) (example_image 64 64)
                      (mkSwapDraws (0%Q, 0%Q) (0, 0) (30, 30)) = Ok (output, loss_mask)
    /\ swap_draws_ok (SwapCrops_init 16 16 5) 64 64 (mkSwapDraws (0%Q, 0%Q) (0, 0) (30, 30))
    /\ in_bands 5 16 16 0 0 0 0 = true
    /\ data loss_mask 0 0 0 0 = 1
    /\ slice_len 64 (0 - 5) (0 + 5) = 0.
Proof.
  eexists _, _. split; [reflexivity|].
  split; [unfold swap_draws_ok, randint_draw; vm_compute; intuition discriminate|].
  split; [reflexivity|]. split; reflexivity.
Qed.

(** ** Loss modules *)

Lemma sum_range_ext (n : Z) (f g : Z -> R) :
  (forall i, 0 <= i < n -> f i = g i) -> sum_range n f = sum_range n g.
Proof.
  unfold sum_range. intros Hfg.
  assert (Hall : forall k, k ∈ seq 0 (Z.to_nat n) -> f (Z.of_nat k) = g (Z.of_nat k)).
  { intros k Hk%elem_of_seq. apply Hfg. lia. }
  induction (seq 0 (Z.to_nat n)) as [|k l IH]; [done|]. cbn.
  rewrite Hall by left. rewrite IH; [done|]. intros. apply Hall. by right.
Qed.

Lemma sum_range_const (n : Z) (x : R) :
  0 <= n -> sum_range n (fun _ => x) = (IZR n * x)%R.
Proof.
  intros Hn. unfold sum_range. rewrite <- (Z2Nat.id n) at 2 by done.
  generalize 0%nat. induction (Z.to_nat n) as [|k IH]; intros start; cbn [seq foldr].
  - change (Z.of_nat 0) with 0. lra.
  - rewrite IH, Nat2Z.inj_succ, succ_IZR. lra.
Qed.

Lemma tsum_ext (t t' : Tensor R) :
  shape t = shape t' ->
  (forall n c v h, in_shape (shape t) n c v h -> data t n c v h = data t' n c v h) ->
  tsum t = tsum t'.
Proof.
  intros Hs Hd. unfold tsum. rewrite <- Hs.
  apply sum_range_ext; intros n Hn. apply sum_range_ext; intros c Hc.
  apply sum_range_ext; intros v Hv. apply sum_range_ext; intros h Hh.
  by apply Hd.
Qed.

Lemma tsum_ones (t : Tensor R) :
  wf_shape (shape t) ->
  (forall n c v h, in_shape (shape t) n c v h -> data t n c v h = 1%R) ->
  tsum t = IZR (numel (shape t)).
Proof.
  intros (Hn & Hc & Hv & Hh) Hd.
  rewrite (tsum_ext t (full_like t 1%R)) by done.
  unfold tsum, numel. cbn.
  rewrite !sum_range_const by done. rewrite !mult_IZR. lra.
Qed.

Lemma broadcast_shape_refl (s : Shape) : broadcast_shape s s = Some s.
Proof. unfold broadcast_shape, broadcast_dim. rewrite !Z.eqb_refl. by destruct s. Qed.

Lemma bdata_in_shape {A} (t : Tensor A) n c v h :
  in_shape (shape t) n c v h -> bdata t n c v h = data t n c v h.
Proof. intros (?&?&?&?). unfold bdata. by rewrite !bidx_in_range. Qed.

Lemma getattr_setattr_ne (self : gmap string PyVal) (k k' : string) (v : PyVal) :
  k <> k' -> getattr (setattr self k v) k' = getattr self k'.
Proof. intros Hne. unfold getattr, setattr. by rewrite lookup_insert_ne. Qed.

Lemma getattr_setattr (self : gmap string PyVal) (k : string) (v : PyVal) :
  getattr (setattr self k v) k = Ok v.
Proof. unfold getattr, setattr. by rewrite lookup_insert_eq. Qed.

(** C3 at any non-empty weight vector.  [MultiScaleLoss.__init__] never sets
    [scale_factor], so the first iteration of the loop of
    [MultiScaleLoss.forward] raises [AttributeError] and no loss is
    returned. *)
Theorem MultiScaleLoss_forward_raises (bilinear_values : Tensor R -> Z -> Z -> Data)
    (input_tensor target_tensor : Tensor R) (scale_weight : R) (scale_weights : list R) :
  MultiScaleLoss_forward bilinear_values MultiScaleLoss_init input_tensor target_tensor
                         (scale_weight :: scale_weights)
  = (Raise AttributeError, MultiScaleLoss_init).
Proof.
  unfold MultiScaleLoss_forward. cbn [MultiScaleLoss_loop].
  assert (Hmissing : getattr MultiScaleLoss_init "scale_factor" = Raise AttributeError)
    by reflexivity.
  by rewrite Hmissing.
Qed.

(** The same call on a 4x4 prediction and target with the single weight 1. *)
Example MultiScaleLoss_one_weight_example (bilinear_values : Tensor R -> Z -> Z -> Data) :
  (MultiScaleLoss_forward bilinear_values MultiScaleLoss_init
                          (zero_image 4 4) (zero_image 4 4) [1%R]).1
  = Raise AttributeError.
Proof. reflexivity. Qed.

(** With no weights the loop body never runs and the loss is 0. *)
Lemma MultiScaleLoss_forward_no_scales (bilinear_values : Tensor R -> Z -> Z -> Data)
    (self : gmap string PyVal) (input_tensor target_tensor : Tensor R) :
  MultiScaleLoss_forward bilinear_values self input_tensor target_tensor [] = (Ok 0%R, self).
Proof. reflexivity. Qed.




(** C10, as amended.  [WeightedMSELoss.forward] and [MultiScaleLoss.forward]
    leave the module as they found it.  [GANLoss.forward] stores the label
    map it computes in the attribute [label_tensor], where it stays until
    the next call overwrites it; no other attribute changes, and the loss
    returned does not depend on what [label_tensor] held before the call. *)
Theorem loss_modules_state (bilinear_values : Tensor R -> Z -> Z -> Data)
    (self : gmap string PyVal) (input_tensor target_tensor : Tensor R)
    (loss_mask : option (Tensor R)) (scale_weights : list R) (is_d_input_real : bool) :
  (WeightedMSELoss_forward self input_tensor target_tensor loss_mask).2 = self
  /\ (MultiScaleLoss_forward bilinear_values self input_tensor target_tensor scale_weights).2
     = self
  /\ (GANLoss_forward self input_tensor is_d_input_real).2
     = setattr self "label_tensor" (VTensor (label_map input_tensor is_d_input_real))
  /\ (forall name, name <> "label_tensor" ->
        (GANLoss_forward self input_tensor is_d_input_real).2 !! name = self !! name)
  /\ (forall previous,
        (GANLoss_forward (setattr self "label_tensor" previous)
                         input_tensor is_d_input_real).1
        = (GANLoss_forward self input_tensor is_d_input_real).1).
Proof.
  split; [reflexivity|]. split; [reflexivity|]. split; [reflexivity|]. split.
  - intros name Hne. cbn. unfold setattr. by rewrite lookup_insert_ne.
  - intros previous. unfold GANLoss_forward. cbn [fst].
    rewrite !getattr_setattr, !getattr_setattr_ne by done.
    reflexivity.
Qed.

(** C10 as stated fails for [GANLoss]: after one call the module holds the
    label map computed by that call. *)
Lemma GANLoss_forward_keeps_label_tensor :
  GANLoss_init !! "label_tensor" = Some VNone
  /\ (GANLoss_forward GANLoss_init (zero_image 2 2) true).2 !! "label_tensor"
     = Some (VTensor (label_map (zero_image 2 2) true))
  /\ (GANLoss_forward GANLoss_init (zero_image 2 2) true).2 <> GANLoss_init.
Proof.
  split; [reflexivity|]. split; [reflexivity|].
  intros Heq. apply (f_equal (fun m : gmap string PyVal => m !! "label_tensor")) in Heq.
  discriminate Heq.
Qed.

(** ** MultiScaleDiscriminator: the scale count *)

Lemma np_ceil_spec (x : R) : (IZR (np_ceil x) - 1 < x <= IZR (np_ceil x))%R.
Proof.
  unfold np_ceil. rewrite opp_IZR.
  destruct (base_Int_part (- x)) as [Hle Hgt]. lra.
Qed.

Lemma np_ceil_unique (x : R) (k : Z) : (IZR k - 1 < x <= IZR k)%R -> np_ceil x = k.
Proof.
  intros Hk. destruct (np_ceil_spec x) as [Hlo Hhi].
  assert (np_ceil x < k + 1) by (apply lt_IZR; rewrite plus_IZR; lra).
  assert (k < np_ceil x + 1) by (apply lt_IZR; rewrite plus_IZR; lra).
  lia.
Qed.

Lemma np_ceil_IZR (k : Z) : np_ceil (IZR k) = k.
Proof. apply np_ceil_unique. lra. Qed.

Lemma np_ceil_mono (x y : R) : (x <= y)%R -> np_ceil x <= np_ceil y.
Proof.
  intros Hxy. destruct (np_ceil_spec x), (np_ceil_spec y).
  assert (np_ceil x < np_ceil y + 1) by (apply lt_IZR; rewrite plus_IZR; lra).
  lia.
Qed.

Lemma log_scale_count_defined (m : Z) (scale_factor : R) :
  0 < m -> (0 < scale_factor)%R -> scale_factor <> 1%R ->
  log_scale_count m 16 scale_factor
  = Ok (np_ceil (ln (IZR m * 1 / IZR 16) / ln scale_factor)).
Proof.
  intros Hm Hs Hs1. unfold log_scale_count.
  assert (0 < IZR m * 1 / IZR 16)%R.
  { apply IZR_lt in Hm. lra. }
  destruct (Rlt_dec _ 0); [lra|]. destruct (Rlt_dec scale_factor 0); [lra|].
  destruct (Req_dec_T _ 0); [lra|]. destruct (Req_dec_T scale_factor 0); [lra|].
  destruct (Req_dec_T scale_factor 1); [done|]. reflexivity.
Qed.









(** ** GeoTransform: the horizontal padding *)









Section GeoTransformPadding.
Variable grid_sample_values : Tensor R -> Q * Q -> Z -> Z -> Data.
Variables (input_tensor : Tensor R) (target_size : Z * Z) (left_shift right_shift : Q).

Local Abbreviation w := (width (shape input_tensor)).
Local Abbreviation shifts := (left_shift, right_shift).
Local Abbreviation pad_left := (GeoTransform_pads w shifts).1.
Local Abbreviation pad_right := (GeoTransform_pads w shifts).2.

End GeoTransformPadding.



(** ** Shapes through the layers *)

(** Resolve the guard of the conditional at the head of the goal by linear
    arithmetic. *)
Ltac bool_arith :=
  lazymatch goal with
  | |- true = _ => symmetry
  | |- false = _ => symmetry; apply not_true_iff_false
  | |- _ = false => apply not_true_iff_false
  | |- _ => idtac
  end;
  rewrite ?Bool.andb_true_iff, ?Z.ltb_lt, ?Z.leb_le, ?Z.eqb_eq;
  (lia || nia).
Ltac guard_true :=
  match goal with
  | |- context [if ?c then _ else _] => replace c with true by bool_arith
  end.
Ltac guard_false :=
  match goal with
  | |- context [if ?c then _ else _] => replace c with false by bool_arith
  end.

(** Equality of two shapes whose dimensions differ by linear rewriting of the
    exponents. *)
Ltac shape_eq := unfold pyramid_shape; f_equal; repeat (lia || f_equal).

Lemma window_out_same (len : Z) : window_out (len + 1 + 1) 3 1 = len.
Proof. unfold window_out. rewrite Z.div_1_r. lia. Qed.



Lemma window_out_half (k : Z) : window_out (k * 2) 2 2 = k.
Proof.
  unfold window_out. replace (k * 2 - 2) with ((k - 1) * 2) by lia.
  rewrite Z.div_mul by lia. lia.
Qed.

Lemma Qfloor_double (k : Z) : Qfloor (inject_Z k * 2.0) = k * 2.
Proof.
  unfold Qfloor. cbn. change (Z.pos (1 * 10)) with 10.
  replace (k * 20) with (k * 2 * 10) by lia. apply Z.div_mul. lia.
Qed.

Lemma pow2_pos (e : Z) : 0 <= e -> 0 < 2 ^ e.
Proof. intros. by apply Z.pow_pos_nonneg. Qed.

Lemma pow2_step (e : Z) : 1 <= e -> 2 ^ e = 2 ^ (e - 1) * 2.
Proof.
  intros He. replace e with (Z.succ (e - 1)) at 1 by lia.
  rewrite Z.pow_succ_r by lia. lia.
Qed.

Lemma scaled_pow2_ge_2 (h e : Z) : 1 <= h -> 1 <= e -> 2 <= h * 2 ^ e.
Proof.
  intros Hh He. rewrite pow2_step by done.
  pose proof (pow2_pos (e - 1) ltac:(lia)). nia.
Qed.

Section NetworkShapes.
Context {Params : Type}.
Variable conv2d_values : Params -> Z -> Z -> bool -> Tensor R -> Data.
Variable batch_norm_values : Params -> Tensor R -> Data.
Variable bilinear_values : Tensor R -> Z -> Z -> Data.
Variable grid_sample_values : Tensor R -> Q * Q -> Z -> Z -> Data.
Variable state_dict : string -> Params.

Local Abbreviation Sequential := (Sequential_forward conv2d_values batch_norm_values).

(** A pad-conv-norm-relu stage with a 3x3 kernel keeps the spatial size and
    sets the channel count. *)
Lemma conv_stage_shape (θ θ' : Params) (cin cout : Z) (bias : bool) (slope : Q)
    (t : Tensor R) :
  channels (shape t) = cin -> 1 <= batch (shape t) ->
  2 <= height (shape t) -> 2 <= width (shape t) ->
  exists t',
    Sequential [ReflectionPad2d 1; Conv2d θ cin cout 3 1 bias;
                BatchNorm2d θ' cout; LeakyReLU slope] t = Ok t'
    /\ shape t' = mkShape (batch (shape t)) cout (height (shape t)) (width (shape t)).
Proof.
  intros Hc Hn Hh Hw. cbn [Sequential_forward Layer_forward].
  unfold pad_reflect.
  guard_true. cbn [mbind result_bind shape batch channels height width].
  guard_true. cbn [mbind result_bind shape batch channels height width].
  rewrite !window_out_same. rewrite Z.eqb_refl. cbn [negb].
  guard_false. cbn [mbind result_bind].
  eexists. split; reflexivity.
Qed.

Lemma down_stage_shape (path : string) (base : Z) (bias : bool) (i : Z) (t : Tensor R) :
  channels (shape t) = base * 2 ^ i -> 1 <= batch (shape t) ->
  2 <= height (shape t) -> 2 <= width (shape t) ->
  exists t',
    Sequential (RescaleBlock_stage state_dict path 0.5 base bias i) t = Ok t'
    /\ shape t' = mkShape (batch (shape t)) (base * 2 ^ (i + 1))
                          (height (shape t)) (width (shape t)).
Proof.
  intros Hc HN Hh Hw. unfold RescaleBlock_stage.
  change (Qgt_bool 0.5 1) with false. change (Qlt_bool 0.5 1) with true.
  cbn [bool_to_Z]. apply conv_stage_shape; try done. by rewrite Z.add_0_r.
Qed.

Lemma up_stage_shape (path : string) (base : Z) (bias : bool) (i : Z) (t : Tensor R) :
  channels (shape t) = base * 2 ^ (i + 1) -> 1 <= batch (shape t) ->
  2 <= height (shape t) -> 2 <= width (shape t) ->
  exists t',
    Sequential (RescaleBlock_stage state_dict path 2.0 base bias i) t = Ok t'
    /\ shape t' = mkShape (batch (shape t)) (base * 2 ^ i)
                          (height (shape t)) (width (shape t)).
Proof.
  intros Hc HN Hh Hw. unfold RescaleBlock_stage.
  change (Qgt_bool 2.0 1) with true. change (Qlt_bool 2.0 1) with false.
  cbn [bool_to_Z]. rewrite (Z.add_0_r i). by apply conv_stage_shape.
Qed.

Local Abbreviation loop := (RescaleBlock_loop conv2d_values batch_norm_values bilinear_values).

(** The downscale loop from stage [k] on: each stage doubles the channels and
    halves the spatial size, and the feature maps are appended to the
    pyramid when all scales are requested. *)
Lemma down_loop_shapes (self : RescaleBlock) (path : string) (base : Z) (bias : bool)
    (N h w : Z) (return_all_scales : bool) (m : nat) :
  rb_scale self = 0.5%Q -> rb_max_pool self = MaxPool2d 2 2 ->
  1 <= N -> 1 <= h -> 1 <= w ->
  forall (k : nat) (i : Z) (t : Tensor R) (scales : list (Tensor R)),
    shape t = pyramid_shape N base h w (Z.of_nat (k + m)) (Z.of_nat k) ->
    exists t' scales',
      loop self None return_all_scales false i
           (RescaleBlock_stage state_dict path 0.5 base bias <$> (Z.of_nat <$> seq k m))
           t scales
      = Ok (t', scales ++ scales')
      /\ shape t' = pyramid_shape N base h w (Z.of_nat (k + m)) (Z.of_nat (k + m))
      /\ (if return_all_scales
          then shape <$> scales'
               = pyramid_shape N base h w (Z.of_nat (k + m)) <$> (Z.of_nat <$> seq (S k) m)
          else scales' = []).
Proof.
  intros Hscale Hpool HN Hh Hw. induction m as [|m IH]; intros k i t scales Ht.
  - exists t, []. cbn. rewrite app_nil_r, Nat.add_0_r in *.
    split; [done|]. split; [done|]. by destruct return_all_scales.
  - cbn [seq fmap list_fmap RescaleBlock_loop]. rewrite Hscale, Hpool.
    change (Qgt_bool 0.5 1) with false. change (Qlt_bool 0.5 1) with true.
    cbn [mbind result_bind].
    assert (Hpow : 2 ^ (Z.of_nat (k + S m) - Z.of_nat k)
                   = 2 ^ (Z.of_nat (k + S m) - Z.of_nat (S k)) * 2).
    { rewrite pow2_step by lia. do 2 f_equal. lia. }
    pose proof (pow2_pos (Z.of_nat (k + S m) - Z.of_nat (S k)) ltac:(lia)) as Hpos.
    destruct (down_stage_shape path base bias (Z.of_nat k) t) as (t1 & -> & Hs1).
    { by rewrite Ht. }
    { rewrite Ht. cbn. lia. }
    { rewrite Ht. cbn. rewrite Hpow. nia. }
    { rewrite Ht. cbn. rewrite Hpow. nia. }
    rewrite Ht in Hs1. cbn [pyramid_shape batch channels height width] in Hs1.
    cbn [mbind result_bind Layer_forward]. rewrite Hs1.
    cbn [batch channels height width]. rewrite Hpow, !Z.mul_assoc, !window_out_half.
    guard_true. cbn [mbind result_bind].
    match goal with
    | |- context [loop _ _ _ _ _ _ ?t2 ?sc] =>
        destruct (IH (S k) (i + 1) t2 sc) as (t' & scales' & Hrun & Ht' & Hsc)
    end.
    { cbn. shape_eq. }
    rewrite Hrun. replace (S k + m)%nat with (k + S m)%nat in * by lia.
    destruct return_all_scales.
    + eexists t', (_ :: scales'). rewrite <- app_assoc. cbn [app].
      split; [reflexivity|]. split; [done|].
      cbn [fmap list_fmap seq]. rewrite Hsc. f_equal.
      cbn. shape_eq.
    + exists t', scales'. subst scales'. by rewrite app_nil_r in *.
Qed.

Lemma interpolate_double_shape (t : Tensor R) :
  0 < height (shape t) -> 0 < width (shape t) ->
  exists t',
    interpolate_scale bilinear_values t 2.0 nearest = Ok t'
    /\ shape t' = mkShape (batch (shape t)) (channels (shape t))
                          (height (shape t) * 2) (width (shape t) * 2).
Proof.
  intros Hh Hw. unfold interpolate_scale. rewrite !Qfloor_double.
  guard_true. eexists. split; reflexivity.
Qed.

Lemma tadd_same_shape (x y : Tensor R) :
  shape x = shape y -> exists z, tadd x y = Ok z /\ shape z = shape x.
Proof.
  intros Hs. unfold tadd, tmap2. rewrite <- Hs, broadcast_shape_refl.
  eexists. split; reflexivity.
Qed.

Lemma pyramid_ok_getitem (N base h w : Z) (n : nat) (pyramid : list (Tensor R)) (j : nat) :
  pyramid_ok N base h w n pyramid -> (j <= n)%nat ->
  exists p,
    py_getitem pyramid (- Z.of_nat (n - j) - 1) = Ok p
    /\ shape p = pyramid_shape N base h w (Z.of_nat n) (Z.of_nat j).
Proof.
  intros Hp Hj. unfold pyramid_ok in Hp.
  assert (Hlen : length pyramid = S n).
  { apply (f_equal length) in Hp. by rewrite !length_fmap, length_seq in Hp. }
  assert (Hlook : (shape <$> pyramid) !! j
                  = Some (pyramid_shape N base h w (Z.of_nat n) (Z.of_nat j))).
  { rewrite Hp, !list_lookup_fmap, lookup_seq_lt by lia. done. }
  rewrite list_lookup_fmap in Hlook.
  destruct (pyramid !! j) as [p|] eqn:Hpj; [|done].
  exists p. split; [|by simplify_eq/=].
  unfold py_getitem. rewrite Hlen.
  replace (- Z.of_nat (n - j) - 1 <? 0) with true by bool_arith.
  replace (- Z.of_nat (n - j) - 1 + Z.of_nat (S n)) with (Z.of_nat j) by lia.
  replace ((0 <=? Z.of_nat j) && (Z.of_nat j <? Z.of_nat (S n))) with true by bool_arith.
  by rewrite Nat2Z.id, Hpj.
Qed.

(** The upscale loop with [m] stages left: each stage doubles the spatial
    size and halves the channels; with skip fusion the pyramid level of the
    same shape is added. *)
Lemma up_loop_shapes (self : RescaleBlock) (path : string) (base : Z) (bias : bool)
    (N h w : Z) (n : nat) (skip : bool) (pyramid : option (list (Tensor R))) :
  rb_scale self = 2.0%Q ->
  1 <= N -> 1 <= h -> 1 <= w ->
  (skip = true -> exists p, pyramid = Some p /\ pyramid_ok N base h w n p) ->
  forall (m : nat) (t : Tensor R) (scales : list (Tensor R)),
    (m <= n)%nat ->
    shape t = pyramid_shape N base h w (Z.of_nat n) (Z.of_nat m) ->
    exists t',
      loop self pyramid false skip (Z.of_nat (n - m))
           (RescaleBlock_stage state_dict path 2.0 base bias
              <$> (Z.of_nat <$> reverse (seq 0 m)))
           t scales
      = Ok (t', scales)
      /\ shape t' = pyramid_shape N base h w (Z.of_nat n) 0.
Proof.
  intros Hscale HN Hh Hw Hpyr. induction m as [|m IH]; intros t scales Hm Ht.
  - exists t. by cbn.
  - rewrite seq_S, reverse_snoc. cbn [fmap list_fmap RescaleBlock_loop]. rewrite Hscale.
    change (Qgt_bool 2.0 1) with true. change (Qlt_bool 2.0 1) with false.
    pose proof (pow2_pos (Z.of_nat n - Z.of_nat (S m)) ltac:(lia)) as Hpos.
    destruct (interpolate_double_shape t) as (t1 & -> & Hs1);
      [rewrite Ht; cbn; nia..|].
    rewrite Ht in Hs1. cbn [pyramid_shape batch channels height width] in Hs1.
    cbn [mbind result_bind].
    destruct (up_stage_shape path base bias (Z.of_nat (0 + m)) t1) as (t2 & -> & Hs2);
      [rewrite Hs1; cbn; (nia || (f_equal; f_equal; lia))..|].
    rewrite Hs1 in Hs2. cbn [batch channels height width] in Hs2.
    cbn [mbind result_bind].
    assert (Hlevel : shape t2 = pyramid_shape N base h w (Z.of_nat n) (Z.of_nat m)).
    { rewrite Hs2. unfold pyramid_shape. cbn [Nat.add].
      rewrite (pow2_step (Z.of_nat n - Z.of_nat m)) by lia.
      replace (Z.of_nat n - Z.of_nat m - 1) with (Z.of_nat n - Z.of_nat (S m)) by lia.
      f_equal; lia. }
    assert (Hfuse : exists t3,
      (if skip
       then match pyramid with
            | None => Raise TypeError
            | Some pyramid => p ← py_getitem pyramid (- Z.of_nat (n - S m) - 2); tadd t2 p
            end
       else Ok t2) = Ok t3
      /\ shape t3 = pyramid_shape N base h w (Z.of_nat n) (Z.of_nat m)).
    { destruct skip; [|by exists t2].
      destruct (Hpyr eq_refl) as (p & -> & Hp).
      destruct (pyramid_ok_getitem N base h w n p m Hp ltac:(lia)) as (x & Hx & Hsx).
      replace (- Z.of_nat (n - S m) - 2) with (- Z.of_nat (n - m) - 1) by lia.
      rewrite Hx. cbn [mbind result_bind].
      destruct (tadd_same_shape t2 x) as (t3 & -> & Hs3); [congruence|].
      exists t3. split; [done|congruence]. }
    destruct Hfuse as (t3 & -> & Hs3). cbn [mbind result_bind].
    replace (Z.of_nat (n - S m) + 1) with (Z.of_nat (n - m)) by lia.
    apply IH; [lia|done].
Qed.

Local Abbreviation rescale := (RescaleBlock_forward conv2d_values batch_norm_values bilinear_values).

(** One pass of a downscale block over an input at level 0. *)
Lemma RescaleBlock_forward_down (path : string) (base : Z) (bias : bool) (N h w n : Z)
    (return_all_scales : bool) (t : Tensor R) :
  0 <= n -> 1 <= N -> 1 <= h -> 1 <= w ->
  shape t = pyramid_shape N base h w n 0 ->
  exists t' pyramid,
    rescale (RescaleBlock_init state_dict path n 0.5 base bias) t None
            return_all_scales false
    = Ok (t', pyramid)
    /\ shape t' = pyramid_shape N base h w n n
    /\ (if return_all_scales
        then exists p, pyramid = Some p /\ pyramid_ok N base h w (Z.to_nat n) p
        else pyramid = None).
Proof.
  intros Hn HN Hh Hw Ht. unfold RescaleBlock_forward, RescaleBlock_init.
  cbn [rb_conv_layers]. change (Qgt_bool 0.5 1) with false. cbv iota. unfold py_range.
  match goal with
  | |- context [RescaleBlock_loop _ _ _ ?self _ _ _ _ _ _ ?sc] =>
      destruct (down_loop_shapes self path base bias N h w return_all_scales
                  (Z.to_nat n) eq_refl eq_refl HN Hh Hw 0%nat 0 t sc)
        as (t' & scales' & -> & Ht' & Hsc)
  end.
  { rewrite Ht. shape_eq. }
  cbn [mbind result_bind]. rewrite Nat.add_0_l, Z2Nat.id in * by done.
  eexists _, _. split; [reflexivity|]. split; [done|].
  destruct return_all_scales; [|done].
  eexists. split; [reflexivity|]. unfold pyramid_ok.
  rewrite Z2Nat.id by done. cbn [app fmap list_fmap seq]. rewrite Hsc, Ht. done.
Qed.

(** One pass of an upscale block over an input at level [n]. *)
Lemma RescaleBlock_forward_up (path : string) (base : Z) (bias : bool) (N h w n : Z)
    (skip : bool) (pyramid : option (list (Tensor R))) (t : Tensor R) :
  0 <= n -> 1 <= N -> 1 <= h -> 1 <= w ->
  (skip = true -> exists p, pyramid = Some p /\ pyramid_ok N base h w (Z.to_nat n) p) ->
  shape t = pyramid_shape N base h w n n ->
  exists t',
    rescale (RescaleBlock_init state_dict path n 2.0 base bias) t pyramid false skip
    = Ok (t', None)
    /\ shape t' = pyramid_shape N base h w n 0.
Proof.
  intros Hn HN Hh Hw Hpyr Ht. unfold RescaleBlock_forward, RescaleBlock_init.
  cbn [rb_conv_layers]. change (Qgt_bool 2.0 1) with true. cbv iota. unfold py_range.
  rewrite <- !fmap_reverse.
  match goal with
  | |- context [RescaleBlock_loop _ _ _ ?self _ _ _ _ _ _ ?sc] =>
      destruct (up_loop_shapes self path base bias N h w (Z.to_nat n) skip pyramid
                  eq_refl HN Hh Hw Hpyr (Z.to_nat n) t sc)
        as (t' & Hrun & Ht')
  end.
  { lia. }
  { rewrite Ht. by rewrite Z2Nat.id. }
  rewrite Nat.sub_diag in Hrun. change (Z.of_nat 0) with 0 in Hrun. rewrite Hrun.
  cbn [mbind result_bind]. rewrite Z2Nat.id in Ht' by done.
  by exists t'.
Qed.

(** On inputs whose size is a positive multiple of [2^n] the pair of blocks
    returns a tensor of the shape of the input. *)
Lemma Rescale_down_up_total (path_down path_up : string) (n base : Z)
    (bias_down bias_up : bool) (h w : Z) (input_tensor : Tensor R) :
  0 <= n -> 1 <= h -> 1 <= w ->
  1 <= batch (shape input_tensor) ->
  channels (shape input_tensor) = base ->
  height (shape input_tensor) = h * 2 ^ n ->
  width (shape input_tensor) = w * 2 ^ n ->
  exists output,
    Rescale_down_up conv2d_values batch_norm_values bilinear_values
      (RescaleBlock_init state_dict path_down n 0.5 base bias_down)
      (RescaleBlock_init state_dict path_up n 2.0 base bias_up)
      input_tensor
    = Ok output
    /\ shape output = shape input_tensor.
Proof.
  intros Hn Hh Hw HN Hc Hheight Hwidth.
  assert (Ht : shape input_tensor
               = pyramid_shape (batch (shape input_tensor)) base h w n 0).
  { unfold pyramid_shape. rewrite Z.sub_0_r, Z.pow_0_r, Z.mul_1_r.
    destruct (shape input_tensor); cbn in *. congruence. }
  unfold Rescale_down_up.
  destruct (RescaleBlock_forward_down path_down base bias_down _ h w n true
              input_tensor Hn HN Hh Hw Ht) as (t1 & pyramid & -> & Ht1 & p & -> & Hp).
  cbn [mbind result_bind].
  destruct (RescaleBlock_forward_up path_up base bias_up _ h w n true (Some p) t1
              Hn HN Hh Hw) as (t2 & -> & Ht2); [by exists p|done|].
  cbn [mbind result_bind]. exists t2. split; [done|congruence].
Qed.
End NetworkShapes.


(** ** Generator *)


Section GeneratorShapes.
Context {Params : Type}.
Variable conv2d_values : Params -> Z -> Z -> bool -> Tensor R -> Data.
Variable batch_norm_values : Params -> Tensor R -> Data.
Variable bilinear_values : Tensor R -> Z -> Z -> Data.
Variable grid_sample_values : Tensor R -> Q * Q -> Z -> Z -> Data.
Variable state_dict : string -> Params.

Local Abbreviation Sequential := (Sequential_forward conv2d_values batch_norm_values).







End GeneratorShapes.


(** Outside the valid sizes the requested size is not reached: for
    [output_size = (65, 65)] and 3 downsampling stages the generator without
    skip connections returns a 64x64 image, and the one with skip
    connections raises at the first fusion whose sizes differ. *)
Lemma Generator_forward_unreachable_size :
  (exists output,
     Generator_forward zero_conv2d zero_batch_norm zero_bilinear zero_grid_sample
       (Generator_init no_state 64 6 3 true false)
       (mkTensor (mkShape 4 3 64 64) (fun _ _ _ _ => 0%R)) (65, 65) None
     = Ok output
     /\ shape output = mkShape 4 3 64 64)
  /\ Generator_forward zero_conv2d zero_batch_norm zero_bilinear zero_grid_sample
       (Generator_init no_state 64 6 3 true true)
       (mkTensor (mkShape 4 3 64 64) (fun _ _ _ _ => 0%R)) (65, 65) None
     = Raise RuntimeError.
Proof.
  split; [eexists; split; [vm_compute; reflexivity|reflexivity]|].
  vm_compute. reflexivity.
Qed.

(** ** The rescale pair on arbitrary inputs *)

Lemma bind_Ok {X Y} (m : result X) (f : X -> result Y) (y : Y) :
  m ≫= f = Ok y -> exists x, m = Ok x /\ f x = Ok y.
Proof. destruct m as [x|e]; cbn; [by exists x|done]. Qed.

Lemma broadcast_dim_ge_2 (a b d : Z) : broadcast_dim a b = Some d -> 2 <= b -> d = b.
Proof.
  unfold broadcast_dim. intros Hd Hb.
  destruct (Z.eqb_spec a b); [by simplify_eq|].
  destruct (Z.eqb_spec a 1); [by simplify_eq|].
  destruct (Z.eqb_spec b 1); [lia|done].
Qed.

Lemma tadd_spatial (x y z : Tensor R) :
  tadd x y = Ok z ->
  (2 <= height (shape y) -> height (shape z) = height (shape y))
  /\ (2 <= width (shape y) -> width (shape z) = width (shape y)).
Proof.
  unfold tadd, tmap2, broadcast_shape. intros Hz.
  destruct (broadcast_dim (batch (shape x)) (batch (shape y))) as [n|]; [|done].
  destruct (broadcast_dim (channels (shape x)) (channels (shape y))) as [c|]; [|done].
  destruct (broadcast_dim (height (shape x)) (height (shape y))) as [v|] eqn:Hv; [|done].
  destruct (broadcast_dim (width (shape x)) (width (shape y))) as [h|] eqn:Hh; [|done].
  cbn in Hz. simplify_eq. cbn.
  split; intros ?; eapply broadcast_dim_ge_2; eauto.
Qed.

Section RescalePair.
Context {Params : Type}.
Variable conv2d_values : Params -> Z -> Z -> bool -> Tensor R -> Data.
Variable batch_norm_values : Params -> Tensor R -> Data.
Variable bilinear_values : Tensor R -> Z -> Z -> Data.
Variable state_dict : string -> Params.

Local Abbreviation Sequential := (Sequential_forward conv2d_values batch_norm_values).
Local Abbreviation loop := (RescaleBlock_loop conv2d_values batch_norm_values bilinear_values).

(** A stage starts by a reflection padding of 1, which succeeds only on a
    tensor of size at least 2x2. *)
Lemma stage_returns_size (path : string) (scale : Q) (base : Z) (bias : bool) (i : Z)
    (t t' : Tensor R) :
  Sequential (RescaleBlock_stage state_dict path scale base bias i) t = Ok t' ->
  2 <= height (shape t) /\ 2 <= width (shape t).
Proof.
  unfold RescaleBlock_stage. cbn [Sequential_forward Layer_forward].
  intros (t1 & Hpad & _)%bind_Ok. unfold pad_reflect in Hpad.
  destruct ((1 <? width (shape t)) && (1 <? width (shape t))
            && (1 <? height (shape t)) && (1 <? height (shape t))) eqn:Hguard; [|done].
  rewrite !Bool.andb_true_iff, !Z.ltb_lt in Hguard. lia.
Qed.

(** The downscale loop appends one feature map per stage to the pyramid. *)
Lemma down_loop_pyramid (self : RescaleBlock) (layers : list (list (Layer Params))) :
  forall (i : Z) (t t' : Tensor R) (scales scales' : list (Tensor R)),
    loop self None true false i layers t scales = Ok (t', scales') ->
    exists more, scales' = scales ++ more /\ length more = length layers.
Proof.
  induction layers as [|l layers IH]; intros i t t' scales scales' Hrun.
  - cbn in Hrun. simplify_eq. exists []. by rewrite app_nil_r.
  - cbn [RescaleBlock_loop] in Hrun.
    apply bind_Ok in Hrun as (t1 & _ & Hrun). apply bind_Ok in Hrun as (t2 & _ & Hrun).
    apply bind_Ok in Hrun as (t3 & _ & Hrun). apply bind_Ok in Hrun as (t4 & _ & Hrun).
    apply IH in Hrun as (more & -> & Hlen).
    exists (t4 :: more). rewrite <- app_assoc. split; [done|]. cbn. by rewrite Hlen.
Qed.

(** With skip fusion, the last stage of the upscale loop adds the first
    entry of the pyramid, which fixes the spatial size of the result. *)
Lemma up_loop_last_fusion (self : RescaleBlock) (pyramid : list (Tensor R))
    (p0 : Tensor R) (layers : list (list (Layer Params))) :
  rb_scale self = 2.0%Q -> pyramid !! 0%nat = Some p0 ->
  forall (i : Z) (t t' : Tensor R) (scales scales' : list (Tensor R)),
    layers <> [] -> 0 <= i ->
    Z.of_nat (length pyramid) = i + Z.of_nat (length layers) + 1 ->
    loop self (Some pyramid) false true i layers t scales = Ok (t', scales') ->
    (2 <= height (shape p0) -> height (shape t') = height (shape p0))
    /\ (2 <= width (shape p0) -> width (shape t') = width (shape p0)).
Proof.
  intros Hscale Hp0. induction layers as [|l layers IH];
    intros i t t' scales scales' Hne Hi Hlen Hrun; [done|].
  cbn [RescaleBlock_loop] in Hrun. rewrite Hscale in Hrun.
  change (Qlt_bool 2.0 1) with false in Hrun.
  apply bind_Ok in Hrun as (t1 & _ & Hrun). apply bind_Ok in Hrun as (t2 & _ & Hrun).
  apply bind_Ok in Hrun as (t3 & Hfuse & Hrun). cbn [mbind result_bind] in Hrun.
  destruct layers as [|l' layers].
  - cbn in Hrun. simplify_eq.
    apply bind_Ok in Hfuse as (x & Hx & Hadd).
    assert (x = p0) as ->; [|by eapply tadd_spatial].
    unfold py_getitem in Hx. cbn [length] in Hlen.
    replace (- i - 2 <? 0) with true in Hx by lia.
    replace (- i - 2 + Z.of_nat (length pyramid)) with 0 in Hx by lia.
    replace ((0 <=? 0) && (0 <? Z.of_nat (length pyramid))) with true in Hx by lia.
    change (Z.to_nat 0) with 0%nat in Hx. rewrite Hp0 in Hx. by simplify_eq.
  - eapply (IH (i + 1)); [done|lia| |exact Hrun]. cbn [length] in *. lia.
Qed.

(** C7, as amended.  A downscale block followed by an upscale block with the
    same stage count [n] and base channels, fusing the pyramid of the
    downscale pass, never returns a tensor of another spatial size than its
    input; and it does return on every input with [base] channels, a
    non-empty batch and a height and a width that are positive multiples of
    [2^n] (for [n >= 0]). *)
Theorem Rescale_down_up_size (path_down path_up : string) (n base : Z)
    (bias_down bias_up : bool) (input_tensor : Tensor R) :
  (forall output,
     Rescale_down_up conv2d_values batch_norm_values bilinear_values
       (RescaleBlock_init state_dict path_down n 0.5 base bias_down)
       (RescaleBlock_init state_dict path_up n 2.0 base bias_up)
       input_tensor
     = Ok output ->
     height (shape output) = height (shape input_tensor)
     /\ width (shape output) = width (shape input_tensor))
  /\ (forall h w,
        0 <= n -> 1 <= h -> 1 <= w ->
        1 <= batch (shape input_tensor) ->
        channels (shape input_tensor) = base ->
        height (shape input_tensor) = h * 2 ^ n ->
        width (shape input_tensor) = w * 2 ^ n ->
        exists output,
          Rescale_down_up conv2d_values batch_norm_values bilinear_values
            (RescaleBlock_init state_dict path_down n 0.5 base bias_down)
            (RescaleBlock_init state_dict path_up n 2.0 base bias_up)
            input_tensor
          = Ok output
          /\ shape output = shape input_tensor).
Proof.
  split; [|intros h w; apply Rescale_down_up_total].
  intros output. unfold Rescale_down_up, RescaleBlock_forward, RescaleBlock_init.
  cbn [rb_conv_layers]. change (Qgt_bool 0.5 1) with false.
  change (Qgt_bool 2.0 1) with true. cbv iota.
  intros Hrun.
  apply bind_Ok in Hrun as ([t1 downscales] & Hdown & Hrun).
  apply bind_Ok in Hdown as ([t1' scales] & Hdown & Heq). cbn in Heq. simplify_eq.
  apply bind_Ok in Hrun as ([t2 ?] & Hup & Heq). cbn in Heq. simplify_eq.
  apply bind_Ok in Hup as ([t2' scales2] & Hup & Heq). cbn in Heq. simplify_eq.
  destruct (down_loop_pyramid _ _ _ _ _ _ _ Hdown) as (more & -> & Hmore).
  rewrite length_fmap in Hmore.
  destruct (py_range n) as [|j js] eqn:Hrange.
  - cbn in Hdown, Hup. by simplify_eq.
  - cbn [fmap list_fmap RescaleBlock_loop] in Hdown. change (Qgt_bool (rb_scale _) 1)
      with false in Hdown. cbn [rb_scale mbind result_bind] in Hdown.
    apply bind_Ok in Hdown as (t3 & Hstage & _).
    apply stage_returns_size in Hstage as [Hh Hw].
    eapply (up_loop_last_fusion _ _ input_tensor) in Hup; [|done|done| |lia|].
    + destruct Hup as [Hup_h Hup_w]. split; [by apply Hup_h|by apply Hup_w].
    + intros Hnil%(f_equal length).
      by rewrite length_reverse, length_fmap in Hnil.
    + rewrite length_app, length_reverse, !length_fmap. cbn [length] in *. lia.
Qed.
End RescalePair.

Lemma Rescale_down_up_size_witness :
  exists output,
    Rescale_down_up zero_conv2d zero_batch_norm zero_bilinear
      (RescaleBlock_init no_state "down." 2 0.5 1 true)
      (RescaleBlock_init no_state "up." 2 2.0 1 true)
      (zero_image 8 12)
    = Ok output
    /\ shape output = shape (zero_image 8 12).
Proof.
  destruct (Rescale_down_up_size zero_conv2d zero_batch_norm zero_bilinear no_state
              "down." "up." 2 1 true true (zero_image 8 12)) as [_ Htotal].
  apply (Htotal 2 3); cbn; (lia || reflexivity).
Defined.

(** C7 as stated fails on an input whose size is not a multiple of [2^n]:
    with one stage, a 3x3 input is pooled to 1x1 and upscaled to 2x2, and the
    skip addition of the 3x3 pyramid entry raises. *)
Lemma Rescale_down_up_odd_size_raises :
  Rescale_down_up zero_conv2d zero_batch_norm zero_bilinear
    (RescaleBlock_init no_state "down." 1 0.5 1 true)
    (RescaleBlock_init no_state "up." 1 2.0 1 true)
    (zero_image 3 3)
  = Raise RuntimeError.
Proof. vm_compute. reflexivity. Qed.

(** * Further properties of the code *)

(** ** RandomCrop: errors and the cropped window *)

(** A supplied crop size that is not smaller than the first tensor leaves
    no position to draw. *)
Lemma RandomCrop_forward_too_large {A} (self : RandomCrop) (t0 : Tensor A)
    (rest : list (option (Tensor A))) (cr_v cr_h : Z) (draw : Z * Z) :
  height (shape t0) <= cr_v \/ width (shape t0) <= cr_h ->
  RandomCrop_forward self (Some t0 :: rest) (Some (cr_v, cr_h)) draw = Raise ValueError.
Proof.
  intros Hbig. unfold RandomCrop_forward, RandomCrop_size, randint.
  cbn [mbind result_bind].
  destruct (Z.ltb_spec 0 (height (shape t0) - cr_v)); [|reflexivity].
  cbn [mbind result_bind].
  destruct (Z.ltb_spec 0 (width (shape t0) - cr_h)); [lia|reflexivity].
Qed.

(** X22.  [RandomCrop.forward] raises [IndexError] on an empty list,
    [AttributeError] when the first tensor is absent, [TypeError] when no
    crop size is configured or supplied, and [ValueError] when the supplied
    crop size is not strictly smaller than the first tensor in both
    dimensions, whatever the draws. *)
Theorem RandomCrop_forward_errors {A} (self : RandomCrop)
    (rest : list (option (Tensor A))) (crop_size : option (Z * Z)) (draw : Z * Z) :
  RandomCrop_forward self ([] : list (option (Tensor A))) crop_size draw = Raise IndexError
  /\ RandomCrop_forward self (None :: rest) crop_size draw = Raise AttributeError
  /\ (forall t0, rc_crop_size self = None ->
        RandomCrop_forward self (Some t0 :: rest) None draw = Raise TypeError)
  /\ (forall t0 cr_v cr_h,
        height (shape t0) <= cr_v \/ width (shape t0) <= cr_h ->
        RandomCrop_forward self (Some t0 :: rest) (Some (cr_v, cr_h)) draw
        = Raise ValueError).
Proof.
  split; [reflexivity|]. split; [reflexivity|]. split.
  - intros t0 Hnone. unfold RandomCrop_forward, RandomCrop_size. by rewrite Hnone.
  - intros t0 cr_v cr_h Hbig. unfold RandomCrop_forward, RandomCrop_size, randint.
    cbn [mbind result_bind].
    destruct (Z.ltb_spec 0 (height (shape t0) - cr_v)); [|reflexivity].
    cbn [mbind result_bind].
    destruct (Z.ltb_spec 0 (width (shape t0) - cr_h)); [lia|reflexivity].
Qed.

Lemma RandomCrop_forward_errors_witness :
  RandomCrop_forward (RandomCrop_init None false 4) [Some (example_image 10 10)] None (0, 0)
  = Raise TypeError
  /\ RandomCrop_forward (RandomCrop_init None false 4) [Some (example_image 10 10)]
                        (Some (10, 4)) (0, 0)
     = Raise ValueError.
Proof.
  destruct (RandomCrop_forward_errors (RandomCrop_init None false 4)
              ([] : list (option (Tensor Z))) None (0, 0)) as (_ & _ & Htype & Hvalue).
  split.
  - apply Htype. reflexivity.
  - apply Hvalue. left. cbn. lia.
Defined.

(** X23.  Every crop returned by [RandomCrop.forward] is the window of its source
    at the drawn position: pixel [(a, b)] of the crop is pixel
    [(top + a, left + b)] of the source, for all co-registered tensors alike.
    The position is returned exactly when [return_pos] is set, and the window
    never contains the last row or the last column of the source. *)
Theorem RandomCrop_forward_window {A} (self : RandomCrop) (t0 : Tensor A)
    (rest : list (option (Tensor A))) (crop_size : option (Z * Z)) (draw : Z * Z)
    (cr_v cr_h : Z) :
  RandomCrop_size self (height (shape t0)) (width (shape t0)) crop_size = Ok (cr_v, cr_h) ->
  0 <= cr_v -> 0 <= cr_h ->
  randint_draw 0 (height (shape t0) - cr_v) (fst draw) ->
  randint_draw 0 (width (shape t0) - cr_h) (snd draw) ->
  exists outs,
    RandomCrop_forward self (Some t0 :: rest) crop_size draw
    = Ok (outs, if rc_return_pos self then Some draw else None)
    /\ (forall i t,
          (Some t0 :: rest) !! i = Some (Some t) ->
          height (shape t) = height (shape t0) -> width (shape t) = width (shape t0) ->
          exists crop,
            outs !! i = Some (Some crop)
            /\ batch (shape crop) = batch (shape t)
            /\ channels (shape crop) = channels (shape t)
            /\ forall n c a b,
                 data crop n c a b = data t n c (fst draw + a) (snd draw + b))
    /\ fst draw + cr_v <= height (shape t0) - 1
    /\ snd draw + cr_h <= width (shape t0) - 1.
Proof.
  intros Hsz Hcv Hch Hdv Hdh.
  rewrite (RandomCrop_forward_unfold self t0 rest crop_size draw cr_v cr_h) by done.
  unfold randint_draw in *.
  eexists. split; [reflexivity|]. split; [|lia].
  intros i t Hi Ht_v Ht_h. rewrite list_lookup_fmap, Hi. cbn [fmap option_fmap option_map].
  eexists. split; [reflexivity|]. split; [reflexivity|]. split; [reflexivity|].
  intros n c a b. apply crop_data; rewrite ?Ht_v, ?Ht_h; lia.
Qed.

Lemma RandomCrop_forward_window_witness :
  exists outs,
    RandomCrop_forward (RandomCrop_init (Some (9, 9)) true 4)
                       [Some (example_image 10 10); None] None (1, 0)
    = Ok (outs, Some (1, 0)).
Proof.
  destruct (RandomCrop_forward_window (RandomCrop_init (Some (9, 9)) true 4)
              (example_image 10 10) [None] None (1, 0) 8 8)
    as (outs & Hrun & _);
    [cbn; unfold randint_draw; cbn; lia || reflexivity..|].
  exists outs. exact Hrun.
Defined.

(** ** SwapCrops: regions, mask values, sampled sizes *)

Section SwapCropsFurther.
Context {A : Type} (zero one : A).
Variables (min_crop_size max_crop_size mw : Z) (input : Tensor A) (d : SwapDraws).

Local Abbreviation self := (SwapCrops_init min_crop_size max_crop_size mw).
Local Abbreviation cr_v := (sampled_crop_size self (d_rand d).1).
Local Abbreviation cr_h := (sampled_crop_size self (d_rand d).2).
Local Abbreviation v1 := (d_pos_1 d).1.
Local Abbreviation h1 := (d_pos_1 d).2.
Local Abbreviation v2 := (d_pos_2 d).1.
Local Abbreviation h2 := (d_pos_2 d).2.
Local Abbreviation im_v := (height (shape input)).
Local Abbreviation im_h := (width (shape input)).

(** X25.  After [SwapCrops.forward] the second region always holds the content the
    input has in the first region; the first region holds the content of the
    second one wherever the second region does not cover it; every pixel of
    the output is a pixel of the input; and when the two drawn positions
    coincide the output is the input. *)
Theorem SwapCrops_forward_regions :
  swap_draws_ok self im_v im_h d ->
  exists output loss_mask,
    SwapCrops_forward zero one self input d = Ok (output, loss_mask)
    /\ shape output = shape input /\ shape loss_mask = shape input
    /\ (forall n c a b,
          0 <= n < batch (shape input) -> 0 <= c < channels (shape input) ->
          0 <= a < cr_v -> 0 <= b < cr_h ->
          data output n c (v2 + a) (h2 + b) = data input n c (v1 + a) (h1 + b))
    /\ (forall n c a b,
          0 <= n < batch (shape input) -> 0 <= c < channels (shape input) ->
          0 <= a < cr_v -> 0 <= b < cr_h ->
          in_rect v2 (v2 + cr_v) h2 (h2 + cr_h) (v1 + a) (h1 + b) = false ->
          data output n c (v1 + a) (h1 + b) = data input n c (v2 + a) (h2 + b))
    /\ (forall n c v h, in_shape (shape input) n c v h ->
          exists v' h', in_shape (shape input) n c v' h'
                        /\ data output n c v h = data input n c v' h')
    /\ (d_pos_1 d = d_pos_2 d ->
        forall n c v h, in_shape (shape input) n c v h ->
          data output n c v h = data input n c v h).
Proof.
  intros Hd.
  destruct (SwapCrops_forward_run zero one min_crop_size max_crop_size mw input d Hd)
    as (output & loss_mask & Hrun & Hshape & Hmshape & Hout & _).
  destruct Hd as (_ & _ & Hv1 & Hh1 & Hv2 & Hh2). unfold randint_draw in *.
  exists output, loss_mask. do 3 (split; [done|]).
  split; [|split; [|split]].
  - intros n c a b Hn Hc Ha Hb. rewrite Hout by (unfold in_shape; lia).
    unfold swapped, in_rect.
    replace ((v2 <=? v2 + a) && (v2 + a <? v2 + cr_v)
             && (h2 <=? h2 + b) && (h2 + b <? h2 + cr_h)) with true by lia.
    f_equal; lia.
  - intros n c a b Hn Hc Ha Hb Hout2. rewrite Hout by (unfold in_shape; lia).
    unfold swapped. rewrite Hout2. unfold in_rect.
    replace ((v1 <=? v1 + a) && (v1 + a <? v1 + cr_v)
             && (h1 <=? h1 + b) && (h1 + b <? h1 + cr_h)) with true by lia.
    f_equal; lia.
  - intros n c v h Hin. rewrite Hout by done. unfold swapped, in_rect, in_shape in *.
    destruct ((v2 <=? v) && (v <? v2 + cr_v) && (h2 <=? h) && (h <? h2 + cr_h)) eqn:H2;
      [|destruct ((v1 <=? v) && (v <? v1 + cr_v) && (h1 <=? h) && (h <? h1 + cr_h)) eqn:H1].
    + exists (v1 + (v - v2)), (h1 + (h - h2)). split; [lia|done].
    + exists (v2 + (v - v1)), (h2 + (h - h1)). split; [lia|done].
    + by exists v, h.
  - intros Hsame n c v h Hin. rewrite Hout by done. unfold swapped, in_rect.
    rewrite Hsame.
    destruct ((v2 <=? v) && (v <? v2 + cr_v) && (h2 <=? h) && (h <? h2 + cr_h));
      f_equal; lia.
Qed.

(** X26.  The loss mask of [SwapCrops.forward] only holds the values 0 and 1, and
    it is the same for every batch entry and every channel. *)
Theorem SwapCrops_mask_binary :
  swap_draws_ok self im_v im_h d ->
  exists output loss_mask,
    SwapCrops_forward zero one self input d = Ok (output, loss_mask)
    /\ forall n c v h,
         (data loss_mask n c v h = zero \/ data loss_mask n c v h = one)
         /\ forall n' c', data loss_mask n' c' v h = data loss_mask n c v h.
Proof.
  intros Hd.
  destruct (SwapCrops_forward_run zero one min_crop_size max_crop_size mw input d Hd)
    as (output & loss_mask & Hrun & _ & _ & _ & Hmask).
  exists output, loss_mask. split; [done|]. intros n c v h. split.
  - rewrite Hmask. destruct (_ || _); [by left|by right].
  - intros n' c'. by rewrite !Hmask.
Qed.

(** X28.  [SwapCrops.forward] raises [ValueError] whenever a sampled crop side is
    not smaller than the image side. *)
Theorem SwapCrops_forward_crop_too_large :
  im_v <= cr_v \/ im_h <= cr_h ->
  SwapCrops_forward zero one self input d = Raise ValueError.
Proof.
  intros Hbig. unfold SwapCrops_forward.
  by rewrite (RandomCrop_forward_too_large (sc_rand_crop_1 self) input [] cr_v cr_h
                (d_pos_1 d) Hbig).
Qed.
End SwapCropsFurther.

Lemma SwapCrops_forward_regions_witness :
  exists output loss_mask,
    SwapCrops_forward 0 1 (SwapCrops_init 1 1 5) (example_image 4 4)
                      (mkSwapDraws (0%Q, 0%Q) (0, 0) (2, 2)) = Ok (output, loss_mask)
    /\ shape output = shape (example_image 4 4)
    /\ shape loss_mask = shape (example_image 4 4).
Proof.
  destruct (SwapCrops_forward_regions 0 1 1 1 5 (example_image 4 4)
              (mkSwapDraws (0%Q, 0%Q) (0, 0) (2, 2)))
    as (output & loss_mask & Hrun & Hshape & Hmshape & _).
  - unfold swap_draws_ok, randint_draw. vm_compute. intuition discriminate.
  - exists output, loss_mask. split; [exact Hrun|]. split; [exact Hshape | exact Hmshape].
Defined.

Lemma SwapCrops_mask_binary_witness :
  exists output loss_mask,
    SwapCrops_forward 0 1 (SwapCrops_init 1 1 5) (example_image 4 4)
                      (mkSwapDraws (0%Q, 0%Q) (0, 0) (2, 2)) = Ok (output, loss_mask)
    /\ (data loss_mask 0 0 0 0 = 0 \/ data loss_mask 0 0 0 0 = 1).
Proof.
  destruct (SwapCrops_mask_binary 0 1 1 1 5 (example_image 4 4)
              (mkSwapDraws (0%Q, 0%Q) (0, 0) (2, 2)))
    as (output & loss_mask & Hrun & Hmask).
  - unfold swap_draws_ok, randint_draw. vm_compute. intuition discriminate.
  - exists output, loss_mask. split; [exact Hrun|]. exact (proj1 (Hmask 0 0 0 0)).
Defined.

Lemma SwapCrops_forward_crop_too_large_witness :
  SwapCrops_forward 0 1 (SwapCrops_init 8 8 5) (example_image 4 4)
                    (mkSwapDraws (0%Q, 0%Q) (0, 0) (0, 0)) = Raise ValueError.
Proof.
  apply (SwapCrops_forward_crop_too_large 0 1 8 8 5 (example_image 4 4)).
  left. vm_compute. discriminate.
Defined.

Lemma SwapCrops_mask_no_wrap_witness :
  exists output loss_mask,
    SwapCrops_forward 0 1 (SwapCrops_init 16 16 5) (example_image 64 64)
                      (mkSwapDraws (0%Q, 0%Q) (10, 10) (30, 30)) = Ok (output, loss_mask)
    /\ shape loss_mask = shape (example_image 64 64).
Proof.
  destruct (SwapCrops_mask_no_wrap 0 1 16 16 5 (example_image 64 64)
              (mkSwapDraws (0%Q, 0%Q) (10, 10) (30, 30)))
    as (output & loss_mask & Hrun & Hshape & _).
  - unfold swap_draws_ok, randint_draw. vm_compute. intuition discriminate.
  - lia.
  - cbn. lia.
  - cbn. lia.
  - cbn. lia.
  - cbn. lia.
  - exists output, loss_mask. split; [exact Hrun | exact Hshape].
Defined.



(** ** Loss modules: values *)

Lemma sum_range_le (n : Z) (f g : Z -> R) :
  (forall i, 0 <= i < n -> (f i <= g i)%R) -> (sum_range n f <= sum_range n g)%R.
Proof.
  unfold sum_range. intros Hfg.
  assert (Hall : forall k, k ∈ seq 0 (Z.to_nat n) -> (f (Z.of_nat k) <= g (Z.of_nat k))%R).
  { intros k Hk%elem_of_seq. apply Hfg. lia. }
  induction (seq 0 (Z.to_nat n)) as [|k l IH]; [cbn; lra|]. cbn.
  apply Rplus_le_compat; [apply Hall; left|apply IH; intros; apply Hall; by right].
Qed.

Lemma sum_range_scale (n : Z) (k : R) (f : Z -> R) :
  sum_range n (fun i => (k * f i)%R) = (k * sum_range n f)%R.
Proof.
  unfold sum_range. induction (seq 0 (Z.to_nat n)) as [|j l IH]; cbn; [lra|].
  rewrite IH. lra.
Qed.

Lemma tsum_le (t t' : Tensor R) :
  shape t = shape t' ->
  (forall n c v h, in_shape (shape t) n c v h -> (data t n c v h <= data t' n c v h)%R) ->
  (tsum t <= tsum t')%R.
Proof.
  intros Hs Hd. unfold tsum. rewrite <- Hs.
  apply sum_range_le; intros n Hn. apply sum_range_le; intros c Hc.
  apply sum_range_le; intros v Hv. apply sum_range_le; intros h Hh.
  by apply Hd.
Qed.

Lemma tsum_const (s : Shape) (x : R) :
  wf_shape s -> tsum (mkTensor s (fun _ _ _ _ => x)) = (IZR (numel s) * x)%R.
Proof.
  intros (Hn & Hc & Hv & Hh). unfold tsum, numel. cbn.
  rewrite !sum_range_const by done. rewrite !mult_IZR. lra.
Qed.

Lemma tsum_scale (k : R) (t : Tensor R) :
  tsum (tmap (fun x => (k * x)%R) t) = (k * tsum t)%R.
Proof.
  unfold tsum. cbn. rewrite <- sum_range_scale. apply sum_range_ext; intros n _.
  rewrite <- sum_range_scale. apply sum_range_ext; intros c _.
  rewrite <- sum_range_scale. apply sum_range_ext; intros v _.
  by rewrite <- sum_range_scale.
Qed.

(** X7.  [GANLoss.forward] returns the mean squared distance of the map to 1 for a
    real input and to 0 for a fake one, on a fresh module as well as after
    earlier calls; for a non-empty map with values in [0, 1] the loss lies in
    [0, 1]. *)
Theorem GANLoss_forward_value (self : gmap string PyVal) (d_last_layer : Tensor R)
    (is_d_input_real : bool) :
  self !! "loss" = Some (VCriterion MSELoss) ->
  wf_shape (shape d_last_layer) ->
  exists loss,
    (GANLoss_forward self d_last_layer is_d_input_real).1 = Ok loss
    /\ loss = (tsum (tmap (fun x => sqr (x - bool_to_R is_d_input_real)) d_last_layer)
               / IZR (numel (shape d_last_layer)))%R
    /\ (0 < numel (shape d_last_layer) ->
        (forall n c v h, in_shape (shape d_last_layer) n c v h ->
           (0 <= data d_last_layer n c v h <= 1)%R) ->
        (0 <= loss <= 1)%R).
Proof.
  intros Hloss Hwf. unfold GANLoss_forward. cbn [fst].
  rewrite getattr_setattr, getattr_setattr_ne by done.
  unfold getattr. rewrite Hloss. cbn [mbind result_bind as_criterion Criterion_forward].
  unfold tmap2. cbn [shape tmap full_like]. rewrite broadcast_shape_refl.
  cbn [mbind result_bind]. unfold tmean. cbn [shape].
  eexists. split; [reflexivity|].
  assert (Hsum : forall t : Tensor R, shape t = shape d_last_layer ->
            (forall n c v h, in_shape (shape d_last_layer) n c v h ->
               data t n c v h = sqr (data d_last_layer n c v h - bool_to_R is_d_input_real)) ->
            tsum t = tsum (tmap (fun x => sqr (x - bool_to_R is_d_input_real)) d_last_layer)).
  { intros t Hs Hd. apply tsum_ext; [done|]. rewrite Hs. done. }
  split.
  - f_equal. apply Hsum; [done|]. intros n c v h Hin. cbn [data].
    rewrite bdata_in_shape by done. unfold bdata. cbn [data shape tmap full_like].
    f_equal. lra.
  - intros Hnum Hrange.
    set (e := mkTensor (shape d_last_layer) _).
    assert (Hpos : (0 < IZR (numel (shape d_last_layer)))%R) by by apply IZR_lt.
    assert (H0 : (0 <= tsum e)%R).
    { rewrite <- (Rmult_0_r (IZR (numel (shape d_last_layer)))).
      rewrite <- (tsum_const (shape d_last_layer) 0) by done.
      apply tsum_le; [done|]. intros n c v h Hin. cbn [data e]. unfold sqr.
      apply pow2_ge_0. }
    assert (H1 : (tsum e <= IZR (numel (shape d_last_layer)))%R).
    { rewrite <- (Rmult_1_r (IZR (numel (shape d_last_layer)))).
      rewrite <- (tsum_const (shape d_last_layer) 1) by done.
      apply tsum_le; [done|]. intros n c v h Hin. cbn [data e shape] in *.
      rewrite bdata_in_shape by done. unfold bdata. cbn [data shape tmap full_like].
      specialize (Hrange n c v h Hin). unfold sqr, bool_to_R.
      destruct is_d_input_real; nra. }
    split.
    + apply Rmult_le_pos; [done|]. left. by apply Rinv_0_lt_compat.
    + apply (Rmult_le_reg_r (IZR (numel (shape d_last_layer)))); [done|].
      unfold Rdiv. rewrite Rmult_assoc, Rinv_l by lra. lra.
Qed.

Lemma GANLoss_forward_value_witness :
  exists loss, (GANLoss_forward GANLoss_init (zero_image 2 2) false).1 = Ok loss.
Proof.
  destruct (GANLoss_forward_value GANLoss_init (zero_image 2 2) false)
    as (loss & Hrun & _).
  - reflexivity.
  - unfold wf_shape. cbn. lia.
  - exists loss. exact Hrun.
Defined.

(** X8.  The masked loss of [WeightedMSELoss.forward], for a mask of the shape of
    prediction and target whose sum is not zero: it is not negative when the
    mask is not negative, it is zero when prediction and target agree, and it
    does not change when the mask is multiplied by a non-zero constant. *)
Theorem WeightedMSELoss_forward_masked_algebra (use_L1 : bool)
    (input_tensor target_tensor loss_mask : Tensor R) :
  shape input_tensor = shape target_tensor ->
  shape loss_mask = shape target_tensor ->
  tsum loss_mask <> 0%R ->
  exists loss,
    (WeightedMSELoss_forward (WeightedMSELoss_init use_L1)
                             input_tensor target_tensor (Some loss_mask)).1 = Ok loss
    /\ ((forall n c v h, in_shape (shape loss_mask) n c v h ->
           (0 <= data loss_mask n c v h)%R) ->
        (0 <= loss)%R)
    /\ ((forall n c v h, in_shape (shape target_tensor) n c v h ->
           data input_tensor n c v h = data target_tensor n c v h) ->
        loss = 0%R)
    /\ (forall k, k <> 0%R ->
          (WeightedMSELoss_forward (WeightedMSELoss_init use_L1) input_tensor target_tensor
             (Some (tmap (fun x => (k * x)%R) loss_mask))).1 = Ok loss).
Proof.
  intros Hin Hmask Hsum.
  assert (Hrun : forall m : Tensor R, shape m = shape target_tensor ->
    (WeightedMSELoss_forward (WeightedMSELoss_init use_L1)
                             input_tensor target_tensor (Some m)).1
    = Ok (tsum (mkTensor (shape target_tensor)
                  (fun n c v h => (sqr (data target_tensor n c v h - data input_tensor n c v h)
                                   * data m n c v h)%R))
          / tsum m)%R).
  { intros m Hm.
    unfold WeightedMSELoss_forward, tmap2, tmap2_inplace. cbn [fst].
    rewrite Hin, broadcast_shape_refl. cbn [mbind result_bind shape].
    rewrite Hm, expandable_shape_refl. cbn [mbind result_bind].
    do 2 f_equal. apply tsum_ext; [done|].
    intros n c v h Hs. cbn [shape data] in *.
    rewrite !bdata_in_shape by (by rewrite ?Hin, ?Hm). done. }
  rewrite (Hrun loss_mask Hmask). eexists. split; [reflexivity|].
  set (e := mkTensor (shape target_tensor) _).
  split; [|split].
  - intros Hnonneg.
    assert (He : (0 <= tsum e)%R).
    { replace 0%R with (tsum (tmap (fun x => (0 * x)%R) e))
        by (rewrite tsum_scale; lra).
      apply tsum_le; [done|].
      intros n c v h Hs. cbn [data tmap e shape] in *. rewrite Rmult_0_l.
      apply Rmult_le_pos; [unfold sqr; apply pow2_ge_0|].
      apply Hnonneg. by rewrite Hmask. }
    assert (Hm : (0 <= tsum loss_mask)%R).
    { replace 0%R with (tsum (tmap (fun x => (0 * x)%R) loss_mask))
        by (rewrite tsum_scale; lra).
      apply tsum_le; [done|]. intros n c v h Hs. cbn [data tmap shape] in *.
      rewrite Rmult_0_l. by apply Hnonneg. }
    apply Rmult_le_pos; [done|]. left. apply Rinv_0_lt_compat. lra.
  - intros Hsame.
    assert (He : tsum e = 0%R).
    { transitivity (tsum (tmap (fun x => (0 * x)%R) e)); [|rewrite tsum_scale; lra].
      apply tsum_ext; [done|]. intros n c v h Hs. cbn [data tmap e shape] in *.
      rewrite Hsame by done. unfold sqr. lra. }
    rewrite He. unfold Rdiv. lra.
  - intros k Hk. rewrite (Hrun (tmap (fun x => (k * x)%R) loss_mask)) by done.
    f_equal. rewrite (tsum_scale k loss_mask).
    assert (He : tsum (mkTensor (shape target_tensor)
                   (fun n c v h =>
                      (sqr (data target_tensor n c v h - data input_tensor n c v h)
                       * data (tmap (fun x => (k * x)%R) loss_mask) n c v h)%R))
                 = (k * tsum e)%R).
    { rewrite <- (tsum_scale k e). apply tsum_ext; [done|].
      intros n c v h Hs. cbn [data tmap e]. lra. }
    rewrite He. field. done.
Qed.

Lemma WeightedMSELoss_forward_masked_algebra_witness :
  exists loss,
    (WeightedMSELoss_forward (WeightedMSELoss_init false) (zero_image 1 1) (zero_image 1 1)
                             (Some (full_like (zero_image 1 1) 1%R))).1 = Ok loss.
Proof.
  destruct (WeightedMSELoss_forward_masked_algebra false (zero_image 1 1) (zero_image 1 1)
              (full_like (zero_image 1 1) 1%R)) as (loss & Hrun & _).
  - reflexivity.
  - reflexivity.
  - rewrite tsum_ones; [|unfold wf_shape; cbn; lia|reflexivity].
    change (numel (shape (full_like (zero_image 1 1) 1%R))) with 1.
    intros Hzero. lra.
  - exists loss. exact Hrun.
Defined.

(** X9.  The mask is multiplied into the squared error in place, so a mask with a
    dimension that neither equals that of the target nor is 1 makes
    [WeightedMSELoss.forward] raise, also where the mask is the larger of the
    two and an out-of-place product would broadcast; the module is left
    unchanged. *)
Theorem WeightedMSELoss_forward_mask_mismatch (self : gmap string PyVal)
    (input_tensor target_tensor loss_mask : Tensor R) :
  shape input_tensor = shape target_tensor ->
  expandable_shape (shape loss_mask) (shape target_tensor) = false ->
  WeightedMSELoss_forward self input_tensor target_tensor (Some loss_mask)
  = (Raise RuntimeError, self).
Proof.
  intros Hin Hexp. unfold WeightedMSELoss_forward, tmap2, tmap2_inplace.
  rewrite Hin, broadcast_shape_refl. cbn [mbind result_bind shape].
  by rewrite Hexp.
Qed.

Lemma WeightedMSELoss_forward_mask_mismatch_witness :
  broadcast_shape (mkShape 1 1 2 2) (mkShape 4 1 2 2) = Some (mkShape 4 1 2 2)
  /\ WeightedMSELoss_forward (WeightedMSELoss_init false) (zero_image 2 2) (zero_image 2 2)
       (Some (mkTensor (mkShape 4 1 2 2) (fun _ _ _ _ => 1%R)))
     = (Raise RuntimeError, WeightedMSELoss_init false).
Proof.
  split; [reflexivity|].
  apply (WeightedMSELoss_forward_mask_mismatch (WeightedMSELoss_init false)
           (zero_image 2 2) (zero_image 2 2)
           (mkTensor (mkShape 4 1 2 2) (fun _ _ _ _ => 1%R))).
  - reflexivity.
  - reflexivity.
Defined.

(** ** RescaleBlock and Generator on sizes that are no multiple of [2^n] *)

Lemma window_out_floor (len : Z) : window_out len 2 2 = len / 2.
Proof.
  unfold window_out. rewrite <- (Z.div_add (len - 2) 1 2) by lia.
  f_equal. lia.
Qed.

Lemma half_ge_pow2 (len : Z) (m : nat) :
  2 ^ Z.of_nat (S m) <= len -> 2 ^ Z.of_nat m <= len / 2.
Proof.
  intros Hlen. apply Z.div_le_lower_bound; [lia|].
  rewrite Nat2Z.inj_succ, Z.pow_succ_r in Hlen by lia. lia.
Qed.

Lemma half_div_pow2 (len : Z) (j : Z) : 0 <= j -> len / 2 / 2 ^ j = len / 2 ^ (j + 1).
Proof.
  intros Hj. rewrite Z.div_div by (pose proof (pow2_pos j Hj); lia).
  f_equal. rewrite Z.pow_add_r by lia. lia.
Qed.

Section RescaleFloor.
Context {Params : Type}.
Variable conv2d_values : Params -> Z -> Z -> bool -> Tensor R -> Data.
Variable batch_norm_values : Params -> Tensor R -> Data.
Variable bilinear_values : Tensor R -> Z -> Z -> Data.
Variable grid_sample_values : Tensor R -> Q * Q -> Z -> Z -> Data.
Variable state_dict : string -> Params.

Local Abbreviation Sequential := (Sequential_forward conv2d_values batch_norm_values).
Local Abbreviation loop := (RescaleBlock_loop conv2d_values batch_norm_values bilinear_values).
Local Abbreviation rescale := (RescaleBlock_forward conv2d_values batch_norm_values bilinear_values).

(** One stage of the downscale loop: convolution then pooling. *)
Lemma down_step (path : string) (base : Z) (bias : bool) (k : Z) (t : Tensor R) :
  channels (shape t) = base * 2 ^ k -> 1 <= batch (shape t) ->
  2 <= height (shape t) -> 2 <= width (shape t) ->
  exists t1 t2,
    Sequential (RescaleBlock_stage state_dict path 0.5 base bias k) t = Ok t1
    /\ Layer_forward conv2d_values batch_norm_values (MaxPool2d 2 2) t1 = Ok t2
    /\ shape t2 = mkShape (batch (shape t)) (base * 2 ^ (k + 1))
                          (height (shape t) / 2) (width (shape t) / 2).
Proof.
  intros Hc HN Hh Hw.
  destruct (down_stage_shape conv2d_values batch_norm_values state_dict
              path base bias k t Hc HN Hh Hw) as (t1 & Hrun & Hs1).
  exists t1. cbn [Layer_forward]. rewrite Hs1. cbn [batch channels height width].
  rewrite !window_out_floor.
  assert (0 < height (shape t) / 2) by (apply Z.div_str_pos; lia).
  assert (0 < width (shape t) / 2) by (apply Z.div_str_pos; lia).
  guard_true. eexists. split; [done|]. split; reflexivity.
Qed.

Lemma down_loop_floor (self : RescaleBlock) (path : string) (base : Z) (bias : bool)
    (return_all_scales : bool) (m : nat) :
  rb_scale self = 0.5%Q -> rb_max_pool self = MaxPool2d 2 2 ->
  forall (k : nat) (i : Z) (t : Tensor R) (scales : list (Tensor R)),
    channels (shape t) = base * 2 ^ Z.of_nat k -> 1 <= batch (shape t) ->
    2 ^ Z.of_nat m <= height (shape t) -> 2 ^ Z.of_nat m <= width (shape t) ->
    exists t' scales',
      loop self None return_all_scales false i
           (RescaleBlock_stage state_dict path 0.5 base bias <$> (Z.of_nat <$> seq k m))
           t scales
      = Ok (t', scales ++ scales')
      /\ shape t' = mkShape (batch (shape t)) (base * 2 ^ Z.of_nat (k + m))
                            (height (shape t) / 2 ^ Z.of_nat m)
                            (width (shape t) / 2 ^ Z.of_nat m)
      /\ (if return_all_scales
          then shape <$> scales'
               = (fun j => mkShape (batch (shape t)) (base * 2 ^ (Z.of_nat k + j))
                                   (height (shape t) / 2 ^ j) (width (shape t) / 2 ^ j))
                   <$> (Z.of_nat <$> seq 1 m)
          else scales' = []).
Proof.
  intros Hscale Hpool. induction m as [|m IH]; intros k i t scales Hc HN Hh Hw.
  - exists t, []. cbn [seq fmap list_fmap RescaleBlock_loop].
    rewrite app_nil_r, Nat.add_0_r. change (Z.of_nat 0) with 0. rewrite Z.pow_0_r, !Z.div_1_r.
    split; [done|]. split; [rewrite <- Hc; by destruct (shape t)|by destruct return_all_scales].
  - cbn [seq fmap list_fmap RescaleBlock_loop]. rewrite Hscale, Hpool.
    change (Qgt_bool 0.5 1) with false. change (Qlt_bool 0.5 1) with true.
    cbn [mbind result_bind].
    pose proof (pow2_pos (Z.of_nat m) ltac:(lia)) as Hpos.
    assert (Hpow : 2 ^ Z.of_nat (S m) = 2 * 2 ^ Z.of_nat m)
      by (rewrite Nat2Z.inj_succ, Z.pow_succ_r; lia).
    destruct (down_step path base bias (Z.of_nat k) t) as (t1 & t2 & -> & Hpool2 & Hs2);
      [done|done|lia|lia|].
    cbn [mbind result_bind]. rewrite Hpool2. cbn [mbind result_bind].
    match goal with
    | |- context [loop _ _ _ _ _ _ t2 ?sc] =>
        destruct (IH (S k) (i + 1) t2 sc) as (t' & scales' & Hrun & Ht' & Hsc)
    end.
    { rewrite Hs2. cbn. f_equal. f_equal. lia. }
    { by rewrite Hs2. }
    { rewrite Hs2. cbn. by apply half_ge_pow2. }
    { rewrite Hs2. cbn. by apply half_ge_pow2. }
    rewrite Hrun. rewrite Hs2 in Ht', Hsc. cbn [batch channels height width] in Ht', Hsc.
    assert (Hshape' : shape t' = mkShape (batch (shape t)) (base * 2 ^ Z.of_nat (k + S m))
                        (height (shape t) / 2 ^ Z.of_nat (S m))
                        (width (shape t) / 2 ^ Z.of_nat (S m))).
    { rewrite Ht', !half_div_pow2 by lia. f_equal; f_equal; f_equal; lia. }
    destruct return_all_scales.
    + eexists t', (_ :: scales'). rewrite <- app_assoc. cbn [app].
      split; [reflexivity|]. split; [done|].
      cbn [fmap list_fmap seq]. rewrite Hsc, Hs2. f_equal.
      rewrite <- (fmap_S_seq 1 m), <- !list_fmap_compose.
      apply list_fmap_ext. intros idx j _. cbn.
      rewrite !half_div_pow2 by lia. f_equal; f_equal; f_equal; lia.
    + exists t', scales'. subst scales'. by rewrite app_nil_r in *.
Qed.

Lemma down_loop_returns_size (self : RescaleBlock) (path : string) (base : Z) (bias : bool)
    (return_all_scales : bool) (m : nat) :
  rb_scale self = 0.5%Q -> rb_max_pool self = MaxPool2d 2 2 ->
  forall (k : nat) (i : Z) (t : Tensor R) (scales : list (Tensor R)) r,
    channels (shape t) = base * 2 ^ Z.of_nat k -> 1 <= batch (shape t) ->
    loop self None return_all_scales false i
         (RescaleBlock_stage state_dict path 0.5 base bias <$> (Z.of_nat <$> seq k (S m)))
         t scales
    = Ok r ->
    2 ^ Z.of_nat (S m) <= height (shape t) /\ 2 ^ Z.of_nat (S m) <= width (shape t).
Proof.
  intros Hscale Hpool. induction m as [|m IH]; intros k i t scales r Hc HN Hrun.
  - cbn [seq fmap list_fmap RescaleBlock_loop] in Hrun. rewrite Hscale in Hrun.
    change (Qgt_bool 0.5 1) with false in Hrun. cbn [mbind result_bind] in Hrun.
    apply bind_Ok in Hrun as (t1 & Hstage & _).
    eapply stage_returns_size in Hstage. change (2 ^ Z.of_nat 1) with 2. exact Hstage.
  - remember (S m) as m' eqn:Hm'.
    cbn [seq fmap list_fmap RescaleBlock_loop] in Hrun. rewrite Hscale, Hpool in Hrun.
    change (Qgt_bool 0.5 1) with false in Hrun. change (Qlt_bool 0.5 1) with true in Hrun.
    cbn [mbind result_bind] in Hrun.
    apply bind_Ok in Hrun as (t1 & Hstage & Hrun).
    pose proof (stage_returns_size _ _ _ _ _ _ _ _ _ _ Hstage) as [Hh Hw].
    destruct (down_step path base bias (Z.of_nat k) t Hc HN Hh Hw)
      as (t1' & t2 & Hstage' & Hpool2 & Hs2).
    rewrite Hstage in Hstage'. simplify_eq.
    cbn [mbind result_bind] in Hrun. rewrite Hpool2 in Hrun. cbn [mbind result_bind] in Hrun.
    apply IH in Hrun as [Hh2 Hw2].
    + rewrite Hs2 in Hh2, Hw2. cbn in Hh2, Hw2.
      rewrite (Nat2Z.inj_succ (S m)), Z.pow_succ_r by lia.
      pose proof (Z.mul_div_le (height (shape t)) 2 ltac:(lia)).
      pose proof (Z.mul_div_le (width (shape t)) 2 ltac:(lia)). lia.
    + rewrite Hs2. cbn. f_equal. f_equal. lia.
    + by rewrite Hs2.
Qed.

(** The downscale block on an input of at least [2^n] rows and columns. *)
Lemma RescaleBlock_forward_down_floor_total (path : string) (base : Z) (bias : bool) (n : Z)
    (return_all_scales : bool) (t : Tensor R) :
  1 <= n -> channels (shape t) = base -> 1 <= batch (shape t) ->
  2 ^ n <= height (shape t) -> 2 ^ n <= width (shape t) ->
  exists t' pyramid,
    rescale (RescaleBlock_init state_dict path n 0.5 base bias) t None
            return_all_scales false
    = Ok (t', pyramid)
    /\ shape t' = floor_level (shape t) base n
    /\ (if return_all_scales
        then exists p, pyramid = Some p
                       /\ shape <$> p = floor_level (shape t) base <$> py_range (n + 1)
        else pyramid = None).
Proof.
  intros Hn Hc HN Hh Hw. unfold RescaleBlock_forward, RescaleBlock_init.
  cbn [rb_conv_layers]. change (Qgt_bool 0.5 1) with false. cbv iota. unfold py_range.
  match goal with
  | |- context [RescaleBlock_loop _ _ _ ?self _ _ _ _ _ _ ?sc] =>
      destruct (down_loop_floor self path base bias return_all_scales (Z.to_nat n)
                  eq_refl eq_refl 0%nat 0 t sc)
        as (t' & scales' & -> & Ht' & Hsc)
  end.
  { change (Z.of_nat 0) with 0. by rewrite Z.pow_0_r, Z.mul_1_r. }
  { done. }
  { by rewrite Z2Nat.id by lia. }
  { by rewrite Z2Nat.id by lia. }
  cbn [mbind result_bind]. rewrite Nat.add_0_l, Z2Nat.id in Ht' by lia.
  eexists _, _. split; [reflexivity|]. split; [done|].
  destruct return_all_scales; [|done].
  eexists. split; [reflexivity|].
  replace (Z.to_nat (n + 1)) with (S (Z.to_nat n)) by lia.
  cbn [app fmap list_fmap seq]. rewrite Hsc. f_equal.
  { unfold floor_level. change (Z.of_nat 0) with 0.
    rewrite Z.pow_0_r, Z.mul_1_r, !Z.div_1_r. rewrite <- Hc. by destruct (shape t). }
Qed.

(** X20.  A downscale block with [n] stages, on a non-empty batch with [base]
    channels, returns exactly when the height and the width are at least
    [2^n] (for [n >= 1]); it then has [base * 2^n] channels and the spatial
    size divided by [2^n], rounded down, and the pyramid it returns on
    request has [n + 1] levels, level [j] being the input divided by [2^j]
    with [base * 2^j] channels. *)
Theorem RescaleBlock_forward_down_floor (path : string) (base : Z) (bias : bool) (n : Z)
    (return_all_scales : bool) (t : Tensor R) :
  1 <= n -> channels (shape t) = base -> 1 <= batch (shape t) ->
  ((exists r, rescale (RescaleBlock_init state_dict path n 0.5 base bias) t None
                      return_all_scales false = Ok r)
   <-> 2 ^ n <= height (shape t) /\ 2 ^ n <= width (shape t))
  /\ (2 ^ n <= height (shape t) -> 2 ^ n <= width (shape t) ->
      exists t' pyramid,
        rescale (RescaleBlock_init state_dict path n 0.5 base bias) t None
                return_all_scales false
        = Ok (t', pyramid)
        /\ shape t' = floor_level (shape t) base n
        /\ (if return_all_scales
            then exists p, pyramid = Some p
                           /\ shape <$> p = floor_level (shape t) base <$> py_range (n + 1)
            else pyramid = None)).
Proof.
  intros Hn Hc HN.
  pose proof (RescaleBlock_forward_down_floor_total path base bias n return_all_scales t
                Hn Hc HN) as Htotal.
  split; [|exact Htotal]. split.
  - intros [r Hrun]. unfold RescaleBlock_forward, RescaleBlock_init in Hrun.
    cbn [rb_conv_layers] in Hrun. change (Qgt_bool 0.5 1) with false in Hrun. cbv iota in Hrun.
    unfold py_range in Hrun.
    apply bind_Ok in Hrun as ([t' scales'] & Hrun & _).
    replace (Z.to_nat n) with (S (Z.to_nat (n - 1))) in Hrun by lia.
    eapply down_loop_returns_size in Hrun; [|done|done| |done].
    + replace (Z.of_nat (S (Z.to_nat (n - 1)))) with n in Hrun by lia. exact Hrun.
    + change (Z.of_nat 0) with 0. by rewrite Z.pow_0_r, Z.mul_1_r.
  - intros [Hh Hw]. destruct (Htotal Hh Hw) as (t' & pyramid & Hrun & _). eauto.
Qed.
End RescaleFloor.

Lemma RescaleBlock_forward_down_floor_witness :
  exists t' pyramid,
    RescaleBlock_forward zero_conv2d zero_batch_norm zero_bilinear
      (RescaleBlock_init no_state "down." 2 0.5 1 true) (zero_image 9 14) None true false
    = Ok (t', pyramid)
    /\ shape t' = floor_level (shape (zero_image 9 14)) 1 2.
Proof.
  destruct (RescaleBlock_forward_down_floor zero_conv2d zero_batch_norm zero_bilinear
              no_state "down." 1 true 2 true (zero_image 9 14)) as [_ Htotal].
  - lia.
  - reflexivity.
  - cbn. lia.
  - destruct Htotal as (t' & pyramid & Hrun & Hshape & _).
    + cbn. lia.
    + cbn. lia.
    + exists t', pyramid. split; [exact Hrun | exact Hshape].
Defined.

Section GeneratorNoSkip.
Context {Params : Type}.
Variable conv2d_values : Params -> Z -> Z -> bool -> Tensor R -> Data.
Variable batch_norm_values : Params -> Tensor R -> Data.
Variable bilinear_values : Tensor R -> Z -> Z -> Data.
Variable grid_sample_values : Tensor R -> Q * Q -> Z -> Z -> Data.
Variable state_dict : string -> Params.

End GeneratorNoSkip.


(** ** RescaleBlock: pyramid depth and channel schedule; ResnetBlock *)


Section RescaleMisuse.
Context {Params : Type}.
Variable conv2d_values : Params -> Z -> Z -> bool -> Tensor R -> Data.
Variable batch_norm_values : Params -> Tensor R -> Data.
Variable bilinear_values : Tensor R -> Z -> Z -> Data.
Variable state_dict : string -> Params.

Local Abbreviation loop := (RescaleBlock_loop conv2d_values batch_norm_values bilinear_values).
Local Abbreviation rescale := (RescaleBlock_forward conv2d_values batch_norm_values bilinear_values).




(** X19.  The channel schedule built by [RescaleBlock.__init__]: stage [j] of a
    downscale block maps [base * 2^j] channels to [base * 2^(j+1)]; stage [j]
    of an upscale block, after the reversal of the list, maps
    [base * 2^(n-j)] channels to [base * 2^(n-j-1)], the mirror image of
    stage [n-1-j] of the downscale block.  Both blocks have [n] stages. *)
Theorem RescaleBlock_init_channels (path_down path_up : string) (n base : Z)
    (bias_down bias_up : bool) (j : nat) :
  (j < Z.to_nat n)%nat ->
  length (rb_conv_layers (RescaleBlock_init state_dict path_down n 0.5 base bias_down))
  = Z.to_nat n
  /\ length (rb_conv_layers (RescaleBlock_init state_dict path_up n 2.0 base bias_up))
     = Z.to_nat n
  /\ stage_channels
       <$> rb_conv_layers (RescaleBlock_init state_dict path_down n 0.5 base bias_down) !! j
     = Some (Some (base * 2 ^ Z.of_nat j, base * 2 ^ (Z.of_nat j + 1)))
  /\ stage_channels
       <$> rb_conv_layers (RescaleBlock_init state_dict path_up n 2.0 base bias_up) !! j
     = Some (Some (base * 2 ^ (n - Z.of_nat j), base * 2 ^ (n - Z.of_nat j - 1))).
Proof.
  intros Hj. unfold RescaleBlock_init. cbn [rb_conv_layers].
  change (Qgt_bool 0.5 1) with false. change (Qgt_bool 2.0 1) with true. cbv iota.
  unfold py_range.
  split; [by rewrite !length_fmap, length_seq|].
  split; [by rewrite length_reverse, !length_fmap, length_seq|].
  split.
  - rewrite !list_lookup_fmap, lookup_seq_lt by done. cbn.
    change (Qgt_bool 0.5 1) with false. change (Qlt_bool 0.5 1) with true. cbn.
    by rewrite Z.add_0_r.
  - rewrite reverse_lookup by (rewrite !length_fmap, length_seq; done).
    rewrite !length_fmap, length_seq, !list_lookup_fmap, lookup_seq_lt by lia. cbn.
    change (Qgt_bool 2.0 1) with true. change (Qlt_bool 2.0 1) with false. cbn.
    repeat (lia || f_equal).
Qed.
End RescaleMisuse.


Lemma RescaleBlock_init_channels_witness :
  stage_channels <$> rb_conv_layers (RescaleBlock_init no_state "up." 3 2.0 64 true) !! 0%nat
  = Some (Some (512, 256)).
Proof.
  destruct (RescaleBlock_init_channels no_state "down." "up." 3 64 true true 0)
    as (_ & _ & _ & Hup).
  - vm_compute. lia.
  - exact Hup.
Defined.

Section ResnetBlockSpec.
Context {Params : Type}.
Variable conv2d_values : Params -> Z -> Z -> bool -> Tensor R -> Data.
Variable batch_norm_values : Params -> Tensor R -> Data.
Variable state_dict : string -> Params.

Local Abbreviation resnet := (ResnetBlock_forward conv2d_values batch_norm_values).

End ResnetBlockSpec.


(** ** GeoTransform: when the padding succeeds *)



(** ** MultiScaleDiscriminator: what the scale count means *)




(** ** MultiScaleDiscriminator: the forward pass *)



Section DiscriminatorShapes.
Context {Params : Type}.
Variable conv2d_values : Params -> Z -> Z -> bool -> Tensor R -> Data.
Variable batch_norm_values : Params -> Tensor R -> Data.
Variable bilinear_values : Tensor R -> Z -> Z -> Data.
Variable state_dict : string -> Params.

Local Abbreviation Sequential := (Sequential_forward conv2d_values batch_norm_values).
Local Abbreviation msd_loop :=
  (MultiScaleDiscriminator_loop conv2d_values batch_norm_values bilinear_values).
Local Abbreviation msd_forward :=
  (MultiScaleDiscriminator_forward conv2d_values batch_norm_values bilinear_values).





End DiscriminatorShapes.



Lemma py_getitem_head {X} (x : X) (l : list X) : py_getitem (x :: l) 0 = Ok x.
Proof.
  unfold py_getitem. cbv zeta. change (0 <? 0) with false. cbv iota.
  replace ((0 <=? 0) && (0 <? Z.of_nat (length (x :: l)))) with true; [done|].
  cbn [length]. bool_arith.
Qed.

Section DiscriminatorForwardSpec.
Context {Params : Type}.
Variable conv2d_values : Params -> Z -> Z -> bool -> Tensor R -> Data.
Variable batch_norm_values : Params -> Tensor R -> Data.
Variable bilinear_values : Tensor R -> Z -> Z -> Data.
Variable state_dict : string -> Params.

Local Abbreviation Sequential := (Sequential_forward conv2d_values batch_norm_values).
Local Abbreviation msd_loop :=
  (MultiScaleDiscriminator_loop conv2d_values batch_norm_values bilinear_values).
Local Abbreviation msd_forward :=
  (MultiScaleDiscriminator_forward conv2d_values batch_norm_values bilinear_values).


(** The zip of the loop stops at the shorter list: weights beyond the number
    of nets are never read. *)
Lemma msd_loop_extra_weights (sf : R) (input : Tensor R) (map_size : Z * Z)
    (nets : list (list (Layer Params))) :
  forall (ws more : list R) (i : Z) (agg : Tensor R),
    (length nets <= length ws)%nat ->
    msd_loop sf input map_size nets (ws ++ more) i agg
    = msd_loop sf input map_size nets ws i agg.
Proof.
  induction nets as [|net nets IH]; intros ws more i agg Hlen.
  - by destruct ws, more.
  - destruct ws as [|w ws]; cbn [length] in Hlen; [lia|].
    cbn [app MultiScaleDiscriminator_loop].
    destruct (interpolate_scale_real _ _ _) as [down|]; [|done]. cbn [mbind result_bind].
    destruct (Sequential net down) as [res|]; [|done]. cbn [mbind result_bind].
    destruct (interpolate_size _ _ _) as [up|]; [|done]. cbn [mbind result_bind].
    destruct (tmap2_inplace _ _ _) as [agg'|]; [|done]. cbn [mbind result_bind].
    apply IH. lia.
Qed.

(** ... and nets beyond the number of weights are never run. *)
Lemma msd_loop_extra_nets (sf : R) (input : Tensor R) (map_size : Z * Z)
    (nets : list (list (Layer Params))) :
  forall (ws : list R) (i : Z) (agg : Tensor R),
    msd_loop sf input map_size (take (length ws) nets) ws i agg
    = msd_loop sf input map_size nets ws i agg.
Proof.
  induction nets as [|net nets IH]; intros ws i agg.
  - by rewrite take_nil.
  - destruct ws as [|w ws]; [done|].
    cbn [length take MultiScaleDiscriminator_loop].
    destruct (interpolate_scale_real _ _ _) as [down|]; [|done]. cbn [mbind result_bind].
    destruct (Sequential net down) as [res|]; [|done]. cbn [mbind result_bind].
    destruct (interpolate_size _ _ _) as [up|]; [|done]. cbn [mbind result_bind].
    destruct (tmap2_inplace _ _ _) as [agg'|]; [|done]. cbn [mbind result_bind].
    apply IH.
Qed.


(** X14.  A discriminator built for crops whose smallest side is at most 16
    holds no net at all, whatever [max_n_scales] asks for, and its forward
    pass raises an [IndexError] on every input. *)
Theorem MultiScaleDiscriminator_small_crop_raises (real_crop_size : Z * Z)
    (max_n_scales : Z) (scale_factor : R) (base_channels extra_conv_layers : Z) :
  0 < Z.min real_crop_size.1 real_crop_size.2 <= 16 ->
  (1 < scale_factor)%R ->
  exists self,
    MultiScaleDiscriminator_init state_dict real_crop_size max_n_scales scale_factor
                                 base_channels extra_conv_layers = Ok self
    /\ msd_nets self = []
    /\ forall input_tensor scale_weights,
         msd_forward self input_tensor scale_weights = Raise IndexError.
Proof.
  intros Hm Hs. set (m := Z.min real_crop_size.1 real_crop_size.2) in *.
  unfold MultiScaleDiscriminator_init. cbv zeta. fold m.
  rewrite log_scale_count_defined by (lia || lra). cbn [mbind result_bind].
  set (c := np_ceil _).
  assert (Hc : c <= 0).
  { rewrite <- (np_ceil_IZR 0). apply np_ceil_mono.
    assert (HL : (0 < ln scale_factor)%R) by (rewrite <- ln_1; apply ln_increasing; lra).
    assert (Hx : (0 < IZR m * 1 / IZR 16 <= 1)%R).
    { destruct Hm as [Hm0 Hm16]. apply IZR_lt in Hm0. apply IZR_le in Hm16. lra. }
    assert (Hlnx : (ln (IZR m * 1 / IZR 16) <= 0)%R).
    { rewrite <- ln_1. destruct Hx as [Hx0 [Hx1| ->]]; [|lra].
      left. by apply ln_increasing. }
    apply (Rmult_le_reg_r (ln scale_factor)); [done|].
    unfold Rdiv. rewrite Rmult_assoc, Rinv_l by lra. lra. }
  assert (Hrange : py_range (Z.min c max_n_scales) = []).
  { unfold py_range. replace (Z.to_nat (Z.min c max_n_scales)) with 0%nat by lia. done. }
  eexists. split; [reflexivity|]. cbn [msd_nets]. rewrite Hrange.
  split; [done|]. intros input_tensor scale_weights. reflexivity.
Qed.



(** X17.  Weights beyond the number of nets do not change the result (for a
    non-zero scale factor). *)
Theorem MultiScaleDiscriminator_forward_extra_weights (self : MultiScaleDiscriminator)
    (input_tensor : Tensor R) (scale_weights more : list R) :
  msd_scale_factor self <> 0%R ->
  (length (msd_nets self) <= length scale_weights)%nat ->
  msd_forward self input_tensor (scale_weights ++ more)
  = msd_forward self input_tensor scale_weights.
Proof.
  intros _ Hlen. unfold MultiScaleDiscriminator_forward.
  destruct (msd_nets self) as [|net nets]; [done|].
  destruct scale_weights as [|w ws]; cbn [length] in Hlen; [lia|].
  cbn [app]. rewrite !py_getitem_head. cbn [mbind result_bind].
  destruct (Sequential net input_tensor) as [res|]; [|done]. cbn [mbind result_bind].
  cbn [drop]. rewrite ?drop_0. apply msd_loop_extra_weights. lia.
Qed.

(** X18.  Nets beyond the number of weights are never run: the result is that of
    the discriminator cut down to as many nets as there are weights (for a
    non-zero scale factor). *)
Theorem MultiScaleDiscriminator_forward_extra_nets (self : MultiScaleDiscriminator)
    (input_tensor : Tensor R) (scale_weights : list R) :
  msd_scale_factor self <> 0%R ->
  scale_weights <> [] ->
  msd_forward (with_nets self (take (length scale_weights) (msd_nets self)))
              input_tensor scale_weights
  = msd_forward self input_tensor scale_weights.
Proof.
  intros _ Hws. unfold MultiScaleDiscriminator_forward, with_nets.
  cbn [msd_nets msd_scale_factor].
  destruct scale_weights as [|w ws]; [done|]. cbn [length].
  destruct (msd_nets self) as [|net nets]; [done|]. cbn [take].
  rewrite !py_getitem_head.
  cbn [mbind result_bind].
  destruct (Sequential net input_tensor) as [res|]; [|done]. cbn [mbind result_bind].
  cbn [drop]. rewrite ?drop_0. apply msd_loop_extra_nets.
Qed.
End DiscriminatorForwardSpec.


Lemma MultiScaleDiscriminator_small_crop_raises_witness :
  exists self,
    MultiScaleDiscriminator_init no_state (16, 40) 9 2 128 0 = Ok self
    /\ msd_nets self = []
    /\ MultiScaleDiscriminator_forward zero_conv2d zero_batch_norm zero_bilinear self
         (mkTensor (mkShape 1 3 16 40) (fun _ _ _ _ => 0%R)) [1%R]
       = Raise IndexError.
Proof.
  destruct (MultiScaleDiscriminator_small_crop_raises zero_conv2d zero_batch_norm
              zero_bilinear no_state (16, 40) 9 2 128 0)
    as (self & Hinit & Hnets & Hraise).
  - cbn. lia.
  - lra.
  - exists self. split; [exact Hinit|]. split; [exact Hnets | apply Hraise].
Defined.




Lemma MultiScaleDiscriminator_forward_extra_weights_witness :
  MultiScaleDiscriminator_forward zero_conv2d zero_batch_norm zero_bilinear
    (mkMultiScaleDiscriminator 128 2 16 0 1 [make_net no_state 128 0 0])
    (mkTensor (mkShape 1 3 16 16) (fun _ _ _ _ => 0%R)) ([1%R] ++ [2%R; 3%R])
  = MultiScaleDiscriminator_forward zero_conv2d zero_batch_norm zero_bilinear
      (mkMultiScaleDiscriminator 128 2 16 0 1 [make_net no_state 128 0 0])
      (mkTensor (mkShape 1 3 16 16) (fun _ _ _ _ => 0%R)) [1%R].
Proof.
  apply MultiScaleDiscriminator_forward_extra_weights.
  - cbn. lra.
  - cbn. lia.
Defined.

Lemma MultiScaleDiscriminator_forward_extra_nets_witness :
  MultiScaleDiscriminator_forward zero_conv2d zero_batch_norm zero_bilinear
    (with_nets
       (mkMultiScaleDiscriminator 128 2 16 0 2 (make_net no_state 128 0 <$> py_range 2))
       (take (length [1%R]) (make_net no_state 128 0 <$> py_range 2)))
    (mkTensor (mkShape 1 3 16 16) (fun _ _ _ _ => 0%R)) [1%R]
  = MultiScaleDiscriminator_forward zero_conv2d zero_batch_norm zero_bilinear
      (mkMultiScaleDiscriminator 128 2 16 0 2 (make_net no_state 128 0 <$> py_range 2))
      (mkTensor (mkShape 1 3 16 16) (fun _ _ _ _ => 0%R)) [1%R].
Proof.
  refine (MultiScaleDiscriminator_forward_extra_nets zero_conv2d zero_batch_norm
            zero_bilinear
            (mkMultiScaleDiscriminator 128 2 16 0 2 (make_net no_state 128 0 <$> py_range 2))
            (mkTensor (mkShape 1 3 16 16) (fun _ _ _ _ => 0%R)) [1%R] _ _).
  - cbn. lra.
  - discriminate.
Defined.

(** ** weights_init *)

Lemma prefix_string_mem (c : Ascii.ascii) (s1 : string) :
  forall s2, String.prefix s1 s2 = true -> string_mem c s1 = true -> string_mem c s2 = true.
Proof.
  induction s1 as [|a s1 IH]; intros s2 Hpre Hmem; [done|].
  destruct s2 as [|b s2]; [done|]. cbn in Hpre, Hmem |- *.
  destruct (Ascii.ascii_dec a b) as [->|]; [|done].
  apply orb_true_iff in Hmem as [Hb|Hmem]; apply orb_true_iff; [by left|].
  right. by apply IH.
Qed.

(** A substring with a character that the string does not have is not
    found. *)
Lemma py_find_missing_char (c : Ascii.ascii) (s sub : string) :
  string_mem c sub = true -> string_mem c s = false -> py_find s sub = -1.
Proof.
  intros Hsub Hs. unfold py_find.
  assert (Hindex : String.index 0 sub s = None); [|by rewrite Hindex].
  induction s as [|b s IH].
  - destruct sub; [done|]. reflexivity.
  - cbn [String.index].
    destruct (String.prefix sub (String b s)) eqn:Hpre.
    { pose proof (prefix_string_mem c _ _ Hpre Hsub). congruence. }
    cbn in Hs. apply orb_false_iff in Hs as [_ Hs]. by rewrite IH.
Qed.

Lemma reinitialised_refl (attrs : gmap string PyVal) : reinitialised attrs attrs.
Proof.
  intros name. destruct (attrs !! name) as [[]|]; try done. split; [done|by left].
Qed.

Lemma reinitialised_set (attrs0 attrs : gmap string PyVal) (name : string)
    (t t' : Tensor R) :
  reinitialised attrs0 attrs ->
  attrs !! name = Some (VTensor t) -> shape t' = shape t ->
  name = "weight" \/ name = "bias" ->
  reinitialised attrs0 (setattr attrs name (VTensor t')).
Proof.
  intros Hre Hlook Hshape Hname name'. unfold setattr.
  destruct (decide (name' = name)) as [->|Hne].
  - rewrite lookup_insert_eq. specialize (Hre name). rewrite Hlook in Hre.
    destruct (attrs0 !! name) as [[]|]; try done.
    destruct Hre as [Hs _]. split; [congruence|by right].
  - rewrite lookup_insert_ne by done. apply Hre.
Qed.

Lemma getattr_tensor (attrs : gmap string PyVal) (name : string) (t : Tensor R) :
  getattr attrs name ≫= as_tensor = Ok t -> attrs !! name = Some (VTensor t).
Proof.
  unfold getattr. destruct (attrs !! name) as [[]|]; cbn; intros; by simplify_eq.
Qed.

Lemma init_norm_reinitialised (attrs0 attrs : gmap string PyVal) (z : Data) :
  reinitialised attrs0 attrs -> reinitialised attrs0 (init_norm attrs z).2.
Proof.
  intros Hre. unfold init_norm.
  destruct (getattr attrs "weight" ≫= as_tensor) as [w|] eqn:Hw; [|done].
  apply getattr_tensor in Hw.
  assert (Hre' : reinitialised attrs0
                   (setattr attrs "weight" (VTensor (normal_ w 1 (2 / 100) z)))).
  { by apply (reinitialised_set _ _ _ w); [| | |left]. }
  destruct (getattr _ "bias" ≫= as_tensor) as [b|] eqn:Hb; [|done].
  apply getattr_tensor in Hb. cbn [snd].
  by apply (reinitialised_set _ _ _ b); [| | |right].
Qed.

(** X1.  Whatever the module and however the call ends, [weights_init] adds and
    removes no attribute, changes none but "weight" and "bias", and leaves
    every tensor its shape. *)
Theorem weights_init_frame (m : TorchModule) (z : Data) :
  let attrs := tm_attrs m in
  let attrs' := (weights_init m z).2 in
  (forall name, name <> "weight" -> name <> "bias" -> attrs' !! name = attrs !! name)
  /\ (forall name, is_Some (attrs' !! name) <-> is_Some (attrs !! name))
  /\ (forall name t', attrs' !! name = Some (VTensor t') ->
        exists t, attrs !! name = Some (VTensor t) /\ shape t' = shape t).
Proof.
  intros attrs attrs'.
  assert (Hre : reinitialised attrs attrs').
  { subst attrs attrs'. unfold weights_init. cbv zeta.
    destruct (negb (py_find _ "Conv" =? -1)).
    - destruct (getattr _ "weight" ≫= as_tensor) as [w|] eqn:Hw;
        [|apply reinitialised_refl].
      apply getattr_tensor in Hw.
      assert (Hre' : reinitialised (tm_attrs m)
                (setattr (tm_attrs m) "weight" (VTensor (xavier_normal_ w (1 / 100) z)))).
      { apply (reinitialised_set _ _ _ w); [apply reinitialised_refl|done|done|by left]. }
      destruct (getattr _ "bias") as [[| |b|]|] eqn:Hb; cbn [snd]; try done.
      apply (reinitialised_set _ _ _ b); [done| |done|by right].
      unfold getattr in Hb. destruct (_ !! "bias"); by simplify_eq.
    - destruct (negb (py_find _ "nn.BatchNorm2d" =? -1));
        [apply init_norm_reinitialised, reinitialised_refl|].
      destruct (negb (py_find _ "LocalNorm" =? -1));
        [apply init_norm_reinitialised, reinitialised_refl|apply reinitialised_refl]. }
  clearbody attrs attrs'. split; [|split].
  - intros name Hw Hb. specialize (Hre name).
    destruct (attrs !! name) as [[]|], (attrs' !! name) as [[]|]; try done;
      try congruence.
    destruct Hre as [_ [->|[?|?]]]; done.
  - intros name. specialize (Hre name).
    destruct (attrs !! name) as [[]|], (attrs' !! name) as [[]|]; try done;
      split; intros; by eexists.
  - intros name t' Hlook. specialize (Hre name). rewrite Hlook in Hre.
    destruct (attrs !! name) as [[| |t|]|]; try done.
    exists t. by destruct Hre.
Qed.

Lemma weights_init_frame_witness :
  (weights_init
     (mkTorchModule "Conv2d"
        (setattr (setattr (setattr ∅ "weight" (VTensor (zero_image 3 3)))
                          "bias" VNone)
                 "stride" (VNum 1)))
     (fun _ _ _ _ => 1%R)).2 !! "stride"
  = Some (VNum 1).
Proof.
  destruct (weights_init_frame
              (mkTorchModule "Conv2d"
                 (setattr (setattr (setattr ∅ "weight" (VTensor (zero_image 3 3)))
                                   "bias" VNone)
                          "stride" (VNum 1)))
              (fun _ _ _ _ => 1%R)) as (Hother & _ & _).
  rewrite Hother by discriminate. reflexivity.
Defined.

(** X2.  The class name of a module has no dot in it, so the test for
    'nn.BatchNorm2d' never succeeds: a module whose class name contains
    neither 'Conv' nor 'LocalNorm' (a [BatchNorm2d] among them) is left as it
    is. *)
Theorem weights_init_skips_batch_norm (m : TorchModule) (z : Data) :
  string_mem dot (tm_class_name m) = false ->
  py_find (tm_class_name m) "Conv" = -1 ->
  py_find (tm_class_name m) "LocalNorm" = -1 ->
  weights_init m z = (Ok tt, tm_attrs m).
Proof.
  intros Hdot Hconv Hlocal. unfold weights_init. cbv zeta.
  rewrite Hconv, Hlocal, (py_find_missing_char dot _ "nn.BatchNorm2d") by done.
  reflexivity.
Qed.

Lemma weights_init_skips_batch_norm_witness :
  weights_init
    (mkTorchModule "BatchNorm2d"
       (setattr (setattr ∅ "weight" (VTensor (zero_image 1 1)))
                "bias" (VTensor (zero_image 1 1))))
    (fun _ _ _ _ => 1%R)
  = (Ok tt,
     setattr (setattr ∅ "weight" (VTensor (zero_image 1 1)))
             "bias" (VTensor (zero_image 1 1))).
Proof.
  apply (weights_init_skips_batch_norm
           (mkTorchModule "BatchNorm2d"
              (setattr (setattr ∅ "weight" (VTensor (zero_image 1 1)))
                       "bias" (VTensor (zero_image 1 1))))).
  - reflexivity.
  - reflexivity.
  - reflexivity.
Defined.

(** ** LocalNorm *)

Lemma sum_range_nonneg (n : Z) (f : Z -> R) :
  (forall i, 0 <= i < n -> (0 <= f i)%R) -> (0 <= sum_range n f)%R.
Proof.
  unfold sum_range. intros Hf.
  assert (Hl : forall i, In i (seq 0 (Z.to_nat n)) -> (0 <= f (Z.of_nat i))%R).
  { intros i Hi. apply in_seq in Hi. apply Hf. lia. }
  induction (seq 0 (Z.to_nat n)) as [|j l IH]; cbn; [lra|].
  pose proof (Hl j ltac:(by left)). pose proof (IH ltac:(intros; apply Hl; by right)).
  lra.
Qed.

Lemma sum_range_term (n : Z) (f : Z -> R) (k : Z) :
  (forall i, 0 <= i < n -> (0 <= f i)%R) -> 0 <= k < n -> (f k <= sum_range n f)%R.
Proof.
  unfold sum_range. intros Hf Hk.
  assert (Hl : forall i, In i (seq 0 (Z.to_nat n)) -> (0 <= f (Z.of_nat i))%R).
  { intros i Hi. apply in_seq in Hi. apply Hf. lia. }
  assert (Hin : In (Z.to_nat k) (seq 0 (Z.to_nat n))) by (apply in_seq; lia).
  rewrite <- (Z2Nat.id k) at 1 by lia.
  induction (seq 0 (Z.to_nat n)) as [|j l IH]; [done|]. cbn.
  assert (Hrest : (0 <= foldr (fun i acc => f (Z.of_nat i) + acc) 0 l)%R).
  { clear IH Hin. induction l as [|j' l IH']; cbn; [lra|].
    pose proof (Hl j' ltac:(right; by left)).
    pose proof (IH' ltac:(intros i [->|Hi]; apply Hl; [by left|right; by right])). lra. }
  pose proof (Hl j ltac:(by left)).
  destruct Hin as [->|Hin]; [lra|].
  pose proof (IH ltac:(intros; apply Hl; by right) Hin). lra.
Qed.


Lemma window_sum_ext (d d' : Z -> Z -> R) (rows cols : Z * Z) :
  (forall i j, rows.1 <= i < rows.2 -> cols.1 <= j < cols.2 -> d i j = d' i j) ->
  window_sum d rows cols = window_sum d' rows cols.
Proof.
  intros Hd. unfold window_sum.
  apply sum_range_ext. intros i Hi. apply sum_range_ext. intros j Hj. apply Hd; lia.
Qed.



Lemma window_sum_nonneg (d : Z -> Z -> R) (rows cols : Z * Z) :
  (forall i j, (0 <= d i j)%R) -> (0 <= window_sum d rows cols)%R.
Proof.
  intros Hd. unfold window_sum.
  apply sum_range_nonneg. intros i _. apply sum_range_nonneg. intros j _. apply Hd.
Qed.

Lemma window_sum_term (d : Z -> Z -> R) (rows cols : Z * Z) (v h : Z) :
  (forall i j, (0 <= d i j)%R) -> rows.1 <= v < rows.2 -> cols.1 <= h < cols.2 ->
  (d v h <= window_sum d rows cols)%R.
Proof.
  intros Hd Hv Hh. unfold window_sum.
  pose proof (sum_range_term (cols.2 - cols.1) (fun j => d v (cols.1 + j)) (h - cols.1)
                ltac:(intros; apply Hd) ltac:(lia)) as Hrow.
  cbv beta in Hrow. replace (cols.1 + (h - cols.1)) with h in Hrow by lia.
  pose proof (sum_range_term (rows.2 - rows.1)
                (fun i => sum_range (cols.2 - cols.1) (fun j => d (rows.1 + i) (cols.1 + j)))
                (v - rows.1)
                ltac:(intros; apply sum_range_nonneg; intros; apply Hd) ltac:(lia)) as Hall.
  cbv beta in Hall. replace (rows.1 + (v - rows.1)) with v in Hall by lia.
  lra.
Qed.

(** The pooling window of a position of the image holds that position and
    between 1 and 33 rows (or columns) of the image. *)
Lemma avg_pool_window_bounds (len i : Z) :
  0 <= i < len ->
  let w := avg_pool_window 33 16 len i in
  0 <= w.1 /\ w.1 <= i < w.2 /\ w.2 <= len /\ w.2 - w.1 <= 33.
Proof. unfold avg_pool_window. cbn [fst snd]. lia. Qed.

Lemma avg_pool_count (H W v h : Z) :
  0 <= v < H -> 0 <= h < W ->
  let rows := avg_pool_window 33 16 H v in
  let cols := avg_pool_window 33 16 W h in
  (1 <= IZR ((rows.2 - rows.1) * (cols.2 - cols.1)) <= 1089)%R.
Proof.
  intros Hv Hh. cbv zeta.
  destruct (avg_pool_window_bounds H v Hv) as (_ & ? & _ & ?).
  destruct (avg_pool_window_bounds W h Hh) as (_ & ? & _ & ?).
  split; apply IZR_le; nia.
Qed.

Lemma avg_pool_value_ext (d d' : Z -> Z -> R) (H W v h : Z) :
  0 <= v < H -> 0 <= h < W ->
  (forall i j, 0 <= i < H -> 0 <= j < W -> d i j = d' i j) ->
  avg_pool_value 33 16 d H W v h = avg_pool_value 33 16 d' H W v h.
Proof.
  intros Hv Hh Hd. unfold avg_pool_value. cbv zeta. f_equal.
  destruct (avg_pool_window_bounds H v Hv) as (? & ? & ? & _).
  destruct (avg_pool_window_bounds W h Hh) as (? & ? & ? & _).
  apply window_sum_ext. intros i j Hi Hj. apply Hd; lia.
Qed.


Lemma avg_pool_value_nonneg (d : Z -> Z -> R) (H W v h : Z) :
  0 <= v < H -> 0 <= h < W -> (forall i j, (0 <= d i j)%R) ->
  (0 <= avg_pool_value 33 16 d H W v h)%R.
Proof.
  intros Hv Hh Hd. unfold avg_pool_value. cbv zeta.
  pose proof (avg_pool_count H W v h Hv Hh) as Hcount. cbv zeta in Hcount.
  apply Rmult_le_pos; [by apply window_sum_nonneg|].
  left. apply Rinv_0_lt_compat. lra.
Qed.

(** A pooled value is at least 1/1089 of any of the non-negative values
    under the window. *)
Lemma avg_pool_value_term (d : Z -> Z -> R) (H W v h : Z) :
  0 <= v < H -> 0 <= h < W -> (forall i j, (0 <= d i j)%R) ->
  (d v h <= 1089 * avg_pool_value 33 16 d H W v h)%R.
Proof.
  intros Hv Hh Hd. unfold avg_pool_value. cbv zeta.
  pose proof (avg_pool_count H W v h Hv Hh) as Hcount. cbv zeta in Hcount.
  destruct (avg_pool_window_bounds H v Hv) as (_ & ? & _ & _).
  destruct (avg_pool_window_bounds W h Hh) as (_ & ? & _ & _).
  pose proof (window_sum_term d _ _ v h Hd ltac:(eassumption) ltac:(eassumption)) as Hterm.
  pose proof (window_sum_nonneg d (avg_pool_window 33 16 H v) (avg_pool_window 33 16 W h) Hd)
    as Hsum.
  set (S := window_sum d _ _) in *.
  set (K := IZR (((avg_pool_window 33 16 H v).2 - (avg_pool_window 33 16 H v).1)
                 * ((avg_pool_window 33 16 W h).2 - (avg_pool_window 33 16 W h).1))) in *.
  assert (HK : (0 < K)%R) by lra.
  assert (Hdiv : (S <= 1089 * (S / K))%R).
  { apply (Rmult_le_reg_r K); [done|]. unfold Rdiv.
    rewrite !Rmult_assoc, Rinv_l by lra. nra. }
  lra.
Qed.

Lemma AvgPool2d_forward_same_shape (t : Tensor R) :
  nonempty_shape (shape t) ->
  exists pooled,
    AvgPool2d_forward 33 16 t = Ok pooled
    /\ shape pooled = shape t
    /\ forall n c v h,
         data pooled n c v h
         = avg_pool_value 33 16 (data t n c) (height (shape t)) (width (shape t)) v h.
Proof.
  intros (HN & HC & HH & HW). unfold AvgPool2d_forward. cbv zeta.
  guard_true. eexists. split; [reflexivity|]. split; [|done].
  cbn [shape]. destruct (shape t); cbn in *. f_equal; lia.
Qed.

(** What one call computes on a batch with at least one element in every
    dimension. *)
Lemma LocalNorm_forward_run (input_tensor : Tensor R) :
  nonempty_shape (shape input_tensor) ->
  exists printed out,
    LocalNorm_forward input_tensor = Ok (printed, out)
    /\ shape out = shape input_tensor
    /\ length printed = 4%nat
    /\ Forall (fun t => shape t = shape input_tensor) printed
    /\ forall n c v h, in_shape (shape input_tensor) n c v h ->
         data out n c v h = LocalNorm_value input_tensor n c v h.
Proof.
  intros Hs. unfold LocalNorm_forward.
  destruct (AvgPool2d_forward_same_shape input_tensor Hs) as (mean & -> & Hmean & Hmeanv).
  cbn [mbind result_bind]. unfold tmap2.
  rewrite Hmean, broadcast_shape_refl. cbn [mbind result_bind].
  set (centered := mkTensor (shape input_tensor)
                     (fun n c v h => (bdata input_tensor n c v h - bdata mean n c v h)%R)).
  assert (Hcen : forall n c v h, in_shape (shape input_tensor) n c v h ->
            data centered n c v h = LocalNorm_centered input_tensor n c v h).
  { intros n c v h Hin. cbn [centered data]. unfold Rminus at 1.
    rewrite !bdata_in_shape by (by rewrite ?Hmean). by rewrite Hmeanv. }
  destruct (AvgPool2d_forward_same_shape (tmap sqr centered) Hs)
    as (pooled & -> & Hpooled & Hpooledv).
  cbn [mbind result_bind]. cbn [tmap shape] in *.
  rewrite Hpooled, broadcast_shape_refl. cbn [mbind result_bind].
  eexists _, _. split; [reflexivity|]. split; [done|]. split; [done|].
  split; [by repeat constructor|].
  intros n c v h Hin. cbn [data]. unfold Rdiv at 1.
  rewrite (bdata_in_shape centered) by exact Hin.
  rewrite (bdata_in_shape (tmap _ (tmap sqrt pooled)))
    by (cbn [tmap shape]; rewrite Hpooled; exact Hin).
  cbn [data tmap].
  rewrite Hcen, Hpooledv by done. unfold LocalNorm_value.
  change (shape centered) with (shape input_tensor).
  destruct Hin as (Hn & Hc & Hv & Hh).
  rewrite (avg_pool_value_ext _ (fun v' h' => sqr (LocalNorm_centered input_tensor n c v' h')));
    [done..|].
  intros i j Hi Hj. cbn [data tmap]. by rewrite Hcen.
Qed.



Lemma LocalNorm_value_bounded (t : Tensor R) (n c v h : Z) :
  in_shape (shape t) n c v h -> (Rabs (LocalNorm_value t n c v h) < 33)%R.
Proof.
  intros (_ & _ & Hv & Hh). unfold LocalNorm_value.
  set (d := LocalNorm_centered t n c v h).
  set (A := avg_pool_value 33 16 _ _ _ v h).
  assert (Hsq : forall i j, (0 <= sqr (LocalNorm_centered t n c i j))%R).
  { intros i j. unfold sqr. apply pow2_ge_0. }
  assert (HA : (0 <= A)%R) by (by apply avg_pool_value_nonneg).
  assert (Hd : (sqr d <= 1089 * A)%R).
  { apply (avg_pool_value_term (fun v' h' => sqr (LocalNorm_centered t n c v' h'))
             (height (shape t)) (width (shape t)) v h Hv Hh Hsq). }
  pose proof (sqrt_pos A) as Hr. pose proof (sqrt_sqrt A HA) as Hrr.
  set (r := sqrt A) in *.
  assert (Ha : (Rabs d <= 33 * r)%R).
  { pose proof (Rabs_pos d) as Ha0.
    assert (Haa : (Rabs d * Rabs d = d * d)%R).
    { unfold Rabs. destruct (Rcase_abs d); lra. }
    unfold sqr in Hd.
    destruct (Rle_or_lt (Rabs d) (33 * r)) as [|Hgt]; [done|]. exfalso. nra. }
  assert (HD : (0 < r + 1 / 10 ^ 8)%R) by lra.
  unfold Rdiv at 1. rewrite Rabs_mult, Rabs_inv, (Rabs_pos_eq (r + _)) by lra.
  apply (Rmult_lt_reg_r (r + 1 / 10 ^ 8)); [lra|].
  rewrite Rmult_assoc, Rinv_l by lra. lra.
Qed.


(** X3.  On a batch with at least one element in every dimension the call
    returns a tensor of the shape of its input, after it has printed four
    tensors of that shape. *)
Theorem LocalNorm_forward_shape (input_tensor : Tensor R) :
  nonempty_shape (shape input_tensor) ->
  exists printed out,
    LocalNorm_forward input_tensor = Ok (printed, out)
    /\ shape out = shape input_tensor
    /\ length printed = 4%nat
    /\ Forall (fun t => shape t = shape input_tensor) printed.
Proof.
  intros Hs.
  destruct (LocalNorm_forward_run input_tensor Hs)
    as (printed & out & Hrun & Hshape & Hlen & Hprinted & _).
  by exists printed, out.
Qed.

(** X4.  Every value of the result is below 33 in absolute value: a window holds
    at most 33 * 33 positions, the position itself among them. *)
Theorem LocalNorm_forward_bounded (input_tensor : Tensor R) :
  nonempty_shape (shape input_tensor) ->
  exists printed out,
    LocalNorm_forward input_tensor = Ok (printed, out)
    /\ forall n c v h, in_shape (shape input_tensor) n c v h ->
         (Rabs (data out n c v h) < 33)%R.
Proof.
  intros Hs.
  destruct (LocalNorm_forward_run input_tensor Hs)
    as (printed & out & Hrun & _ & _ & _ & Hval).
  exists printed, out. split; [done|].
  intros n c v h Hin. rewrite Hval by done. by apply LocalNorm_value_bounded.
Qed.



Lemma LocalNorm_forward_shape_witness :
  exists printed out,
    LocalNorm_forward (zero_image 40 50) = Ok (printed, out)
    /\ shape out = mkShape 1 1 40 50
    /\ length printed = 4%nat
    /\ Forall (fun t => shape t = mkShape 1 1 40 50) printed.
Proof.
  apply (LocalNorm_forward_shape (zero_image 40 50)).
  unfold nonempty_shape. cbn. lia.
Defined.

Lemma LocalNorm_forward_bounded_witness :
  exists printed out,
    LocalNorm_forward (mkTensor (mkShape 1 1 40 50) (fun _ _ v h => IZR (v * h)))
    = Ok (printed, out)
    /\ forall n c v h, in_shape (mkShape 1 1 40 50) n c v h ->
         (Rabs (data out n c v h) < 33)%R.
Proof.
  apply (LocalNorm_forward_bounded
           (mkTensor (mkShape 1 1 40 50) (fun _ _ v h => IZR (v * h)))).
  unfold nonempty_shape. cbn. lia.
Defined.



(** ** MultiScaleLoss with a scale factor set by the caller *)

Lemma Qfloor_mul_1 (k : Z) (q : Q) : Qfloor (inject_Z k * q ^ (- 0)) = k.
Proof.
  change (q ^ (- 0))%Q with 1%Q. unfold Qfloor, Qmult, inject_Z. cbn [Qnum Qden].
  change (Z.pos (1 * 1)) with 1. by rewrite Z.mul_1_r, Z.div_1_r.
Qed.

Lemma interpolate_scale_identity (bilinear_values : Tensor R -> Z -> Z -> Data)
    (t : Tensor R) (q : Q) :
  0 < height (shape t) -> 0 < width (shape t) ->
  exists t',
    interpolate_scale bilinear_values t (q ^ (- 0)) bilinear = Ok t' /\ shape t' = shape t.
Proof.
  intros HH HW. unfold interpolate_scale. cbv zeta. rewrite !Qfloor_mul_1.
  guard_true. eexists. split; [reflexivity|]. cbn [shape]. by destruct (shape t).
Qed.

Lemma interpolate_scale_shape (bilinear_values : Tensor R -> Z -> Z -> Data)
    (t t' : Tensor R) (scale : Q) (mode : InterpMode) :
  interpolate_scale bilinear_values t scale mode = Ok t' ->
  shape t' = mkShape (batch (shape t)) (channels (shape t))
                     (Qfloor (inject_Z (height (shape t)) * scale))
                     (Qfloor (inject_Z (width (shape t)) * scale)).
Proof.
  unfold interpolate_scale. cbv zeta. destruct (_ && _); [|done]. by intros [= <-].
Qed.

Lemma interpolate_scale_error (bilinear_values : Tensor R -> Z -> Z -> Data)
    (t : Tensor R) (scale : Q) (mode : InterpMode) (err : PyError) :
  interpolate_scale bilinear_values t scale mode = Raise err -> err = RuntimeError.
Proof.
  unfold interpolate_scale. cbv zeta. destruct (_ && _); [done|]. by intros [= <-].
Qed.

Lemma Criterion_forward_same_shape (c : Criterion) (a b : Tensor R) :
  shape a = shape b -> exists e, Criterion_forward c a b = Ok e.
Proof.
  intros Hs. unfold Criterion_forward, tmap2. rewrite Hs, broadcast_shape_refl.
  destruct c; by eexists.
Qed.

Lemma Criterion_forward_mismatch (c : Criterion) (a b : Tensor R) :
  broadcast_shape (shape a) (shape b) = None ->
  Criterion_forward c a b = Raise RuntimeError.
Proof. intros Hs. unfold Criterion_forward, tmap2. rewrite Hs. by destruct c. Qed.

Lemma broadcast_shape_height_mismatch (s1 s2 : Shape) :
  height s1 <> height s2 -> height s1 <> 1 -> height s2 <> 1 ->
  broadcast_shape s1 s2 = None.
Proof.
  intros Hne H1 H2. unfold broadcast_shape.
  destruct (broadcast_dim (batch s1) (batch s2)); [|done]. cbn [mbind option_bind].
  destruct (broadcast_dim (channels s1) (channels s2)); [|done]. cbn [mbind option_bind].
  assert (Hdim : broadcast_dim (height s1) (height s2) = None); [|by rewrite Hdim].
  unfold broadcast_dim.
  destruct (Z.eqb_spec (height s1) (height s2)); [done|].
  destruct (Z.eqb_spec (height s1) 1); [done|].
  by destruct (Z.eqb_spec (height s2) 1).
Qed.

(** X10.  Setting the missing [scale_factor] attribute from outside does not make
    the loss usable on more than one scale: the second iteration resizes
    the input and compares it with the target, which has kept its size.
    When the resized height is neither 1 nor the height of the target the
    call raises a [RuntimeError]. *)
Theorem MultiScaleLoss_forward_second_scale_raises
    (bilinear_values : Tensor R -> Z -> Z -> Data) (q : Q)
    (input_tensor target_tensor : Tensor R) (w0 w1 : R) (scale_weights : list R) :
  let self := setattr MultiScaleLoss_init "scale_factor" (VNum q) in
  shape input_tensor = shape target_tensor ->
  0 < width (shape input_tensor) ->
  1 < Qfloor (inject_Z (height (shape input_tensor)) * q ^ (- (1))) ->
  Qfloor (inject_Z (height (shape input_tensor)) * q ^ (- (1)))
    < height (shape input_tensor) ->
  MultiScaleLoss_forward bilinear_values self input_tensor target_tensor
                         (w0 :: w1 :: scale_weights)
  = (Raise RuntimeError, self).
Proof.
  intros self Hshape HW Hoh1 HohH.
  set (oh := Qfloor (inject_Z (height (shape input_tensor)) * q ^ (- (1)))) in *.
  unfold MultiScaleLoss_forward. f_equal. cbn [MultiScaleLoss_loop].
  assert (Hsf : getattr self "scale_factor" = Ok (VNum q)) by done.
  assert (Hmse : getattr self "mse" = Ok (VCriterion MSELoss)) by done.
  rewrite Hsf, Hmse. cbn [mbind result_bind as_rational as_criterion].
  destruct (interpolate_scale_identity bilinear_values input_tensor q)
    as (t0 & -> & Ht0); [lia|done|].
  cbn [mbind result_bind].
  destruct (Criterion_forward_same_shape MSELoss t0 target_tensor) as (e & ->);
    [congruence|].
  cbn [mbind result_bind]. change (0 + 1) with 1.
  destruct (interpolate_scale bilinear_values t0 (q ^ (- (1))) bilinear) as [t1|err] eqn:Hint.
  - apply interpolate_scale_shape in Hint. cbn [mbind result_bind].
    rewrite Criterion_forward_mismatch; [done|].
    apply broadcast_shape_height_mismatch; rewrite ?Hint, ?Ht0, <- ?Hshape;
      cbn [height]; fold oh; lia.
  - apply interpolate_scale_error in Hint. by subst err.
Qed.

Lemma MultiScaleLoss_forward_second_scale_raises_witness :
  MultiScaleLoss_forward zero_bilinear
    (setattr MultiScaleLoss_init "scale_factor" (VNum 2))
    (zero_image 8 8) (zero_image 8 8) [1%R; 1%R]
  = (Raise RuntimeError, setattr MultiScaleLoss_init "scale_factor" (VNum 2)).
Proof.
  apply (MultiScaleLoss_forward_second_scale_raises zero_bilinear 2
           (zero_image 8 8) (zero_image 8 8) 1 1 []).
  - reflexivity.
  - cbn. lia.
  - vm_compute. reflexivity.
  - vm_compute. reflexivity.
Defined.
